(** * gitdata: fetching CSV files from a public GitHub repository and
      consolidating their rows per ticker.

    Shallow embedding of [gitdata/fetch.py], [gitdata/process.py] and the
    processing loop of [gitdata/cli.py].  Python code that prints, sleeps,
    talks to the network, writes files and raises is written in a small
    state-and-exception monad over a [World]. *)

From Stdlib Require Import ZArith Lia Ascii String List DecimalString Sorted.
From stdpp Require Import base option list strings gmap fin_maps.

Local Open Scope string_scope.
Local Open Scope list_scope.

(** ** Python strings *)

Module Str.

(** [c.lower()] on one byte.  Only the ASCII letters change; every byte
    of a multi-byte UTF-8 character is left alone. *)
Definition lower_ascii (c : ascii) : ascii :=
  let n := nat_of_ascii c in
  if (65 <=? n)%nat && (n <=? 90)%nat then ascii_of_nat (n + 32) else c.

(** [s.lower()] *)
Fixpoint lower (s : string) : string :=
  match s with
  | EmptyString => EmptyString
  | String c s' => String (lower_ascii c) (lower s')
  end.

(** [s.startswith(p)] *)
Definition startswith (s p : string) : bool := String.prefix p s.

(** [s.endswith(suf)] *)
Fixpoint endswith (s suf : string) : bool :=
  if String.eqb s suf then true
  else match s with
       | EmptyString => false
       | String _ s' => endswith s' suf
       end.

(** [sub in s] *)
Fixpoint contains (sub s : string) : bool :=
  if String.prefix sub s then true
  else match s with
       | EmptyString => false
       | String _ s' => contains sub s'
       end.

(** [str(n)] for a non-negative integer *)
Definition of_nat (n : nat) : string := NilZero.string_of_uint (Nat.to_uint n).

(** [str(z)] for an integer *)
Definition of_Z (z : Z) : string := NilZero.string_of_int (Z.to_int z).

(** The integer that a numeral written by [str] stands for *)
Definition to_Z (s : string) : Z :=
  match NilZero.int_of_string s with
  | Some d => Z.of_int d
  | None => 0
  end.

End Str.

(** ** Exceptions

    Only the part of Python's exception hierarchy that the handlers of the
    package distinguish: [requests.exceptions.Timeout] is a subclass of
    [requests.exceptions.RequestException], which is a subclass of
    [Exception]; every other exception raised in the package (by the
    package's own [raise Exception(...)], by pandas or by the operating
    system) is caught only by [except Exception]. *)

Inductive exn : Type :=
| Timeout (msg : string)
| RequestException (msg : string)
| Exception (msg : string).

(** [str(e)] *)
Definition str (e : exn) : string :=
  match e with Timeout m | RequestException m | Exception m => m end.

(** [isinstance(e, requests.exceptions.RequestException)] *)
Definition is_RequestException (e : exn) : bool :=
  match e with Timeout _ | RequestException _ => true | Exception _ => false end.

(** ** The world and the monad *)

(** What the program can do to its surroundings.  A file is known by the
    path that the program opens it with, as a string: two paths that differ
    are two files here, also where a file system would take them to one
    file (['./data/A.csv'] and ['./data/./A.csv']). *)
Record World : Type := mkWorld {
  stdout : list string;          (* lines printed so far, oldest first *)
  slept : list nat;              (* arguments of [time.sleep], oldest first *)
  requested : list string;       (* URLs of the GET requests sent, oldest first *)
  files : gmap string string     (* the regular files: path to content *)
}.

Inductive res (A : Type) : Type :=
| Ok (a : A)
| Raise (e : exn).
Arguments Ok {A} a.
Arguments Raise {A} e.

Definition M (A : Type) : Type := World -> res A * World.

Definition ret {A} (a : A) : M A := fun w => (Ok a, w).

Definition raise {A} (e : exn) : M A := fun w => (Raise e, w).

Definition bind {A B} (m : M A) (k : A -> M B) : M B :=
  fun w => match m w with
           | (Ok a, w') => k a w'
           | (Raise e, w') => (Raise e, w')
           end.

(** [try: m  except <class>: h], where [handles e] tells whether [e] is an
    instance of the class; what [m] did to the world before raising stays. *)
Definition try_except {A} (m : M A) (handles : exn -> bool) (h : exn -> M A) : M A :=
  fun w => match m w with
           | (Ok a, w') => (Ok a, w')
           | (Raise e, w') => if handles e then h e w' else (Raise e, w')
           end.

Declare Scope py_scope.
Delimit Scope py_scope with py.
Notation "x <- m ;; k" := (bind m (fun x => k))
  (at level 100, m at next level, right associativity) : py_scope.
Notation "m ;;; k" := (bind m (fun _ => k))
  (at level 100, right associativity) : py_scope.
Local Open Scope py_scope.

(** [print(line)] and [click.echo(line)] *)
Definition print (line : string) : M unit :=
  fun w => (Ok tt, mkWorld (stdout w ++ [line]) (slept w) (requested w) (files w)).

(** [time.sleep(seconds)] *)
Definition sleep (seconds : nat) : M unit :=
  fun w => (Ok tt, mkWorld (stdout w) (slept w ++ [seconds]) (requested w) (files w)).

(** ** fetch.py *)

Record Response : Type := mkResponse {
  status_code : Z;
  text : string
}.

(** What one [session.get(url, timeout=30)] does: it returns a response or
    raises one of the [requests] exceptions. *)
Inductive get_outcome : Type :=
| Got (r : Response)
| GetRaises (e : exn).

(** What [response.json()] holds for a contents request: a list of items
    for a directory, a single item when the path points to a file. *)
Inductive contents (A : Type) : Type :=
| JList (items : list A)
| JDict (item : A).
Arguments JList {A} items.
Arguments JDict {A} item.

(** The response to a contents request, as far as the walk reads it. *)
Record listing (A : Type) : Type := mkListing {
  l_status_code : Z;
  l_json : contents A
}.
Arguments mkListing {A} _ _.
Arguments l_status_code {A} _.
Arguments l_json {A} _.

(** One item of a contents response, with the keys the walk reads.  The
    repository is a finite tree, and the walk asks for the contents of a
    directory once, when it meets the directory's item; [i_served] is what
    the call of [_make_request] for that directory ends with: the response
    it returns or the exception it raises after its retries.  It is read
    for an item of type ['dir'] only. *)
#[warnings="-register-all"] Inductive item : Type :=
  Item (i_type i_name i_path i_download_url : string) (i_size : Z)
       (i_served : res (listing item)).

Definition i_type (it : item) : string := let 'Item t _ _ _ _ _ := it in t.
Definition i_name (it : item) : string := let 'Item _ n _ _ _ _ := it in n.
Definition i_path (it : item) : string := let 'Item _ _ p _ _ _ := it in p.
Definition i_download_url (it : item) : string := let 'Item _ _ _ u _ _ := it in u.
Definition i_size (it : item) : Z := let 'Item _ _ _ _ z _ := it in z.
Definition i_served (it : item) : res (listing item) := let 'Item _ _ _ _ _ s := it in s.

(** The dictionary the walk builds for a CSV file. *)
Record file_info : Type := mkFileInfo {
  name : string;
  path : string;
  download_url : string;
  size : Z
}.

Definition base_url : string := "https://api.github.com".

(** The URL of the repository lookup of [fetch_csv_files]. *)
Definition repo_url (username repository : string) : string :=
  base_url +:+ "/repos/" +:+ username +:+ "/" +:+ repository.

(** The test of [_make_request] for a rate-limited response. *)
Definition rate_limited (response : Response) : bool :=
  (status_code response =? 403)%Z
  && Str.contains "rate limit" (Str.lower (text response)).

Section Fetch.

(** The network: the outcome of the GET request for [url] that is sent
    after [n] earlier requests. *)
Variable session_get : nat -> string -> get_outcome.

Definition get (url : string) : M Response :=
  fun w =>
    let w' := mkWorld (stdout w) (slept w) (requested w ++ [url]) (files w) in
    match session_get (List.length (requested w)) url with
    | Got r => (Ok r, w')
    | GetRaises e => (Raise e, w')
    end.

(** How one iteration of the [for attempt in range(max_retries)] loop of
    [_make_request] ends: with [continue] or with [return response].  *)
Inductive signal : Type :=
| Continue
| Return (response : Response).

(** One iteration of the loop, with loop variable [attempt].  The two
    [except] clauses of the source have the same body up to the text
    printed; [Timeout] is tried first, so a timeout prints the first
    text.  A [raise] in the [try] block or in a handler leaves the
    function. *)
Definition attempt_body (url : string) (max_retries attempt : nat) : M signal :=
  try_except
    (response <- get url ;;
     if rate_limited response then
       if (attempt <? max_retries - 1)%nat then
         print ("Rate limited. Waiting " +:+ Str.of_nat 60
                +:+ " seconds before retry...") ;;;
         sleep 60 ;;;
         ret Continue
       else
         raise (Exception "GitHub API rate limit exceeded. Please try again later.")
     else ret (Return response))
    is_RequestException
    (fun e =>
       if (attempt <? max_retries - 1)%nat then
         print ((match e with
                 | Timeout _ => "Request timeout. Retrying... (attempt "
                 | _ => "Request failed. Retrying... (attempt "
                 end)
                +:+ Str.of_nat (attempt + 1) +:+ "/"
                +:+ Str.of_nat max_retries +:+ ")") ;;;
         sleep 2 ;;;
         ret Continue
       else raise e).

(** The loop with [n] iterations left, the next one with loop variable
    [attempt].  [Some r] is a [return r] from inside the loop, [None] is
    the loop running to its end. *)
Fixpoint retry_loop (url : string) (max_retries n attempt : nat) : M (option Response) :=
  match n with
  | O => ret None
  | S n' =>
      s <- attempt_body url max_retries attempt ;;
      match s with
      | Continue => retry_loop url max_retries n' (S attempt)
      | Return response => ret (Some response)
      end
  end.

Definition _make_request (url : string) (max_retries : nat) : M Response :=
  r <- retry_loop url max_retries max_retries 0 ;;
  match r with
  | Some response => ret response
  | None => raise (Exception "Maximum retries exceeded")
  end.

(** The default value of [max_retries]; no caller passes another. *)
Definition default_max_retries : nat := 3.

(** [download_csv_content] *)
Definition download_csv_content (download_url : string) : M string :=
  try_except
    (response <- _make_request download_url default_max_retries ;;
     if negb (status_code response =? 200)%Z then
       raise (Exception ("Failed to download file: HTTP "
                         +:+ Str.of_Z (status_code response)))
     else ret (text response))
    is_RequestException
    (fun e => raise (Exception ("Network error while downloading file: " +:+ str e))).

(** The request of the walk for the contents of a directory.  The walk is
    followed from one call of [_make_request] to the next: the result of
    a call is the one the tree holds, and of what the call does on its way
    only the URL it asks for is recorded, once.  The attempts that
    [_make_request] repeats, their sleeps and the lines it prints before
    them are those of [retry_loop] and are not replayed here. *)
Definition request_contents (url : string) : M unit :=
  fun w => (Ok tt, mkWorld (stdout w) (slept w) (requested w ++ [url]) (files w)).

(** The test of the walk for a CSV file. *)
Definition is_csv_file (it : item) : bool :=
  String.eqb (i_type it) "file" && Str.endswith (Str.lower (i_name it)) ".csv".

(** The dictionary appended for a CSV file. *)
Definition info_of (it : item) : file_info :=
  mkFileInfo (i_name it) (i_path it) (i_download_url it) (i_size it).

(** One iteration of [for item in contents], where [sub] is the recursive
    call on the item and [csv_files] the list built so far. *)
Definition visit (it : item) (sub : M (list file_info)) (csv_files : list file_info)
  : M (list file_info) :=
  if is_csv_file it then ret (csv_files ++ [info_of it])
  else if String.eqb (i_type it) "dir" then
    sub_csv_files <- sub ;;
    ret (csv_files ++ sub_csv_files)
  else ret csv_files.

(** [for item in contents], where [walk] is the recursive call. *)
Definition visit_all (walk : item -> M (list file_info))
  : list item -> list file_info -> M (list file_info) :=
  fix loop (items : list item) (csv_files : list file_info) :=
    match items with
    | [] => ret csv_files
    | it :: rest =>
        csv_files' <- visit it (walk it) csv_files ;;
        loop rest csv_files'
    end.

(** The list [contents] after
    [if isinstance(contents, dict): contents = [contents]]. *)
Definition items_of {A} (json : contents A) : list A :=
  match json with
  | JList items => items
  | JDict it => [it]
  end.

(** The URL of the contents request for [path]. *)
Definition contents_url (username repository branch path : string) : string :=
  let contents_url :=
    base_url +:+ "/repos/" +:+ username +:+ "/" +:+ repository
    +:+ "/contents/" +:+ path in
  if negb (String.eqb branch "main")
  then contents_url +:+ "?ref=" +:+ branch else contents_url.

(** [_get_csv_files_recursive(username, repository, branch, path)], where
    [dir] carries [path] and what the contents request for it yields.  An
    exception of class [RequestException] can only come from the request
    itself (the recursive calls handle their own), so [csv_files] is still
    empty when the handler returns it. *)
Fixpoint _get_csv_files_recursive (username repository branch : string) (dir : item)
  : M (list file_info) :=
  try_except
    (request_contents (contents_url username repository branch (i_path dir)) ;;;
     match i_served dir with
     | Raise e => raise e
     | Ok response =>
         if negb (l_status_code response =? 200)%Z then ret []
         else
           match l_json response with
           | JDict it =>
               visit_all (_get_csv_files_recursive username repository branch) [it] []
           | JList items =>
               visit_all (_get_csv_files_recursive username repository branch) items []
           end
     end)
    is_RequestException
    (fun e =>
       print ("Warning: Could not access directory " +:+ i_path dir +:+ ": " +:+ str e) ;;;
       ret []).

(** [fetch_csv_files(username, repository, branch)]; [root] is what the
    contents request for the repository's root (path [""]) yields. *)
Definition fetch_csv_files (root : res (listing item))
    (username repository branch : string) : M (list file_info) :=
  try_except
    (repo_response <- _make_request (repo_url username repository) default_max_retries ;;
     if (status_code repo_response =? 404)%Z then
       raise (Exception ("Repository " +:+ username +:+ "/" +:+ repository
                         +:+ " not found or is not public"))
     else if negb (status_code repo_response =? 200)%Z then
       raise (Exception ("Failed to access repository: HTTP "
                         +:+ Str.of_Z (status_code repo_response)))
     else
       _get_csv_files_recursive username repository branch
         (Item "dir" "" "" "" 0 root))
    is_RequestException
    (fun e => raise (Exception ("Network error while accessing GitHub: " +:+ str e))).

End Fetch.

(** ** pandas

    A table as the processor handles it: column labels in order and rows
    in order, each row with the label of the index (its position in the
    file it was parsed from) and one cell per column.  A cell holds the
    text of the field, as Python prints the value that the parser read;
    [None] is a missing value.

    The parser also gives the columns their types, and [groupby] sorts the
    values of a column as its type compares them: numbers by value ([9]
    before [10]), text character by character (['10'] before ['9']).  A
    table carries that order for the column it is grouped by:
    [sorts_before df a b] tells whether the value printed as [a] comes
    before the value printed as [b]. *)

Definition cell : Type := option string.

Record row : Type := mkRow {
  index : nat;
  cells : list cell
}.

Record DataFrame : Type := mkDataFrame {
  columns : list string;
  rows : list row;
  sorts_before : string -> string -> bool
}.

Module pd.

(** [df.empty]: one of the two axes has length 0 *)
Definition empty (df : DataFrame) : bool :=
  match columns df, rows df with
  | [], _ | _, [] => true
  | _, _ => false
  end.

(** [len(df)] *)
Definition len (df : DataFrame) : nat := List.length (rows df).

(** [name in df.columns] *)
Definition has_column (name : string) (df : DataFrame) : bool :=
  existsb (String.eqb name) (columns df).

(** [df.rename(columns={old: new})] *)
Definition rename (old new : string) (df : DataFrame) : DataFrame :=
  mkDataFrame (map (fun c => if String.eqb c old then new else c) (columns df))
              (rows df) (sorts_before df).

(** The cells of a row under the columns labelled [name]. *)
Fixpoint select (name : string) (cols : list string) (cs : list cell) : list cell :=
  match cols, cs with
  | c :: cols', x :: cs' =>
      if String.eqb c name then x :: select name cols' cs' else select name cols' cs'
  | _, _ => []
  end.

(** The cells of a row under the columns not labelled [name]. *)
Fixpoint reject (name : string) (cols : list string) (cs : list cell) : list cell :=
  match cols, cs with
  | c :: cols', x :: cs' =>
      if String.eqb c name then reject name cols' cs' else x :: reject name cols' cs'
  | _, _ => []
  end.

(** [df.drop(columns=[name])]: every column with that label goes; a label
    that no column has is a [KeyError]. *)
Definition drop (name : string) (df : DataFrame) : res DataFrame :=
  if has_column name df then
    Ok (mkDataFrame (List.filter (fun c => negb (String.eqb c name)) (columns df))
                    (map (fun r => mkRow (index r) (reject name (columns df) (cells r)))
                         (rows df))
                    (sorts_before df))
  else Raise (Exception ("KeyError: ['" +:+ name +:+ "'] not found in axis")).

(** The value of a row in the one column labelled [name]. *)
Definition key (name : string) (df : DataFrame) (r : row) : cell :=
  match select name (columns df) (cells r) with
  | x :: _ => x
  | [] => None
  end.

(** The order of a column of text, as Python compares strings: character
    by character. *)
Definition as_text : string -> string -> bool := String.ltb.

(** The order of a column of integers: by value. *)
Definition as_integer (a b : string) : bool := (Str.to_Z a <? Str.to_Z b)%Z.

(** Insertion of a key in its place among the keys [ks]. *)
Fixpoint insert_key (before : string -> string -> bool) (k : string)
    (ks : list string) : list string :=
  match ks with
  | [] => [k]
  | k' :: ks' =>
      if before k k' then k :: ks
      else k' :: insert_key before k ks'
  end.

(** The distinct values among [ks], in the order [before]. *)
Definition sorted_keys (before : string -> string -> bool) (ks : list string)
    : list string :=
  fold_right (insert_key before) [] (nodup string_dec ks).

(** The rows whose value in column [name] is [k]. *)
Definition group (name : string) (df : DataFrame) (k : string) : DataFrame :=
  mkDataFrame (columns df)
    (List.filter (fun r => match key name df r with
                      | Some v => String.eqb v k
                      | None => false
                      end) (rows df))
    (sorts_before df).

(** [df.groupby(name)], as the list of pairs that iterating over it gives:
    one group per distinct value, in the order in which the values of the
    column sort, the rows of a group in their order in [df]; rows with a
    missing value belong to no group.  No column labelled [name] is a
    [KeyError], several are a [ValueError]. *)
Definition groupby (name : string) (df : DataFrame) : res (list (string * DataFrame)) :=
  match List.filter (String.eqb name) (columns df) with
  | [] => Raise (Exception ("KeyError: " +:+ name))
  | [_] =>
      Ok (map (fun k => (k, group name df k))
              (sorted_keys (sorts_before df) (omap (key name df) (rows df))))
  | _ => Raise (Exception ("ValueError: Grouper for '" +:+ name +:+ "' not 1-dimensional"))
  end.

End pd.

(** [os.path.join(a, b)] on a POSIX system *)
Definition os_path_join (a b : string) : string :=
  if Str.startswith b "/" then b
  else if String.eqb a "" || Str.endswith a "/" then a +:+ b
  else a +:+ "/" +:+ b.

(** ** process.py *)

(** The value stored in [results] for a ticker. *)
Record ticker_result : Type := mkTickerResult {
  ticker : string;
  rows_processed : nat;
  duplicates_removed : nat;
  output_file : string
}.

(** [d[k] = v] on a dictionary, which keeps its keys in insertion order. *)
Fixpoint dict_set {V} (k : string) (v : V) (d : list (string * V)) : list (string * V) :=
  match d with
  | [] => [(k, v)]
  | (k', v') :: d' => if String.eqb k k' then (k, v) :: d' else (k', v') :: dict_set k v d'
  end.

(** The dictionary [process_csv_file] returns. *)
Inductive process_result : Type :=
| Success (ticker : string) (duplicates_removed rows_processed : nat)
| Failure (error : string).

(** [self.ticker_columns] *)
Definition ticker_columns : list string :=
  ["symbol"; "ticker"; "Symbol"; "Ticker"; "SYMBOL"; "TICKER"].

(** The loop of [_clean_dataframe] over [self.ticker_columns], left at the
    first name that is a column of the table. *)
Definition find_ticker_column (df : DataFrame) : option string :=
  List.find (fun ticker_name => pd.has_column ticker_name df) ticker_columns.

(** [except Exception] *)
Definition any_Exception (e : exn) : bool := true.

Section Process.

Variable session_get : nat -> string -> get_outcome.

(** [pd.read_csv(StringIO(csv_content))]: the table parsed from the text,
    or the parser's exception. *)
Variable read_csv : string -> res DataFrame.

(** The text that [to_csv] writes for the header line of a table and for
    one of its rows (index label first). *)
Variable csv_header : list string -> string.
Variable csv_line : row -> string.

(** Opening a path for writing: [Some msg] when the operating system
    refuses (no such directory, a directory of that name, no permission)
    and [OSError(msg)] is raised, [None] when the file opens. *)
Variable open_error : string -> option string.

(** [self.save_dir] *)
Variable save_dir : string.

(** [os.path.join(self.save_dir, f"{ticker}.csv")] *)
Definition output_path (ticker : string) : string :=
  os_path_join save_dir (ticker +:+ ".csv").

(** [os.path.exists(p)] *)
Definition os_path_exists (p : string) : M bool :=
  fun w => (Ok (bool_decide (is_Some (files w !! p))), w).

(** The text of the rows of a table. *)
Definition csv_rows (df : DataFrame) : string :=
  String.concat "" (map csv_line (rows df)).

(** [df.to_csv(p, mode='a', header=False)] *)
Definition to_csv_append (df : DataFrame) (p : string) : M unit :=
  fun w =>
    match open_error p with
    | Some msg => (Raise (Exception msg), w)
    | None =>
        let old := default "" (files w !! p) in
        (Ok tt, mkWorld (stdout w) (slept w) (requested w)
                        (<[p := old +:+ csv_rows df]> (files w)))
    end.

(** [df.to_csv(p)] *)
Definition to_csv (df : DataFrame) (p : string) : M unit :=
  fun w =>
    match open_error p with
    | Some msg => (Raise (Exception msg), w)
    | None =>
        (Ok tt, mkWorld (stdout w) (slept w) (requested w)
                        (<[p := csv_header (columns df) +:+ csv_rows df]> (files w)))
    end.

(** A pure computation that may raise. *)
Definition lift {A} (r : res A) : M A := fun w => (r, w).

(** [_clean_dataframe] *)
Definition _clean_dataframe (df : DataFrame) (filename : string) : M (option DataFrame) :=
  try_except
    (let ticker_col := find_ticker_column df in
     match ticker_col with
     | None =>
         print ("Warning: File " +:+ filename +:+ " missing ticker/symbol column") ;;;
         ret None
     | Some ticker_col =>
         let df := if negb (String.eqb ticker_col "ticker")
                   then pd.rename ticker_col "ticker" df else df in
         ret (Some df)
     end)
    any_Exception
    (fun e =>
       print ("Warning: Error processing " +:+ filename +:+ ": " +:+ str e) ;;;
       ret None).

(** One iteration of [for ticker, ticker_df in ticker_groups]. *)
Definition save_ticker (filename : string) (ticker : string) (ticker_df : DataFrame)
    (results : list (string * ticker_result)) : M (list (string * ticker_result)) :=
  try_except
    (ticker_data <- lift (pd.drop "ticker" ticker_df) ;;
     let output_file := output_path ticker in
     exists_ <- os_path_exists output_file ;;
     (if exists_ : bool then to_csv_append ticker_data output_file
      else to_csv ticker_data output_file) ;;;
     ret (dict_set ticker
            (mkTickerResult ticker (pd.len ticker_data) 0 output_file) results))
    any_Exception
    (fun e =>
       print ("Warning: Error processing ticker " +:+ ticker +:+ " from " +:+ filename
              +:+ ": " +:+ str e) ;;;
       ret results).

(** The loop of [_process_tickers] over the groups still to visit. *)
Fixpoint save_tickers (filename : string) (ticker_groups : list (string * DataFrame))
    (results : list (string * ticker_result)) : M (list (string * ticker_result)) :=
  match ticker_groups with
  | [] => ret results
  | (ticker, ticker_df) :: rest =>
      results' <- save_ticker filename ticker ticker_df results ;;
      save_tickers filename rest results'
  end.

(** [_process_tickers] *)
Definition _process_tickers (df : DataFrame) (filename : string)
  : M (list (string * ticker_result)) :=
  ticker_groups <- lift (pd.groupby "ticker" df) ;;
  save_tickers filename ticker_groups [].

(** The [try] block of [process_csv_file] *)
Definition process_csv_file_body (info : file_info) : M process_result :=
  csv_content <- download_csv_content session_get (download_url info) ;;
  df <- lift (read_csv csv_content) ;;
  if pd.empty df then
    ret (Failure ("File " +:+ name info +:+ " is empty"))
  else
    cleaned_df <- _clean_dataframe df (name info) ;;
    match cleaned_df with
    | None =>
        ret (Failure ("File " +:+ name info +:+ " has no valid data after cleaning"))
    | Some cleaned_df =>
        if pd.empty cleaned_df then
          ret (Failure ("File " +:+ name info +:+ " has no valid data after cleaning"))
        else
          results <- _process_tickers cleaned_df (name info) ;;
          match results with
          | [] => ret (Failure ("No valid ticker data found in " +:+ name info))
          | (_, first_result) :: _ =>
              ret (Success (ticker first_result)
                           (duplicates_removed first_result)
                           (rows_processed first_result))
          end
    end.

(** [process_csv_file] *)
Definition process_csv_file (info : file_info) : M process_result :=
  try_except
    (process_csv_file_body info)
    any_Exception
    (fun e => ret (Failure ("Error processing " +:+ name info +:+ ": " +:+ str e))).

(** ** cli.py: the loop of [gitdata_cli] over the files found *)

(** The counters of the loop; [ticker_stats] maps a ticker to its
    ['files'] count. *)
Record tally : Type := mkTally {
  total_processed : nat;
  total_errors : nat;
  ticker_stats : list (string * nat)
}.

(** [d[k]] for a key of the dictionary *)
Fixpoint dict_get {V} (k : string) (d : list (string * V)) : option V :=
  match d with
  | [] => None
  | (k', v) :: d' => if String.eqb k k' then Some v else dict_get k d'
  end.

(** One iteration of [for file_info in csv_files].  Printing and counting
    do not raise, so the counters the handler sees are those the
    iteration started with. *)
Definition process_file (info : file_info) (t : tally) : M tally :=
  try_except
    (print ("📊 Processing file: " +:+ name info) ;;;
     result <- process_csv_file info ;;
     match result with
     | Success ticker _ _ =>
         let stats :=
           match dict_get ticker (ticker_stats t) with
           | None => dict_set ticker 0%nat (ticker_stats t)
           | Some _ => ticker_stats t
           end in
         let stats := dict_set ticker (default 0%nat (dict_get ticker stats) + 1)%nat stats in
         print ("✅ Processed " +:+ ticker) ;;;
         ret (mkTally (total_processed t + 1) (total_errors t) stats)
     | Failure error =>
         print ("⚠️  Skipped: " +:+ error) ;;;
         ret (mkTally (total_processed t) (total_errors t + 1) (ticker_stats t))
     end)
    any_Exception
    (fun e =>
       print ("❌ Error processing " +:+ name info +:+ ": " +:+ str e) ;;;
       ret (mkTally (total_processed t) (total_errors t + 1) (ticker_stats t))).

(** The loop, from the counters [t] on. *)
Fixpoint process_files (csv_files : list file_info) (t : tally) : M tally :=
  match csv_files with
  | [] => ret t
  | info :: rest =>
      t' <- process_file info t ;;
      process_files rest t'
  end.

End Process.

(** ** process.py: [get_ticker_summary] *)

(** The value stored in [summary] for a ticker: the number of rows and
    the size of its file, or the text of the error met when reading it. *)
Inductive summary_entry : Type :=
| Readable (rows file_size : nat)
| Unreadable (error : string).

(** [filename[:-4]] *)
Definition drop_last_4 (filename : string) : string :=
  String.substring 0 (String.length filename - 4) filename.

Section Summary.

Variable read_csv : string -> res DataFrame.

(** The save directory as the operating system shows it: [None] when the
    path does not exist, else what [os.listdir] does for it, the names it
    returns or the exception it raises. *)
Variable listdir : string -> option (res (list string)).

Variable save_dir : string.

(** [pd.read_csv(filepath)]: the file is opened and its text parsed. *)
Definition read_csv_file (filepath : string) : M DataFrame :=
  fun w =>
    match files w !! filepath with
    | None =>
        (Raise (Exception ("[Errno 2] No such file or directory: '"
                           +:+ filepath +:+ "'")), w)
    | Some content => (read_csv content, w)
    end.

(** [os.path.getsize(filepath)]: the number of bytes of the file. *)
Definition os_path_getsize (filepath : string) : M nat :=
  fun w =>
    match files w !! filepath with
    | None =>
        (Raise (Exception ("[Errno 2] No such file or directory: '"
                           +:+ filepath +:+ "'")), w)
    | Some content => (Ok (String.length content), w)
    end.

(** One iteration of [for filename in os.listdir(self.save_dir)]. *)
Definition summarise (filename : string) (summary : list (string * summary_entry))
  : M (list (string * summary_entry)) :=
  if Str.endswith filename ".csv" then
    let ticker := drop_last_4 filename in
    let filepath := os_path_join save_dir filename in
    try_except
      (df <- read_csv_file filepath ;;
       file_size <- os_path_getsize filepath ;;
       ret (dict_set ticker (Readable (pd.len df) file_size) summary))
      any_Exception
      (fun e =>
         ret (dict_set ticker (Unreadable ("Could not read file: " +:+ str e)) summary))
  else ret summary.

(** The loop over the names still to visit. *)
Fixpoint summarise_all (filenames : list string) (summary : list (string * summary_entry))
  : M (list (string * summary_entry)) :=
  match filenames with
  | [] => ret summary
  | filename :: rest =>
      summary' <- summarise filename summary ;;
      summarise_all rest summary'
  end.

(** [get_ticker_summary] *)
Definition get_ticker_summary : M (list (string * summary_entry)) :=
  match listdir save_dir with
  | None => ret []
  | Some listed =>
      filenames <- lift listed ;;
      summarise_all filenames []
  end.

End Summary.

(** ** cli.py: [gitdata_cli] *)

(** A line feed, as in the texts that start with [\n]. *)
Definition LF : string := String "010" "".

(** ["=" * 40] *)
Definition rule_40 : string := "========================================".

Section Cli.

Variable session_get : nat -> string -> get_outcome.
Variable read_csv : string -> res DataFrame.
Variable csv_header : list string -> string.
Variable csv_line : row -> string.
Variable open_error : string -> option string.

(** [s.strip()] *)
Variable strip : string -> string.

(** [os.makedirs(save_dir, exist_ok=True)]: [Some msg] when it raises
    [OSError(msg)], [None] when the directory is there afterwards. *)
Variable makedirs_error : string -> option string.

(** [click.prompt(text, type=str)], answered with [input]. *)
Definition prompt (text input : string) : M string :=
  print (text +:+ ": ") ;;; ret input.

Definition os_makedirs (p : string) : M unit :=
  fun w => match makedirs_error p with
           | Some msg => (Raise (Exception msg), w)
           | None => (Ok tt, w)
           end.

(** [for ticker, stats in ticker_stats.items()] of the summary *)
Fixpoint echo_ticker_stats (stats : list (string * nat)) : M unit :=
  match stats with
  | [] => ret tt
  | (ticker, n) :: rest =>
      print ("   " +:+ ticker +:+ ".csv (" +:+ Str.of_nat n +:+ " files)") ;;;
      echo_ticker_stats rest
  end.

(** [gitdata_cli(branch, save_dir)], where [username_input] and
    [repository_input] are the answers to the two prompts and [root] is
    what the contents request for the root of the repository yields. *)
Definition gitdata_cli (branch save_dir : string)
    (username_input repository_input : string) (root : res (listing item)) : M unit :=
  print "🚀 GitData - Financial Data Fetcher" ;;;
  print rule_40 ;;;
  username_raw <- prompt "Enter GitHub username" username_input ;;
  let username := strip username_raw in
  if String.eqb username "" then print "❌ Username cannot be empty"
  else
    repository_raw <- prompt "Enter repository name" repository_input ;;
    let repository := strip repository_raw in
    if String.eqb repository "" then print "❌ Repository name cannot be empty"
    else
      try_except
        (os_makedirs save_dir ;;;
         print (LF +:+ "📥 Downloading CSV files from " +:+ username +:+ "/"
                +:+ repository +:+ " (branch: " +:+ branch +:+ ")...") ;;;
         csv_files <- fetch_csv_files session_get root username repository branch ;;
         match csv_files with
         | [] => print "❌ No CSV files found in the repository"
         | _ :: _ =>
             print ("📁 Found " +:+ Str.of_nat (List.length csv_files) +:+ " CSV files") ;;;
             t <- process_files session_get read_csv csv_header csv_line open_error
                                save_dir csv_files (mkTally 0 0 []) ;;
             print (LF +:+ "📈 Processing Summary:") ;;;
             print ("   Files processed: " +:+ Str.of_nat (total_processed t)) ;;;
             print ("   Files skipped: " +:+ Str.of_nat (total_errors t)) ;;;
             print ("   Tickers saved: " +:+ Str.of_nat (List.length (ticker_stats t))) ;;;
             (match ticker_stats t with
              | [] => ret tt
              | _ :: _ =>
                  print (LF +:+ "💾 Ticker Summary:") ;;;
                  echo_ticker_stats (ticker_stats t)
              end) ;;;
             print (LF +:+ "🎉 All files processed. Raw data saved in " +:+ save_dir)
         end)
        any_Exception
        (fun e => print (LF +:+ "❌ Unexpected error: " +:+ str e)).

End Cli.

(** ** Vocabulary of the walk *)

(** The items the walk meets below a directory: those of its contents
    response when that came back with status 200, and those met below the
    directories among them. *)
Inductive found : item -> item -> Prop :=
| found_here (dir : item) (response : listing item) (it : item) :
    i_served dir = Ok response ->
    l_status_code response = 200%Z ->
    In it (items_of (l_json response)) ->
    found dir it
| found_below (dir : item) (response : listing item) (sub it : item) :
    i_served dir = Ok response ->
    l_status_code response = 200%Z ->
    In sub (items_of (l_json response)) ->
    i_type sub = "dir" ->
    found sub it ->
    found dir it.

(** The directories the walk enters: the one it is started on and the
    items of type ['dir'] it meets below it. *)
Definition entered (dir d : item) : Prop :=
  d = dir \/ (found dir d /\ i_type d = "dir").

(** ** Vocabulary of the processor *)

(** Files only grow at their end: every file of [m] is in [m'] with its
    old content as a prefix. *)
Definition extends (m m' : gmap string string) : Prop :=
  forall p old, m !! p = Some old -> exists suffix, m' !! p = Some (old +:+ suffix).

(** The path can be opened for writing. *)
Definition opens (open_error : string -> option string) (p : string) : bool :=
  match open_error p with
  | None => true
  | Some _ => false
  end.

(** The entry of [results] for a group that was written. *)
Definition entry_of (save_dir : string) (kg : string * DataFrame)
  : string * ticker_result :=
  (fst kg, mkTickerResult (fst kg) (List.length (rows (snd kg))) 0
                          (output_path save_dir (fst kg))).

(** What [get_ticker_summary] records for the file at a path: its number
    of rows and its size when it can be read and parsed, the text of the
    error when not. *)
Definition recorded (read_csv : string -> res DataFrame) (w : World)
    (filepath : string) : summary_entry :=
  match files w !! filepath with
  | None =>
      Unreadable ("Could not read file: [Errno 2] No such file or directory: '"
                  +:+ filepath +:+ "'")
  | Some content =>
      match read_csv content with
      | Ok df => Readable (pd.len df) (String.length content)
      | Raise e => Unreadable ("Could not read file: " +:+ str e)
      end
  end.

(** A key that comes before another in the order of a grouping. *)
Definition comes_before (before : string -> string -> bool) (a b : string) : Prop :=
  before a b = true.

(** The order of text. *)
Definition key_lt : string -> string -> Prop := comes_before pd.as_text.

(** ** Vocabulary of the retry policy *)

(** An attempt that [_make_request] does not accept: a rate-limited
    response or an exception of [requests]. *)
Definition failing (o : get_outcome) : bool :=
  match o with
  | Got r => rate_limited r
  | GetRaises e => is_RequestException e
  end.

(** The seconds slept after a failing attempt that is retried. *)
Definition backoff (o : get_outcome) : nat :=
  match o with
  | Got _ => 60
  | GetRaises _ => 2
  end.

(** What is raised when the last attempt allowed fails. *)
Definition exhausted (o : get_outcome) : exn :=
  match o with
  | Got _ => Exception "GitHub API rate limit exceeded. Please try again later."
  | GetRaises e => e
  end.

(** What an attempt that is not failing makes [_make_request] do. *)
Definition accepted (o : get_outcome) : res Response :=
  match o with
  | Got r => Ok r
  | GetRaises e => Raise e
  end.

(** The outcome of the [j]-th request for [url] sent from world [w] on,
    when only requests for [url] are sent in between. *)
Definition nth_outcome (session_get : nat -> string -> get_outcome)
    (w : World) (url : string) (j : nat) : get_outcome :=
  session_get (List.length (requested w) + j)%nat url.

(** ** Small worlds to run the code in *)

Module Demo.

(** Nothing printed, slept, requested or stored yet. *)
Definition w0 : World := mkWorld [] [] [] ∅.

(** A network on which every repository lookup answers 404. *)
Definition net_404 : nat -> string -> get_outcome :=
  fun _ _ => Got (mkResponse 404 "Not Found").

(** A network that times out twice and then answers. *)
Definition net_flaky : nat -> string -> get_outcome :=
  fun n _ => if (n <? 2)%nat then GetRaises (Timeout "timed out")
             else Got (mkResponse 200 "symbol,close").

(** A repository with two CSV files and a text file at its root, and a
    directory holding one more CSV file. *)
Definition file_item (name path : string) (size : Z) : item :=
  Item "file" name path ("https://raw.githubusercontent.com/o/r/main/" +:+ path) size
       (Raise (Exception "not a directory")).

Definition repo_root : res (listing item) :=
  Ok (mkListing 200 (JList
    [ file_item "prices.csv" "prices.csv" 120;
      file_item "README.md" "README.md" 40;
      Item "dir" "old" "old" "" 0
        (Ok (mkListing 200 (JList [ file_item "DATA.CSV" "old/DATA.CSV" 64 ]))) ])).

(** The root directory as the walk is started on it, what the walk
    returns for it and the world it leaves. *)
Definition root_dir : item := Item "dir" "" "" "" 0 repo_root.

Definition csv_found : list file_info :=
  [ mkFileInfo "prices.csv" "prices.csv"
      "https://raw.githubusercontent.com/o/r/main/prices.csv" 120;
    mkFileInfo "DATA.CSV" "old/DATA.CSV"
      "https://raw.githubusercontent.com/o/r/main/old/DATA.CSV" 64 ].

Definition w_walked : World :=
  mkWorld [] [] [ "https://api.github.com/repos/o/r/contents/";
                  "https://api.github.com/repos/o/r/contents/old" ] ∅.

(** A small price file with two tickers, one of which has a slash in
    its name, and a plain rendering of tables as CSV text. *)
Definition nl : string := String "010" "".

Definition prices_text : string :=
  "date,symbol,close" +:+ nl +:+
  "2024-01-02,AAPL,185.64" +:+ nl +:+
  "2024-01-02,EUR/USD,1.0942" +:+ nl +:+
  "2024-01-03,AAPL,184.25" +:+ nl.

Definition prices : DataFrame :=
  mkDataFrame ["date"; "symbol"; "close"]
    [ mkRow 0 [Some "2024-01-02"; Some "AAPL"; Some "185.64"];
      mkRow 1 [Some "2024-01-02"; Some "EUR/USD"; Some "1.0942"];
      mkRow 2 [Some "2024-01-03"; Some "AAPL"; Some "184.25"] ]
    pd.as_text.

Definition read_csv (content : string) : res DataFrame :=
  if String.eqb content prices_text then Ok prices
  else Raise (Exception "Error tokenizing data").

Definition csv_header (cols : list string) : string :=
  "," +:+ String.concat "," cols +:+ nl.

Definition csv_line (r : row) : string :=
  Str.of_nat (index r) +:+ "," +:+ String.concat "," (map (default "") (cells r)) +:+ nl.

(** The save directory exists and has no subdirectory. *)
Definition save_dir : string := "./data".

Definition open_error (p : string) : option string :=
  if String.eqb p "./data/EUR/USD.csv"
  then Some "Cannot save file into a non-existent directory: 'data/EUR'"
  else None.

(** A network that serves the price file at every URL. *)
Definition net_prices : nat -> string -> get_outcome :=
  fun _ _ => Got (mkResponse 200 prices_text).

Definition prices_info : file_info :=
  mkFileInfo "prices.csv" "prices.csv"
    "https://raw.githubusercontent.com/o/r/main/prices.csv" 120.

(** The world after the download of the price file. *)
Definition w_downloaded : World :=
  mkWorld [] [] ["https://raw.githubusercontent.com/o/r/main/prices.csv"] ∅.

(** The rows of [AAPL] as they are stored. *)
Definition aapl_lines : string :=
  "0,2024-01-02,185.64" +:+ nl +:+ "2,2024-01-03,184.25" +:+ nl.

(** The world after the price file was processed. *)
Definition w_processed : World :=
  mkWorld ["Warning: Error processing ticker EUR/USD from prices.csv: Cannot save file into a non-existent directory: 'data/EUR'"]
          []
          ["https://raw.githubusercontent.com/o/r/main/prices.csv"]
          {[ "./data/AAPL.csv" := ",date,close" +:+ nl +:+ aapl_lines ]}.

(** The price table after [_clean_dataframe] and its groups. *)
Definition cleaned : DataFrame := pd.rename "symbol" "ticker" prices.

Definition groups : list (string * DataFrame) :=
  [ ("AAPL", pd.group "ticker" cleaned "AAPL");
    ("EUR/USD", pd.group "ticker" cleaned "EUR/USD") ].

(** A world in which the file of [AAPL] exists already. *)
Definition w_existing : World :=
  mkWorld [] [] []
          {[ "./data/AAPL.csv" := ",date,close" +:+ nl +:+ "7,2023-12-29,192.53" +:+ nl ]}.

(** An operating system that opens every path. *)
Definition open_all (p : string) : option string := None.

End Demo.

(** ** More small worlds *)

Module Cases.

(** A network on which every request times out. *)
Definition net_down : nat -> string -> get_outcome :=
  fun _ _ => GetRaises (Timeout "Read timed out.").

(** A network on which every request meets a server error. *)
Definition net_500 : nat -> string -> get_outcome :=
  fun _ _ => Got (mkResponse 500 "Internal Server Error").

(** A repository whose root holds a CSV file, a directory whose contents
    request times out and a directory whose contents request is refused. *)
Definition patchy_root : item :=
  Item "dir" "" "" "" 0
    (Ok (mkListing 200 (JList
       [ Demo.file_item "a.csv" "a.csv" 10;
         Item "dir" "gone" "gone" "" 0 (Raise (Timeout "Read timed out."));
         Item "dir" "denied" "denied" "" 0 (Ok (mkListing 403 (JList []))) ]))).

(** A price file that has both a symbol and a ticker column. *)
Definition both_text : string :=
  "symbol,ticker,close" +:+ Demo.nl +:+ "AAPL,AAPL,185.64" +:+ Demo.nl.

Definition both : DataFrame :=
  mkDataFrame ["symbol"; "ticker"; "close"]
    [ mkRow 0 [Some "AAPL"; Some "AAPL"; Some "185.64"] ]
    pd.as_text.

Definition read_both (content : string) : res DataFrame :=
  if String.eqb content both_text then Ok both
  else Raise (Exception "Error tokenizing data").

Definition net_both : nat -> string -> get_outcome :=
  fun _ _ => Got (mkResponse 200 both_text).

(** A price file of three tickers, the first of which in the order of the
    groups has a slash in its name, and an operating system that cannot
    open the file of that ticker, the directory [./data/BRK] not being
    there. *)
Definition shares_text : string :=
  "date,symbol,close" +:+ Demo.nl +:+
  "2024-01-02,MSFT,370.87" +:+ Demo.nl +:+
  "2024-01-02,BRK/B,356.66" +:+ Demo.nl +:+
  "2024-01-02,NVDA,48.17" +:+ Demo.nl +:+
  "2024-01-03,MSFT,370.6" +:+ Demo.nl.

Definition shares : DataFrame :=
  mkDataFrame ["date"; "symbol"; "close"]
    [ mkRow 0 [Some "2024-01-02"; Some "MSFT"; Some "370.87"];
      mkRow 1 [Some "2024-01-02"; Some "BRK/B"; Some "356.66"];
      mkRow 2 [Some "2024-01-02"; Some "NVDA"; Some "48.17"];
      mkRow 3 [Some "2024-01-03"; Some "MSFT"; Some "370.6"] ]
    pd.as_text.

Definition read_shares (content : string) : res DataFrame :=
  if String.eqb content shares_text then Ok shares
  else Raise (Exception "Error tokenizing data").

Definition net_shares : nat -> string -> get_outcome :=
  fun _ _ => Got (mkResponse 200 shares_text).

Definition shares_info : file_info :=
  mkFileInfo "shares.csv" "shares.csv"
    "https://raw.githubusercontent.com/o/r/main/shares.csv" 110.

Definition open_shares (p : string) : option string :=
  if String.eqb p "./data/BRK/B.csv"
  then Some "Cannot save file into a non-existent directory: 'data/BRK'"
  else None.

(** The world after the download of that file, its table after
    [_clean_dataframe] and the world after it was processed. *)
Definition w_shares : World :=
  mkWorld [] [] ["https://raw.githubusercontent.com/o/r/main/shares.csv"] ∅.

Definition shares_cleaned : DataFrame := pd.rename "symbol" "ticker" shares.

Definition w_shares_processed : World :=
  mkWorld ["Warning: Error processing ticker BRK/B from shares.csv: Cannot save file into a non-existent directory: 'data/BRK'"]
          []
          ["https://raw.githubusercontent.com/o/r/main/shares.csv"]
          {[ "./data/MSFT.csv" :=
               ",date,close" +:+ Demo.nl +:+ "0,2024-01-02,370.87" +:+ Demo.nl
               +:+ "3,2024-01-03,370.6" +:+ Demo.nl;
             "./data/NVDA.csv" :=
               ",date,close" +:+ Demo.nl +:+ "2,2024-01-02,48.17" +:+ Demo.nl ]}.

(** A table whose tickers are numbers, which the parser read as integers. *)
Definition numbered : DataFrame :=
  mkDataFrame ["ticker"; "close"]
    [ mkRow 0 [Some "10"; Some "1.5"];
      mkRow 1 [Some "9"; Some "2.5"];
      mkRow 2 [Some "10"; Some "1.75"] ]
    pd.as_integer.

(** The save directory after the price file of [Demo] was processed, as
    [os.listdir] shows it with a note someone left there, and the parser
    on the file stored for [AAPL]. *)
Definition listdir (p : string) : option (res (list string)) :=
  if String.eqb p "./data" then Some (Ok ["notes.txt"; "AAPL.csv"]) else None.

Definition stored_aapl : DataFrame :=
  mkDataFrame ["Unnamed: 0"; "date"; "close"]
    [ mkRow 0 [Some "0"; Some "2024-01-02"; Some "185.64"];
      mkRow 1 [Some "2"; Some "2024-01-03"; Some "184.25"] ]
    pd.as_text.

Definition read_stored (content : string) : res DataFrame :=
  if String.eqb content (",date,close" +:+ Demo.nl +:+ Demo.aapl_lines)
  then Ok stored_aapl
  else Raise (Exception "Error tokenizing data").

(** Stripping the spaces at both ends of an answer. *)
Fixpoint lstrip (s : string) : string :=
  match s with
  | String " " s' => lstrip s'
  | _ => s
  end.

Definition strip (s : string) : string :=
  String.rev (lstrip (String.rev (lstrip s))).

(** The save directory can be made. *)
Definition makedirs_ok (p : string) : option string := None.

End Cases.

(** * Properties *)

(** ** The monad *)

Lemma bind_inv_ok {A B} (m : M A) (k : A -> M B) w b w' :
  bind m k w = (Ok b, w') ->
  exists a w1, m w = (Ok a, w1) /\ k a w1 = (Ok b, w').
Proof.
  unfold bind. destruct (m w) as [[a|e] w1]; intros H.
  - now exists a, w1.
  - discriminate.
Qed.

(** ** [_make_request] *)

Section FetchFacts.

Variable session_get : nat -> string -> get_outcome.


(** One iteration: what it returns and what it does to the world. *)
Lemma attempt_body_run url max_retries attempt w :
  let o := session_get (List.length (requested w)) url in
  exists out,
    attempt_body session_get url max_retries attempt w =
      (if failing o then
         if (attempt <? max_retries - 1)%nat then Ok Continue else Raise (exhausted o)
       else match o with Got r => Ok (Return r) | GetRaises e => Raise e end,
       mkWorld out
               (if failing o && (attempt <? max_retries - 1)%nat
                then slept w ++ [backoff o] else slept w)
               (requested w ++ [url]) (files w)).
Proof.
  intros o. unfold attempt_body, try_except, bind, get. fold o.
  destruct o as [r|e]; simpl.
  - destruct (rate_limited r); simpl.
    + destruct (attempt <? max_retries - 1)%nat; simpl; eexists; reflexivity.
    + eexists; reflexivity.
  - destruct (is_RequestException e) eqn:He; simpl.
    + destruct (attempt <? max_retries - 1)%nat; simpl; eexists; reflexivity.
    + eexists; reflexivity.
Qed.

(** The loop: [k] requests are sent, the first [k - 1] of them failing and
    each followed by its backoff; the [k]-th ends the loop, by a return or
    a raise, and it can only fail when it is the last one allowed. *)
Lemma retry_loop_run url max_retries :
  forall n attempt w,
    (attempt + n = max_retries)%nat -> (1 <= n)%nat ->
    let o j := session_get (List.length (requested w) + j) url in
    exists k r w',
      retry_loop session_get url max_retries n attempt w = (r, w')
      /\ (1 <= k <= n)%nat
      /\ (forall j, (j < k - 1)%nat -> failing (o j) = true)
      /\ requested w' = requested w ++ repeat url k
      /\ slept w' = slept w ++ map (fun j => backoff (o j)) (seq 0 (k - 1))
      /\ files w' = files w
      /\ r = (if failing (o (k - 1)%nat) then Raise (exhausted (o (k - 1)%nat))
              else match accepted (o (k - 1)%nat) with
                   | Ok resp => Ok (Some resp)
                   | Raise e => Raise e
                   end)
      /\ (failing (o (k - 1)%nat) = true -> k = n).
Proof.
  induction n as [|n IH]; intros attempt w Hsum Hn o; [lia|].
  simpl. unfold bind at 1.
  destruct (attempt_body_run url max_retries attempt w) as [out Hbody].
  rewrite Hbody. clear Hbody.
  assert (Ho0 : session_get (List.length (requested w)) url = o 0%nat)
    by (unfold o; f_equal; lia).
  rewrite Ho0.
  destruct (failing (o 0%nat)) eqn:Hfail; simpl.
  - destruct (attempt <? max_retries - 1)%nat eqn:Hlt.
    + apply Nat.ltb_lt in Hlt.
      set (w1 := mkWorld out (slept w ++ [backoff (o 0%nat)])
                         (requested w ++ [url]) (files w)).
      destruct (IH (S attempt) w1 ltac:(lia) ltac:(lia))
        as (k & r & w' & Hrun & Hk & Hfails & Hreq & Hslept & Hfiles & Hr & Hlast).
      assert (Hshift : forall j, session_get (List.length (requested w1) + j) url
                                 = o (S j)).
      { intros j. unfold o, w1. simpl. rewrite length_app. simpl. f_equal. lia. }
      exists (S k), r, w'. rewrite Hrun. split; [reflexivity|].
      replace (S k - 1)%nat with (S (k - 1)) by lia.
      split; [lia|]. split.
      { intros [|j] Hj; [exact Hfail|]. rewrite <- Hshift. apply Hfails. lia. }
      split.
      { rewrite Hreq. unfold w1. simpl. now rewrite <- app_assoc. }
      split.
      { rewrite Hslept. unfold w1. simpl. rewrite <- app_assoc. simpl.
        do 2 f_equal. rewrite <- seq_shift, map_map.
        apply map_ext. intros j. now rewrite Hshift. }
      split; [exact Hfiles|].
      rewrite <- Hshift. split; [exact Hr|].
      intros H. f_equal. now apply Hlast.
    + apply Nat.ltb_ge in Hlt.
      exists 1%nat. do 2 eexists. split; [reflexivity|]. simpl.
      rewrite Hfail. repeat split; try lia.
      * now rewrite app_nil_r.
  - exists 1%nat.
    destruct (o 0%nat) as [resp|e] eqn:Eo; do 2 eexists;
      (split; [reflexivity|]); simpl; rewrite Eo, Hfail;
      repeat split; try lia; try discriminate; now rewrite app_nil_r.
Qed.

(** What a call with the default number of attempts does to the world:
    some requests for its URL, nothing else requested, no file touched. *)
Lemma make_request_frame url w r w' :
  _make_request session_get url default_max_retries w = (r, w') ->
  (exists k, (1 <= k <= 3)%nat /\ requested w' = requested w ++ repeat url k)
  /\ files w' = files w.
Proof.
  intros Hcall.
  destruct (retry_loop_run url default_max_retries default_max_retries 0 w
              eq_refl ltac:(unfold default_max_retries; lia))
    as (k & r0 & w0 & Hrun & Hk & _ & Hreq & _ & Hfiles & _ & _).
  unfold _make_request, bind in Hcall. rewrite Hrun in Hcall.
  assert (w' = w0) as ->.
  { destruct r0 as [[resp|]|e]; unfold ret, raise in Hcall; congruence. }
  split; [exists k; split; [exact Hk | exact Hreq] | exact Hfiles].
Qed.

End FetchFacts.

Section RetryPolicy.

Variable session_get : nat -> string -> get_outcome.

(** C10: with [max_retries >= 1] the loop of [_make_request] ends by a
    [return] or a [raise] from inside the loop, after at least one and at
    most [max_retries] requests; it never runs to its end, so the
    [raise Exception("Maximum retries exceeded")] after it is not
    reached. *)
Theorem fall_through_unreachable (url : string) (max_retries : nat) (w : World) :
  (1 <= max_retries)%nat ->
  exists k r w',
    retry_loop session_get url max_retries max_retries 0 w = (r, w')
    /\ r <> Ok None
    /\ (1 <= k <= max_retries)%nat
    /\ requested w' = requested w ++ repeat url k
    /\ _make_request session_get url max_retries w
       = (match r with
          | Ok (Some response) => Ok response
          | Ok None => Raise (Exception "Maximum retries exceeded")
          | Raise e => Raise e
          end, w').
Proof.
  intros Hm.
  destruct (retry_loop_run session_get url max_retries max_retries 0 w
              ltac:(lia) Hm)
    as (k & r & w' & Hrun & Hk & _ & Hreq & _ & _ & Hr & _).
  exists k, r, w'. split; [exact Hrun|]. split.
  { rewrite Hr. destruct (failing _); [discriminate|].
    destruct (accepted _); discriminate. }
  split; [exact Hk|]. split; [exact Hreq|].
  unfold _make_request, bind. rewrite Hrun.
  destruct r as [[resp|]|e]; reflexivity.
Qed.

(** Without any attempt allowed the loop is empty and the raise after it
    is what the function does. *)
Lemma fall_through_reached (url : string) (w : World) :
  _make_request session_get url 0 w
  = (Raise (Exception "Maximum retries exceeded"), w).
Proof. reflexivity. Qed.

(** C3, as the fetch layer does it: a request is sent at most 3 times.
    Each attempt that fails (an exception of [requests], timeout included,
    or a rate-limited response) before the third is followed by a sleep of
    2 seconds for an exception and of 60 seconds for a rate limit, and by
    another attempt; an attempt that does not fail ends the call with its
    response.  A third attempt that fails ends the call with a raise: of
    the message that the rate limit was exceeded when it was rate limited,
    of the very exception of [requests] that the attempt raised when it
    was a network failure. *)
Theorem make_request_retries (url : string) (w : World) :
  exists k w',
    _make_request session_get url default_max_retries w
    = (if failing (nth_outcome session_get w url (k - 1))
       then Raise (exhausted (nth_outcome session_get w url (k - 1)))
       else accepted (nth_outcome session_get w url (k - 1)), w')
    /\ (1 <= k <= 3)%nat
    /\ (forall j, (j < k - 1)%nat -> failing (nth_outcome session_get w url j) = true)
    /\ (failing (nth_outcome session_get w url (k - 1)) = true -> k = 3%nat)
    /\ requested w' = requested w ++ repeat url k
    /\ slept w' = slept w
                  ++ map (fun j => match nth_outcome session_get w url j with
                                   | Got _ => 60%nat
                                   | GetRaises _ => 2%nat
                                   end)
                         (seq 0 (k - 1))
    /\ files w' = files w
    /\ (forall r, nth_outcome session_get w url (k - 1) = Got r ->
                  fst (_make_request session_get url default_max_retries w)
                  = if rate_limited r
                    then Raise (Exception
                                  "GitHub API rate limit exceeded. Please try again later.")
                    else Ok r)
    /\ (forall e, nth_outcome session_get w url (k - 1) = GetRaises e ->
                  fst (_make_request session_get url default_max_retries w) = Raise e).
Proof.
  destruct (retry_loop_run session_get url default_max_retries
              default_max_retries 0 w eq_refl ltac:(unfold default_max_retries; lia))
    as (k & r & w' & Hrun & Hk & Hfails & Hreq & Hslept & Hfiles & Hr & Hlast).
  exists k, w'. unfold nth_outcome.
  assert (Hcall : _make_request session_get url default_max_retries w
                  = (if failing (session_get (List.length (requested w) + (k - 1)) url)
                     then Raise (exhausted
                                   (session_get (List.length (requested w) + (k - 1)) url))
                     else accepted (session_get (List.length (requested w) + (k - 1)) url),
                     w')).
  { unfold _make_request, bind. rewrite Hrun, Hr.
    destruct (failing _); [reflexivity|].
    destruct (accepted _); reflexivity. }
  split; [exact Hcall|].
  split; [unfold default_max_retries in Hk; lia|].
  split; [exact Hfails|].
  split; [unfold default_max_retries in Hlast; exact Hlast|].
  split; [exact Hreq|].
  split; [exact Hslept|].
  split; [exact Hfiles|].
  rewrite Hcall. split.
  - intros r0 ->. simpl. now destruct (rate_limited r0).
  - intros e ->. simpl. now destruct (is_RequestException e).
Qed.

(** C7: when the repository lookup returns a response with status 404,
    [fetch_csv_files] raises an exception whose message says that the
    repository was not found or is not public; the only requests sent
    are those of the lookup, whatever the repository holds, and no file
    is touched. *)
Theorem repository_not_found (root : res (listing item))
    (username repository branch : string) (w w1 : World) (response : Response) :
  _make_request session_get (repo_url username repository) default_max_retries w
  = (Ok response, w1) ->
  status_code response = 404%Z ->
  fetch_csv_files session_get root username repository branch w
  = (Raise (Exception ("Repository " +:+ username +:+ "/" +:+ repository
                       +:+ " not found or is not public")), w1)
  /\ (exists k, (1 <= k <= 3)%nat
                /\ requested w1 = requested w ++ repeat (repo_url username repository) k)
  /\ files w1 = files w.
Proof.
  intros Hlookup H404.
  split.
  { unfold fetch_csv_files, try_except, bind. rewrite Hlookup, H404. reflexivity. }
  exact (make_request_frame session_get _ _ _ _ Hlookup).
Qed.

End RetryPolicy.

Lemma fall_through_unreachable_witness :
  (1 <= 3)%nat
  /\ exists k r w',
      retry_loop Demo.net_flaky "https://api.github.com/repos/o/r" 3 3 0 Demo.w0 = (r, w')
      /\ r <> Ok None
      /\ (1 <= k <= 3)%nat
      /\ requested w' = requested Demo.w0 ++ repeat "https://api.github.com/repos/o/r" k
      /\ _make_request Demo.net_flaky "https://api.github.com/repos/o/r" 3 Demo.w0
         = (match r with
            | Ok (Some response) => Ok response
            | Ok None => Raise (Exception "Maximum retries exceeded")
            | Raise e => Raise e
            end, w').
Proof.
  split; [lia|].
  apply (fall_through_unreachable Demo.net_flaky "https://api.github.com/repos/o/r"
           3 Demo.w0).
  lia.
Defined.

(** The last clause of C3 as the specification has it fails: on a network
    on which every request times out the three attempts fail and
    [_make_request] raises the timeout of [requests] itself, not an
    exception that the fetch layer made with a message of its own. *)
Lemma retries_exhausted_counterexample :
  ~ (forall (session_get : nat -> string -> get_outcome) (url : string) (w : World),
        (forall j, (j < 3)%nat -> failing (nth_outcome session_get w url j) = true) ->
        exists message,
          fst (_make_request session_get url default_max_retries w)
          = Raise (Exception message)).
Proof.
  intros H.
  destruct (H Cases.net_down "https://api.github.com/repos/o/r" Demo.w0)
    as (message & Hraise).
  - intros j _. reflexivity.
  - vm_compute in Hraise. discriminate Hraise.
Qed.

Lemma repository_not_found_witness :
  (_make_request Demo.net_404 (repo_url "o" "r") default_max_retries Demo.w0
   = (Ok (mkResponse 404 "Not Found"),
      mkWorld [] [] ["https://api.github.com/repos/o/r"] ∅)
   /\ status_code (mkResponse 404 "Not Found") = 404%Z)
  /\ (fetch_csv_files Demo.net_404 Demo.repo_root "o" "r" "main" Demo.w0
      = (Raise (Exception "Repository o/r not found or is not public"),
         mkWorld [] [] ["https://api.github.com/repos/o/r"] ∅)
      /\ (exists k, (1 <= k <= 3)%nat
                    /\ ["https://api.github.com/repos/o/r"]
                       = [] ++ repeat (repo_url "o" "r") k)
      /\ (∅ : gmap string string) = ∅).
Proof.
  split; [split; reflexivity|].
  apply (repository_not_found Demo.net_404 Demo.repo_root "o" "r" "main" Demo.w0
           (mkWorld [] [] ["https://api.github.com/repos/o/r"] ∅)
           (mkResponse 404 "Not Found")); reflexivity.
Defined.

(** ** The directory walk *)

(** Induction on the tree of a repository: a property holds of every item
    when it holds of an item as soon as it holds of the items of its
    contents response. *)
Lemma item_tree_ind (P : item -> Prop)
    (step : forall (t n p u : string) (z : Z) (served : res (listing item)),
        (forall response, served = Ok response ->
                          Forall P (items_of (l_json response))) ->
        P (Item t n p u z served))
  : forall it, P it.
Proof.
  fix rec 1. intros [t n p u z served]. apply step.
  destruct served as [[st json]|e]; intros response H; [|discriminate H].
  injection H as <-. simpl.
  destruct json as [items|x]; simpl.
  - induction items as [|x items IH]; constructor; [apply rec | exact IH].
  - constructor; [apply rec | constructor].
Qed.

Section WalkFacts.

Variables username repository branch : string.

Abbreviation walk := (_get_csv_files_recursive username repository branch).

(** The function, one level unfolded. *)
Lemma walk_eq dir w :
  walk dir w =
  try_except
    (request_contents (contents_url username repository branch (i_path dir)) ;;;
     match i_served dir with
     | Raise e => raise e
     | Ok response =>
         if negb (l_status_code response =? 200)%Z then ret []
         else visit_all walk (items_of (l_json response)) []
     end)
    is_RequestException
    (fun e =>
       print ("Warning: Could not access directory " +:+ i_path dir +:+ ": " +:+ str e) ;;;
       ret []) w.
Proof.
  destruct dir as [t n p u z [[st [items|it]]|e]]; reflexivity.
Qed.

(** A call handles the exceptions of [requests] itself: what it raises is
    of another class. *)
Lemma walk_raises dir w e w' :
  walk dir w = (Raise e, w') -> is_RequestException e = false.
Proof.
  rewrite walk_eq. unfold try_except.
  match goal with |- context [match ?run with _ => _ end] => destruct run as [[fs|e0] w0] end.
  - discriminate.
  - destruct (is_RequestException e0) eqn:He0.
    + unfold bind, print, ret. simpl. discriminate.
    + intros H. injection H as <- _. exact He0.
Qed.

Lemma visit_all_raises items :
  forall acc w e w',
    visit_all walk items acc w = (Raise e, w') -> is_RequestException e = false.
Proof.
  induction items as [|it items IH]; intros acc w e w'; simpl.
  - discriminate.
  - unfold bind at 1. destruct (visit it (walk it) acc w) as [[acc1|e1] w1] eqn:Hvisit.
    + apply IH.
    + intros H. injection H as <- _.
      unfold visit in Hvisit. destruct (is_csv_file it); [discriminate|].
      destruct (String.eqb (i_type it) "dir"); [|discriminate].
      unfold bind in Hvisit.
      destruct (walk it w) as [[fs|e2] w2] eqn:Hsub; [discriminate|].
      injection Hvisit as <- _. exact (walk_raises _ _ _ _ Hsub).
Qed.

(** What is in the list after the loop over [items], when every recursive
    call returns what [sub] says. *)
Lemma visit_all_In (sub : item -> file_info -> Prop) items :
  Forall (fun it => forall w fs w', walk it w = (Ok fs, w') ->
                                    forall f, In f fs <-> sub it f) items ->
  forall acc w fs w',
    visit_all walk items acc w = (Ok fs, w') ->
    forall f, In f fs <->
              In f acc
              \/ exists it, In it items
                            /\ ((is_csv_file it = true /\ f = info_of it)
                                \/ (is_csv_file it = false /\ i_type it = "dir"
                                    /\ sub it f)).
Proof.
  induction 1 as [|it items Hit _ IH]; intros acc w fs w' Hrun f; simpl in Hrun.
  - unfold ret in Hrun. injection Hrun as <- _.
    split; [auto|]. intros [H|(it & [] & _)]. exact H.
  - apply bind_inv_ok in Hrun as (acc1 & w1 & Hvisit & Hrest).
    rewrite (IH _ _ _ _ Hrest f). clear IH Hrest.
    assert (Hacc1 : In f acc1 <->
                    In f acc \/ (is_csv_file it = true /\ f = info_of it)
                    \/ (is_csv_file it = false /\ i_type it = "dir" /\ sub it f)).
    { unfold visit in Hvisit. destruct (is_csv_file it) eqn:Hcsv.
      - unfold ret in Hvisit. injection Hvisit as <- _.
        rewrite in_app_iff. simpl. intuition (try discriminate; auto).
      - destruct (String.eqb_spec (i_type it) "dir") as [Hdir|Hdir].
        + apply bind_inv_ok in Hvisit as (fs1 & w2 & Hsub & Hret).
          unfold ret in Hret. injection Hret as <- _.
          rewrite in_app_iff, (Hit _ _ _ Hsub f).
          intuition (try discriminate; auto).
        + unfold ret in Hvisit. injection Hvisit as <- _.
          intuition (try discriminate; try contradiction; auto). }
    rewrite Hacc1. clear Hacc1. split.
    + intros [[H|H]|(it' & Hin & H)].
      * now left.
      * right. exists it. split; [now left | exact H].
      * right. exists it'. split; [now right | exact H].
    + intros [H|(it' & [<-|Hin] & H)].
      * left. now left.
      * left. now right.
      * right. exists it'. split; [exact Hin | exact H].
Qed.

(** The walk returns the CSV files among the items it meets, and only
    those. *)
Lemma walk_exact dir :
  forall w fs w',
    walk dir w = (Ok fs, w') ->
    forall f, In f fs <->
              exists it, found dir it /\ is_csv_file it = true /\ f = info_of it.
Proof.
  induction dir as [t n p u z served IH] using item_tree_ind.
  intros w fs w' Hrun f. rewrite walk_eq in Hrun.
  unfold try_except, bind, request_contents in Hrun. simpl in Hrun.
  destruct served as [response|e].
  - specialize (IH response eq_refl).
    destruct (Z.eqb_spec (l_status_code response) 200) as [Hst|Hst]; simpl in Hrun.
    + match type of Hrun with
      | match ?run with _ => _ end = _ => destruct run as [[fs1|e1] w1] eqn:Hloop
      end.
      * injection Hrun as <- <-.
        rewrite (visit_all_In (fun it f => exists it', found it it'
                                                       /\ is_csv_file it' = true
                                                       /\ f = info_of it')
                   _ IH _ _ _ _ Hloop f).
        split.
        -- intros [[]|(it & Hin & [[Hcsv ->]|(_ & Hdir & it' & Hf & Hcsv & ->)])].
           ++ exists it. split; [|auto]. eapply found_here; eauto.
           ++ exists it'. split; [|auto]. eapply found_below; eauto.
        -- intros (it & Hfound & Hcsv & ->). right.
           inversion Hfound as [d r it0 Hs Hst' Hin|d r sub it0 Hs Hst' Hin Hdir Hsub];
             subst; simpl in Hs; injection Hs as <-.
           ++ exists it. split; [exact Hin|]. left. auto.
           ++ exists sub. split; [exact Hin|]. right.
              split; [|split; [exact Hdir|eauto]].
              unfold is_csv_file. rewrite Hdir. reflexivity.
      * apply visit_all_raises in Hloop.
        destruct (is_RequestException e1); discriminate.
    + unfold ret in Hrun. injection Hrun as <- _. split; [intros []|].
      intros (it & Hfound & _).
      inversion Hfound; subst; simpl in *; congruence.
  - unfold raise in Hrun.
    assert (fs = []) as ->.
    { destruct (is_RequestException e); [|discriminate].
      unfold print, ret in Hrun. simpl in Hrun. congruence. }
    split; [intros []|]. intros (it & Hfound & _).
    inversion Hfound; subst; simpl in *; congruence.
Qed.

End WalkFacts.

(** C5, as the walk does it: when the walk returns, the list holds exactly
    the dictionaries (name, path, download URL, size) of the items of type
    ['file'] whose name, put in lower case, ends with [.csv], among the
    items met in the contents of the directory and of the directories
    below it; no item of another type and no name with another ending is
    in it. *)
Theorem walk_returns_csv_files (username repository branch : string) (dir : item)
    (w w' : World) (csv_files : list file_info) :
  _get_csv_files_recursive username repository branch dir w = (Ok csv_files, w') ->
  forall f,
    In f csv_files <->
    exists it,
      found dir it
      /\ i_type it = "file"
      /\ Str.endswith (Str.lower (i_name it)) ".csv" = true
      /\ f = mkFileInfo (i_name it) (i_path it) (i_download_url it) (i_size it).
Proof.
  intros Hrun f.
  rewrite (walk_exact username repository branch dir w csv_files w' Hrun f).
  unfold is_csv_file, info_of.
  split; intros (it & Hfound & H); exists it; (split; [exact Hfound|]).
  - destruct H as [Hcsv ->]. apply andb_prop in Hcsv as [Ht Hn].
    apply String.eqb_eq in Ht. auto.
  - destruct H as (Ht & Hn & ->). split; [|reflexivity].
    apply andb_true_intro. split; [now apply String.eqb_eq | exact Hn].
Qed.


Lemma walk_returns_csv_files_witness :
  _get_csv_files_recursive "o" "r" "main" Demo.root_dir Demo.w0
  = (Ok Demo.csv_found, Demo.w_walked)
  /\ forall f,
      In f Demo.csv_found <->
      exists it,
        found Demo.root_dir it
        /\ i_type it = "file"
        /\ Str.endswith (Str.lower (i_name it)) ".csv" = true
        /\ f = mkFileInfo (i_name it) (i_path it) (i_download_url it) (i_size it).
Proof.
  split; [reflexivity|].
  apply (walk_returns_csv_files "o" "r" "main" Demo.root_dir Demo.w0 Demo.w_walked).
  reflexivity.
Defined.

(** With the ending compared as it is written the property fails: the walk
    returns the file [DATA.CSV], whose name does not end with [.csv]. *)
Lemma walk_csv_suffix_counterexample :
  ~ (forall username repository branch dir w w' csv_files,
        _get_csv_files_recursive username repository branch dir w = (Ok csv_files, w') ->
        forall f, In f csv_files -> Str.endswith (name f) ".csv" = true).
Proof.
  intros H.
  specialize (H "o" "r" "main" Demo.root_dir Demo.w0 Demo.w_walked Demo.csv_found
                eq_refl
                (mkFileInfo "DATA.CSV" "old/DATA.CSV"
                   "https://raw.githubusercontent.com/o/r/main/old/DATA.CSV" 64)).
  simpl in H. discriminate H. now right; left.
Qed.

(** ** Strings and keys *)

Lemma append_cons (a : ascii) (s1 s2 : string) :
  String a s1 +:+ s2 = String a (s1 +:+ s2).
Proof. reflexivity. Qed.

Lemma append_assoc (s1 s2 s3 : string) : (s1 +:+ s2) +:+ s3 = s1 +:+ (s2 +:+ s3).
Proof.
  induction s1 as [|a s1 IH]; [reflexivity|].
  now rewrite !append_cons, IH.
Qed.

Lemma append_nil_r (s : string) : s +:+ "" = s.
Proof.
  induction s as [|a s IH]; [reflexivity|]. now rewrite append_cons, IH.
Qed.

(** A line of a text made of lines splits the text around it. *)
Lemma concat_In (l : list string) (x : string) :
  In x l -> exists pre post, String.concat "" l = pre +:+ x +:+ post.
Proof.
  induction l as [|y l IH]; intros Hin; [destruct Hin|].
  assert (Hcons : String.concat "" (y :: l) = y +:+ String.concat "" l).
  { destruct l; simpl; [now rewrite append_nil_r | reflexivity]. }
  rewrite Hcons. destruct Hin as [->|Hin].
  - exists "", (String.concat "" l). reflexivity.
  - destruct (IH Hin) as (pre & post & ->).
    exists (y +:+ pre), post. now rewrite append_assoc.
Qed.

Lemma key_lt_compare a b : key_lt a b <-> String.compare a b = Lt.
Proof.
  unfold key_lt, comes_before, pd.as_text, String.ltb.
  destruct (String.compare a b); split; congruence.
Qed.

Lemma key_lt_irrefl a : ~ key_lt a a.
Proof.
  rewrite key_lt_compare. intros H.
  pose proof (String.compare_antisym a a) as Ha. rewrite H in Ha. discriminate.
Qed.

Lemma key_lt_le a b : key_lt a b -> String.le a b.
Proof.
  rewrite key_lt_compare. unfold String.le, String.leb. now intros ->.
Qed.

Lemma key_lt_trans a b c : key_lt a b -> key_lt b c -> key_lt a c.
Proof.
  intros Hab Hbc.
  assert (Hle : String.le a c)
    by (transitivity b; now apply key_lt_le).
  apply key_lt_compare.
  destruct (String.compare a c) eqn:Hac; [| reflexivity |].
  - apply String.compare_eq_iff in Hac as ->.
    assert (b = c) as -> by (apply (anti_symm String.le); now apply key_lt_le).
    now apply key_lt_irrefl in Hab.
  - unfold String.le, String.leb in Hle. rewrite Hac in Hle. destruct Hle.
Qed.

Lemma key_lt_total a b : a <> b -> ~ key_lt a b -> key_lt b a.
Proof.
  intros Hne Hnlt. apply key_lt_compare.
  rewrite String.compare_antisym.
  destruct (String.compare a b) eqn:Hab; [| | reflexivity].
  - now apply String.compare_eq_iff in Hab.
  - now apply key_lt_compare in Hab.
Qed.

(** The keys of a grouping are the values met, each once, whatever the
    order of the column. *)
Lemma insert_key_In before k ks x :
  In x (pd.insert_key before k ks) <-> x = k \/ In x ks.
Proof.
  induction ks as [|k' ks IH]; simpl.
  - intuition.
  - destruct (before k k'); simpl; [intuition|].
    rewrite IH. intuition.
Qed.

Lemma insert_key_NoDup before k ks :
  ~ In k ks -> List.NoDup ks -> List.NoDup (pd.insert_key before k ks).
Proof.
  induction ks as [|k' ks IH]; simpl; intros Hnin Hnd.
  - constructor; [exact Hnin | constructor].
  - destruct (before k k').
    + now constructor.
    + inversion Hnd as [|? ? Hk' Hks]; subst.
      constructor.
      * rewrite insert_key_In. intros [->|Hin]; [apply Hnin; now left | now apply Hk'].
      * apply IH; [|exact Hks]. intros Hin. apply Hnin. now right.
Qed.

Lemma sorted_keys_In before ks x : In x (pd.sorted_keys before ks) <-> In x ks.
Proof.
  unfold pd.sorted_keys. rewrite <- (nodup_In string_dec ks x).
  induction (nodup string_dec ks) as [|k l IH]; simpl; [reflexivity|].
  rewrite insert_key_In, IH. intuition.
Qed.

Lemma sorted_keys_NoDup before ks : List.NoDup (pd.sorted_keys before ks).
Proof.
  unfold pd.sorted_keys.
  induction (List.NoDup_nodup string_dec ks) as [|k l Hnin Hnd IH]; simpl.
  - constructor.
  - apply insert_key_NoDup; [|exact IH].
    intros Hin. apply Hnin.
    clear -Hin. induction l as [|k' l IH]; simpl in Hin; [destruct Hin|].
    apply insert_key_In in Hin as [->|Hin]; [now left | right; now apply IH].
Qed.

(** When the order of the column is a strict total order, as the order of
    text and the order of numbers are, the keys come out sorted by it. *)
Section KeyOrder.

Variable before : string -> string -> bool.
Hypothesis before_trans :
  forall a b c, comes_before before a b -> comes_before before b c ->
                comes_before before a c.
Hypothesis before_total :
  forall a b, a <> b -> ~ comes_before before a b -> comes_before before b a.

Lemma insert_key_sorted k ks :
  ~ In k ks ->
  StronglySorted (comes_before before) ks ->
  StronglySorted (comes_before before) (pd.insert_key before k ks).
Proof.
  intros Hnin. induction 1 as [|k' ks Hsorted IH Hall]; simpl.
  - repeat constructor.
  - destruct (before k k') eqn:Hlt.
    + constructor; [now constructor|].
      constructor; [exact Hlt|].
      apply List.Forall_forall. intros x Hx.
      apply before_trans with k'; [exact Hlt|].
      now apply (proj1 (List.Forall_forall _ _) Hall).
    + constructor; [apply IH; intros Hin; apply Hnin; now right|].
      apply List.Forall_forall. intros x Hx.
      apply insert_key_In in Hx as [->|Hx].
      * apply before_total.
        -- intros ->. apply Hnin. now left.
        -- unfold comes_before. now rewrite Hlt.
      * now apply (proj1 (List.Forall_forall _ _) Hall).
Qed.

Lemma sorted_keys_sorted ks :
  StronglySorted (comes_before before) (pd.sorted_keys before ks).
Proof.
  unfold pd.sorted_keys.
  induction (List.NoDup_nodup string_dec ks) as [|k l Hnin Hnd IH]; simpl.
  - constructor.
  - apply insert_key_sorted; [|exact IH].
    intros Hin. apply Hnin.
    clear -Hin. induction l as [|k' l IHl]; simpl in Hin; [destruct Hin|].
    apply insert_key_In in Hin as [->|Hin]; [now left | right; now apply IHl].
Qed.

End KeyOrder.

Lemma sorted_keys_text_sorted ks :
  StronglySorted key_lt (pd.sorted_keys pd.as_text ks).
Proof.
  apply sorted_keys_sorted.
  - exact key_lt_trans.
  - exact key_lt_total.
Qed.

(** A column of integers is grouped by value, 9 before 10; the same
    values read as text come the other way round. *)
Example numbers_grouped_by_value :
  pd.groupby "ticker" Cases.numbered
  = Ok [ ("9", pd.group "ticker" Cases.numbered "9");
         ("10", pd.group "ticker" Cases.numbered "10") ]
  /\ rows (pd.group "ticker" Cases.numbered "10")
     = [ mkRow 0 [Some "10"; Some "1.5"]; mkRow 2 [Some "10"; Some "1.75"] ]
  /\ pd.sorted_keys pd.as_text ["10"; "9"; "10"] = ["10"; "9"].
Proof. repeat split. Qed.

(** ** The processor *)

Lemma drop_rows name df data :
  pd.drop name df = Ok data ->
  columns data = List.filter (fun c => negb (String.eqb c name)) (columns df)
  /\ rows data = map (fun r => mkRow (index r) (pd.reject name (columns df) (cells r)))
                     (rows df)
  /\ pd.len data = List.length (rows df).
Proof.
  unfold pd.drop. destruct (pd.has_column name df); [|discriminate].
  intros H. injection H as <-. unfold pd.len. simpl.
  now rewrite length_map.
Qed.

Lemma drop_has_column name df :
  pd.has_column name df = true -> exists data, pd.drop name df = Ok data.
Proof. unfold pd.drop. intros ->. eauto. Qed.

Lemma groupby_groups name df groups :
  pd.groupby name df = Ok groups ->
  groups = map (fun k => (k, pd.group name df k))
               (pd.sorted_keys (sorts_before df) (omap (pd.key name df) (rows df)))
  /\ pd.has_column name df = true.
Proof.
  unfold pd.groupby, pd.has_column.
  destruct (List.filter (String.eqb name) (columns df)) as [|c [|c' l]] eqn:Hf;
    try discriminate.
  intros H. injection H as <-. split; [reflexivity|].
  apply existsb_exists. exists c.
  assert (Hin : In c (List.filter (String.eqb name) (columns df)))
    by (rewrite Hf; now left).
  now apply filter_In in Hin.
Qed.

Lemma has_column_In name df : pd.has_column name df = true <-> In name (columns df).
Proof.
  unfold pd.has_column. rewrite existsb_exists. split.
  - intros (c & Hin & Heq). apply String.eqb_eq in Heq. now subst.
  - intros Hin. exists name. split; [exact Hin | apply String.eqb_refl].
Qed.

(** [find] stops at the first element that passes the test. *)
Lemma find_first {A} (f : A -> bool) l x :
  List.find f l = Some x ->
  exists before after,
    l = before ++ x :: after /\ f x = true /\ forall y, In y before -> f y = false.
Proof.
  induction l as [|a l IH]; simpl; [discriminate|].
  destruct (f a) eqn:Hfa.
  - intros H. injection H as <-. exists [], l. simpl. intuition.
  - intros H. destruct (IH H) as (before & after & -> & Hx & Hbefore).
    exists (a :: before), after. simpl. split; [reflexivity|]. split; [exact Hx|].
    intros y [<-|Hy]; auto.
Qed.

Lemma rename_self name df : pd.rename name name df = df.
Proof.
  unfold pd.rename. destruct df as [cols rws]. simpl. f_equal.
  induction cols as [|c cols IH]; simpl; [reflexivity|].
  rewrite IH. destruct (String.eqb_spec c name); congruence.
Qed.

(** Renaming column [c] to [t] adds the columns labelled [c] to those
    labelled [t]. *)
Lemma rename_count c t cols :
  c <> t ->
  List.length (List.filter (String.eqb t)
                 (map (fun x => if String.eqb x c then t else x) cols))
  = (List.length (List.filter (String.eqb c) cols)
     + List.length (List.filter (String.eqb t) cols))%nat.
Proof.
  intros Hne. induction cols as [|x cols IH]; simpl; [reflexivity|].
  destruct (String.eqb_spec x c) as [->|Hxc].
  - rewrite String.eqb_refl. simpl. rewrite IH.
    destruct (String.eqb_spec c c) as [_|]; [|congruence].
    destruct (String.eqb_spec t c) as [->|_]; [congruence|]. simpl. lia.
  - destruct (String.eqb_spec t x) as [->|Htx]; simpl.
    + destruct (String.eqb_spec c x) as [->|_]; [congruence|]. simpl. lia.
    + destruct (String.eqb_spec c x) as [->|_]; [congruence|]. exact IH.
Qed.

Lemma filter_eqb_In x cols :
  In x cols -> (1 <= List.length (List.filter (String.eqb x) cols))%nat.
Proof.
  induction cols as [|y cols IH]; simpl; [tauto|].
  intros [->|Hin].
  - rewrite String.eqb_refl. simpl. lia.
  - destruct (String.eqb x y); simpl; [lia | auto].
Qed.

(** When grouping by ['ticker'] works after the renaming of column [c],
    the table had no other column labelled ['ticker']. *)
Lemma groupby_rename_single c df groups :
  In c (columns df) ->
  pd.groupby "ticker" (pd.rename c "ticker" df) = Ok groups ->
  c = "ticker" \/ ~ In "ticker" (columns df).
Proof.
  intros Hc Hgroup.
  destruct (String.eqb_spec c "ticker") as [Heq|Hne]; [now left|right].
  intros Ht. unfold pd.groupby, pd.rename in Hgroup. cbn [columns] in Hgroup.
  pose proof (rename_count c "ticker" (columns df) Hne) as Hcount.
  pose proof (filter_eqb_In _ _ Hc). pose proof (filter_eqb_In _ _ Ht).
  destruct (List.filter (String.eqb "ticker")
              (map (fun x => if String.eqb x c then "ticker" else x) (columns df)))
    as [|a [|b l]]; try discriminate; cbn [List.length] in Hcount; lia.
Qed.

(** Under that condition the cells selected and rejected for ['ticker']
    after the renaming are those selected and rejected for [c] before. *)
Lemma select_rename c cols cs :
  c = "ticker" \/ ~ In "ticker" cols ->
  pd.select "ticker" (map (fun x => if String.eqb x c then "ticker" else x) cols) cs
  = pd.select c cols cs
  /\ pd.reject "ticker" (map (fun x => if String.eqb x c then "ticker" else x) cols) cs
     = pd.reject c cols cs.
Proof.
  revert cs.
  induction cols as [|x cols IH]; intros cs Hsingle; simpl; [now destruct cs|].
  destruct cs as [|v cs]; [split; reflexivity|].
  destruct (IH cs) as [IHs IHr].
  { destruct Hsingle as [->|Hnot]; [now left | right; simpl in Hnot; tauto]. }
  rewrite IHs, IHr.
  destruct (String.eqb_spec x c) as [->|Hxc].
  - rewrite String.eqb_refl. split; reflexivity.
  - destruct (String.eqb_spec x "ticker") as [->|Hxt]; [|split; reflexivity].
    destruct Hsingle as [->|Hnot]; [congruence|]. simpl in Hnot. tauto.
Qed.

(** Dropping column [c] leaves the cells of the other columns alone. *)
Lemma select_reject c n cols cs :
  n <> c ->
  pd.select n (List.filter (fun x => negb (String.eqb x c)) cols) (pd.reject c cols cs)
  = pd.select n cols cs.
Proof.
  intros Hne. revert cs.
  induction cols as [|x cols IH]; intros cs; simpl; [now destruct cs|].
  destruct cs as [|v cs].
  - match goal with |- pd.select _ ?l [] = _ => now destruct l end.
  - destruct (String.eqb_spec x c) as [->|Hxc]; simpl.
    + destruct (String.eqb_spec c n) as [->|_]; [congruence|]. apply IH.
    + rewrite IH. reflexivity.
Qed.

Lemma omap_pointwise {A B} (f g : A -> option B) (l : list A) :
  (forall x, f x = g x) -> omap f l = omap g l.
Proof.
  intros Hfg. induction l as [|a l IH]; [reflexivity|].
  change (omap f (a :: l)) with (match f a with Some y => y :: omap f l | None => omap f l end).
  change (omap g (a :: l)) with (match g a with Some y => y :: omap g l | None => omap g l end).
  now rewrite Hfg, IH.
Qed.

(** The first element that a filter keeps, and what the filter passed
    over before it. *)
Lemma filter_first_split {A} (f : A -> bool) l x rest :
  List.filter f l = x :: rest ->
  exists l1 l2,
    l = l1 ++ x :: l2
    /\ (forall y, In y l1 -> f y = false)
    /\ f x = true
    /\ rest = List.filter f l2.
Proof.
  induction l as [|a l IH]; simpl; [discriminate|].
  destruct (f a) eqn:Hfa.
  - intros H. injection H as -> <-. exists [], l. simpl. now intuition.
  - intros H. destruct (IH H) as (l1 & l2 & -> & Hl1 & Hx & Hrest).
    exists (a :: l1), l2. simpl. repeat split; try assumption.
    intros y [<-|Hy]; [exact Hfa | now apply Hl1].
Qed.

Lemma filter_all {A} (f : A -> bool) l :
  (forall x, In x l -> f x = true) -> List.filter f l = l.
Proof.
  induction l as [|a l IH]; simpl; intros H; [reflexivity|].
  rewrite (H a) by now left. f_equal. apply IH. intros x Hx. apply H. now right.
Qed.

Lemma groups_In name df groups k g :
  pd.groupby name df = Ok groups ->
  In (k, g) groups ->
  g = pd.group name df k /\ In k (omap (pd.key name df) (rows df)).
Proof.
  intros Hgroup Hin. apply groupby_groups in Hgroup as [-> _].
  apply in_map_iff in Hin as (k' & Heq & Hk'). injection Heq as -> <-.
  split; [reflexivity | now apply sorted_keys_In in Hk'].
Qed.

Lemma In_groups name df groups k :
  pd.groupby name df = Ok groups ->
  In k (omap (pd.key name df) (rows df)) ->
  In (k, pd.group name df k) groups.
Proof.
  intros Hgroup Hin. apply groupby_groups in Hgroup as [-> _].
  apply in_map_iff. exists k. split; [reflexivity | now apply sorted_keys_In].
Qed.

Lemma find_ticker_column_In df c :
  find_ticker_column df = Some c -> In c (columns df).
Proof.
  intros H. apply find_some in H as [_ H]. now apply has_column_In.
Qed.

(** The ticker of a row after the renaming is its value in the column
    located. *)
Lemma key_rename c df r :
  c = "ticker" \/ ~ In "ticker" (columns df) ->
  pd.key "ticker" (pd.rename c "ticker" df) r = pd.key c df r.
Proof.
  intros Hsingle. unfold pd.key, pd.rename. simpl.
  now destruct (select_rename c (columns df) (cells r) Hsingle) as [-> _].
Qed.

Section ProcessFacts.

Variable session_get : nat -> string -> get_outcome.
Variable read_csv : string -> res DataFrame.
Variable csv_header : list string -> string.
Variable csv_line : row -> string.
Variable open_error : string -> option string.
Variable save_dir : string.

(** One group: when the path opens, the rows of the group without the
    ticker column are appended to the file, or written after a header when
    there is no file yet, and the entry of the ticker is set; when it does
    not open, a warning is printed and nothing else changes. *)
Lemma save_ticker_run filename k g data results w :
  pd.drop "ticker" g = Ok data ->
  save_ticker csv_header csv_line open_error save_dir filename k g results w =
  match open_error (output_path save_dir k) with
  | Some msg =>
      (Ok results,
       mkWorld (stdout w ++ ["Warning: Error processing ticker " +:+ k +:+ " from "
                             +:+ filename +:+ ": " +:+ msg])
               (slept w) (requested w) (files w))
  | None =>
      (Ok (dict_set k (mkTickerResult k (List.length (rows g)) 0
                                      (output_path save_dir k)) results),
       mkWorld (stdout w) (slept w) (requested w)
               (<[output_path save_dir k :=
                    match files w !! output_path save_dir k with
                    | Some old => old +:+ csv_rows csv_line data
                    | None => csv_header (columns data) +:+ csv_rows csv_line data
                    end]> (files w)))
  end.
Proof.
  intros Hdrop. destruct (drop_rows _ _ _ Hdrop) as (_ & _ & Hlen).
  unfold save_ticker, try_except, bind, lift, os_path_exists.
  rewrite Hdrop. simpl.
  destruct (files w !! output_path save_dir k) as [old|] eqn:Hold; simpl.
  - unfold to_csv_append. simpl.
    destruct (open_error (output_path save_dir k)); simpl.
    + reflexivity.
    + rewrite Hold, Hlen. reflexivity.
  - unfold to_csv. simpl.
    destruct (open_error (output_path save_dir k)); simpl.
    + reflexivity.
    + rewrite Hlen. reflexivity.
Qed.

Lemma extends_refl m : extends m m.
Proof. intros p old H. exists "". now rewrite append_nil_r. Qed.

Lemma extends_trans m1 m2 m3 : extends m1 m2 -> extends m2 m3 -> extends m1 m3.
Proof.
  intros H12 H23 p old H.
  destruct (H12 _ _ H) as (s1 & H1). destruct (H23 _ _ H1) as (s2 & H2).
  exists (s1 +:+ s2). now rewrite <- append_assoc.
Qed.

Lemma save_ticker_extends filename k g data results w :
  pd.drop "ticker" g = Ok data ->
  extends (files w)
          (files (snd (save_ticker csv_header csv_line open_error save_dir
                                   filename k g results w))).
Proof.
  intros Hdrop. rewrite (save_ticker_run _ _ _ _ _ _ Hdrop).
  destruct (open_error (output_path save_dir k)); simpl; [apply extends_refl|].
  intros p old Hp.
  destruct (decide (output_path save_dir k = p)) as [<-|Hne].
  - rewrite lookup_insert_eq, Hp. eauto.
  - rewrite lookup_insert_ne by exact Hne. rewrite Hp. exists "".
    now rewrite append_nil_r.
Qed.

Lemma dict_set_fresh {V} k (v : V) d :
  ~ In k (map fst d) -> dict_set k v d = d ++ [(k, v)].
Proof.
  induction d as [|[k' v'] d IH]; simpl; intros Hk; [reflexivity|].
  destruct (String.eqb_spec k k') as [->|Hne]; [tauto|].
  rewrite IH by tauto. reflexivity.
Qed.

(** The loop over the groups: it returns, the files only grow, every
    group whose path opens has its rows in its file and its entry in the
    results, in the order of the groups. *)
Lemma save_tickers_run filename groups :
  Forall (fun kg => pd.has_column "ticker" (snd kg) = true) groups ->
  List.NoDup (map fst groups) ->
  forall results w,
    (forall k, In k (map fst groups) -> ~ In k (map fst results)) ->
    exists w',
      save_tickers csv_header csv_line open_error save_dir filename groups results w
      = (Ok (results
             ++ map (entry_of save_dir)
                    (List.filter (fun kg => opens open_error (output_path save_dir (fst kg)))
                                 groups)), w')
      /\ extends (files w) (files w')
      /\ forall k g,
          In (k, g) groups ->
          open_error (output_path save_dir k) = None ->
          exists data pre post,
            pd.drop "ticker" g = Ok data
            /\ files w' !! output_path save_dir k
               = Some (pre +:+ csv_rows csv_line data +:+ post).
Proof.
  induction groups as [|[k g] groups IH]; intros Hcols Hnodup results w Hfresh.
  - exists w. simpl. rewrite app_nil_r. split; [reflexivity|].
    split; [apply extends_refl|]. intros k g [].
  - inversion Hcols as [|? ? Hcol Hcols']; subst. simpl in Hcol.
    inversion Hnodup as [|? ? Hk Hnodup']; subst.
    destruct (drop_has_column _ _ Hcol) as (data & Hdrop).
    pose proof (save_ticker_extends filename k g data results w Hdrop) as Hext.
    pose proof (save_ticker_run filename k g data results w Hdrop) as Hrun.
    simpl. unfold bind at 1. unfold opens at 1. simpl.
    destruct (open_error (output_path save_dir k)) as [msg|] eqn:Hopen.
    + rewrite Hrun in Hext |- *. simpl in Hext.
      destruct (IH Hcols' Hnodup' results
                  (mkWorld (stdout w ++ ["Warning: Error processing ticker " +:+ k
                                         +:+ " from " +:+ filename +:+ ": " +:+ msg])
                           (slept w) (requested w) (files w)))
        as (w' & Hloop & Hext' & Hfiles).
      { intros k' Hk'. apply Hfresh. now right. }
      exists w'. split; [exact Hloop|]. split; [exact Hext'|].
      intros k' g' [Heq|Hin] Hopen'.
      * injection Heq as <- <-. congruence.
      * now apply Hfiles.
    + rewrite Hrun in Hext |- *. simpl in Hext.
      rewrite dict_set_fresh by (apply Hfresh; now left).
      match goal with
      | |- context [save_tickers _ _ _ _ _ _ ?r ?w1] =>
          destruct (IH Hcols' Hnodup' r w1) as (w' & Hloop & Hext' & Hfiles)
      end.
      { intros k' Hk'. rewrite map_app, in_app_iff. simpl.
        intros [Hin|[<-|[]]]; [|exact (Hk Hk')].
        revert Hin. apply Hfresh. now right. }
      exists w'. split.
      { rewrite Hloop. rewrite <- app_assoc. reflexivity. }
      split; [eapply extends_trans; eassumption|].
      intros k' g' [Heq|Hin] Hopen'.
      * injection Heq as <- <-. exists data.
        simpl in Hext'.
        destruct (Hext' (output_path save_dir k)
                    (match files w !! output_path save_dir k with
                     | Some old => old +:+ csv_rows csv_line data
                     | None => csv_header (columns data) +:+ csv_rows csv_line data
                     end)) as (post & Hpost).
        { apply lookup_insert_eq. }
        destruct (files w !! output_path save_dir k) as [old|].
        -- exists old, post. split; [exact Hdrop|].
           rewrite Hpost. now rewrite append_assoc.
        -- exists (csv_header (columns data)), post. split; [exact Hdrop|].
           rewrite Hpost. now rewrite append_assoc.
      * now apply Hfiles.
Qed.

(** [_process_tickers] when the grouping works. *)
Lemma process_tickers_run df filename groups w :
  pd.groupby "ticker" df = Ok groups ->
  exists w',
    _process_tickers csv_header csv_line open_error save_dir df filename w
    = (Ok (map (entry_of save_dir)
               (List.filter (fun kg => opens open_error (output_path save_dir (fst kg)))
                            groups)), w')
    /\ extends (files w) (files w')
    /\ forall k g,
        In (k, g) groups ->
        open_error (output_path save_dir k) = None ->
        exists data pre post,
          pd.drop "ticker" g = Ok data
          /\ files w' !! output_path save_dir k
             = Some (pre +:+ csv_rows csv_line data +:+ post).
Proof.
  intros Hgroup. destruct (groupby_groups _ _ _ Hgroup) as [Hgroups Hcol].
  unfold _process_tickers, bind, lift. rewrite Hgroup.
  apply (save_tickers_run filename groups) with (results := []).
  - subst groups. apply List.Forall_forall. intros kg Hin.
    apply in_map_iff in Hin as (k & <- & _). exact Hcol.
  - subst groups. rewrite map_map. simpl. rewrite map_id.
    apply sorted_keys_NoDup.
  - intros k _ [].
Qed.

(** [_process_tickers] when the grouping raises: nothing is written. *)
Lemma process_tickers_raises df filename e w :
  pd.groupby "ticker" df = Raise e ->
  _process_tickers csv_header csv_line open_error save_dir df filename w = (Raise e, w).
Proof. intros H. unfold _process_tickers, bind, lift. now rewrite H. Qed.

(** [_clean_dataframe] computed. *)
Lemma clean_dataframe_run df filename w :
  _clean_dataframe df filename w =
  match find_ticker_column df with
  | Some c => (Ok (Some (pd.rename c "ticker" df)), w)
  | None =>
      (Ok None,
       mkWorld (stdout w ++ ["Warning: File " +:+ filename
                             +:+ " missing ticker/symbol column"])
               (slept w) (requested w) (files w))
  end.
Proof.
  unfold _clean_dataframe, try_except.
  destruct (find_ticker_column df) as [c|]; [|reflexivity].
  unfold ret. destruct (String.eqb_spec c "ticker") as [->|_]; simpl.
  - now rewrite rename_self.
  - reflexivity.
Qed.

(** A download leaves the files alone. *)
Lemma download_frame url w r w' :
  download_csv_content session_get url w = (r, w') -> files w' = files w.
Proof.
  unfold download_csv_content, try_except, bind.
  destruct (_make_request session_get url default_max_retries w)
    as [[response|e] w1] eqn:Hreq;
    destruct (make_request_frame _ _ _ _ _ Hreq) as [_ Hfiles].
  - destruct (negb (status_code response =? 200)%Z); unfold raise, ret; simpl;
      intros H; injection H as _ <-; exact Hfiles.
  - destruct (is_RequestException e); unfold raise;
      intros H; injection H as _ <-; exact Hfiles.
Qed.

(** [process_csv_file] does not raise. *)
Lemma process_csv_file_returns info w :
  exists result w',
    process_csv_file session_get read_csv csv_header csv_line open_error save_dir info w
    = (Ok result, w').
Proof.
  unfold process_csv_file, try_except, any_Exception.
  destruct (process_csv_file_body _ _ _ _ _ _ info w) as [[result|e] w']; eauto.
Qed.

(** What a success of [process_csv_file] tells: the download and the
    parsing worked, a ticker column was found, the grouping worked, and
    the first of the groups whose path opened is the one reported. *)
Lemma process_csv_file_success info w t d n w' :
  process_csv_file session_get read_csv csv_header csv_line open_error save_dir info w
  = (Ok (Success t d n), w') ->
  exists content w1 df c groups first rest,
    download_csv_content session_get (download_url info) w = (Ok content, w1)
    /\ read_csv content = Ok df
    /\ find_ticker_column df = Some c
    /\ pd.groupby "ticker" (pd.rename c "ticker" df) = Ok groups
    /\ List.filter (fun kg => opens open_error (output_path save_dir (fst kg))) groups
       = first :: rest
    /\ t = fst first /\ d = 0%nat /\ n = List.length (rows (snd first))
    /\ extends (files w) (files w')
    /\ forall k g,
        In (k, g) groups ->
        open_error (output_path save_dir k) = None ->
        exists data pre post,
          pd.drop "ticker" g = Ok data
          /\ files w' !! output_path save_dir k
             = Some (pre +:+ csv_rows csv_line data +:+ post).
Proof.
  unfold process_csv_file, try_except, any_Exception, process_csv_file_body.
  unfold bind at 1.
  destruct (download_csv_content session_get (download_url info) w)
    as [[content|e] w1] eqn:Hdown; [|unfold ret; discriminate].
  pose proof (download_frame _ _ _ _ Hdown) as Hfiles1.
  unfold bind at 1, lift at 1.
  destruct (read_csv content) as [df|e] eqn:Hread; [|unfold ret; discriminate].
  destruct (pd.empty df); [unfold ret; discriminate|].
  unfold bind at 1. rewrite clean_dataframe_run.
  destruct (find_ticker_column df) as [c|] eqn:Hfind; [|unfold ret; discriminate].
  destruct (pd.empty (pd.rename c "ticker" df)); [unfold ret; discriminate|].
  unfold bind at 1.
  destruct (pd.groupby "ticker" (pd.rename c "ticker" df)) as [groups|e] eqn:Hgroup.
  - destruct (process_tickers_run _ (name info) _ w1 Hgroup)
      as (w2 & Hrun & Hext & Hwritten).
    rewrite Hrun.
    destruct (List.filter _ groups) as [|first rest] eqn:Hfilter; simpl;
      [unfold ret; discriminate|].
    unfold ret. intros H. injection H as <- <- <- <-.
    exists content, w1, df, c, groups, first, rest.
    repeat (split; [first [reflexivity | assumption]|]).
    split; [now rewrite <- Hfiles1|exact Hwritten].
  - rewrite (process_tickers_raises _ _ _ _ Hgroup). unfold ret. discriminate.
Qed.

(** The loop of the command line over the files does not raise. *)
Lemma process_file_returns info t w :
  exists t' w',
    process_file session_get read_csv csv_header csv_line open_error save_dir info t w
    = (Ok t', w').
Proof.
  unfold process_file, try_except, bind at 1.
  unfold print at 1. simpl. unfold bind at 1.
  match goal with
  | |- context [process_csv_file _ _ _ _ _ _ info ?w0] =>
      destruct (process_csv_file_returns info w0) as (result & w1 & ->)
  end.
  destruct result; unfold bind, print, ret; simpl; eauto.
Qed.

Lemma process_files_returns csv_files :
  forall t w,
  exists t' w',
    process_files session_get read_csv csv_header csv_line open_error save_dir
                  csv_files t w = (Ok t', w').
Proof.
  induction csv_files as [|info rest IH]; intros t w; simpl.
  - unfold ret. eauto.
  - destruct (process_file_returns info t w) as (t1 & w1 & Hone).
    unfold bind. rewrite Hone. apply IH.
Qed.

Lemma process_files_app before rest :
  forall t w t0 w0,
    process_files session_get read_csv csv_header csv_line open_error save_dir
                  before t w = (Ok t0, w0) ->
    process_files session_get read_csv csv_header csv_line open_error save_dir
                  (before ++ rest) t w
    = process_files session_get read_csv csv_header csv_line open_error save_dir
                    rest t0 w0.
Proof.
  induction before as [|info before IH]; intros t w t0 w0; simpl.
  - unfold ret. intros H. now injection H as <- <-.
  - unfold bind.
    destruct (process_file _ _ _ _ _ _ info t w) as [[t1|e] w1]; [apply IH|discriminate].
Qed.

End ProcessFacts.


(** ** Properties of the processor *)

Section ProcessProperties.

Variable session_get : nat -> string -> get_outcome.
Variable read_csv : string -> res DataFrame.
Variable csv_header : list string -> string.
Variable csv_line : row -> string.
Variable open_error : string -> option string.
Variable save_dir : string.

(** C6: for the table parsed from a downloaded file, either some name of
    the list symbol, ticker, Symbol, Ticker, SYMBOL, TICKER is a column,
    and the column located (and renamed to ticker) is the first such name
    of the list; or none is, and then the file is skipped: the result is
    a failure and no file is written or appended. *)
Theorem ticker_column_located (info : file_info) (w w1 : World)
    (content : string) (df : DataFrame) :
  download_csv_content session_get (download_url info) w = (Ok content, w1) ->
  read_csv content = Ok df ->
  ticker_columns = ["symbol"; "ticker"; "Symbol"; "Ticker"; "SYMBOL"; "TICKER"]
  /\ ((exists before c after,
         ticker_columns = before ++ c :: after
         /\ In c (columns df)
         /\ (forall c', In c' before -> ~ In c' (columns df))
         /\ _clean_dataframe df (name info) w1
            = (Ok (Some (pd.rename c "ticker" df)), w1))
      \/ ((forall c, In c ticker_columns -> ~ In c (columns df))
          /\ fst (_clean_dataframe df (name info) w1) = Ok None
          /\ exists error w',
              process_csv_file session_get read_csv csv_header csv_line open_error
                               save_dir info w = (Ok (Failure error), w')
              /\ files w' = files w)).
Proof.
  intros Hdown Hread. split; [reflexivity|].
  pose proof (download_frame session_get _ _ _ _ Hdown) as Hfiles1.
  rewrite clean_dataframe_run.
  destruct (find_ticker_column df) as [c|] eqn:Hfind.
  - left. apply find_first in Hfind as (before & after & Hsplit & Hc & Hbefore).
    exists before, c, after. split; [exact Hsplit|].
    split; [now apply has_column_In|]. split; [|reflexivity].
    intros c' Hin Hcol. apply has_column_In in Hcol.
    rewrite (Hbefore c' Hin) in Hcol. discriminate.
  - right. split.
    { intros c Hin Hcol. apply has_column_In in Hcol.
      pose proof (find_none _ _ Hfind c Hin) as Hnone. simpl in Hnone.
      rewrite Hcol in Hnone. discriminate. }
    split; [reflexivity|].
    unfold process_csv_file, try_except, any_Exception, process_csv_file_body.
    unfold bind at 1. rewrite Hdown. unfold bind at 1, lift at 1. rewrite Hread.
    destruct (pd.empty df).
    + unfold ret. do 2 eexists. split; [reflexivity | exact Hfiles1].
    + unfold bind at 1. rewrite clean_dataframe_run, Hfind. unfold ret.
      do 2 eexists. split; [reflexivity | exact Hfiles1].
Qed.

(** C4: when the files before it have been handled and the processing of
    a file raises an exception, [process_csv_file] returns a failure
    whose message carries the text of the exception, the loop prints the
    failure as a skipped file, counts it as an error, and goes on with
    the files after it. *)
Theorem failing_file_is_skipped (before rest : list file_info) (info : file_info)
    (t t0 : tally) (w w0 w1 : World) (e : exn) :
  process_files session_get read_csv csv_header csv_line open_error save_dir
                before t w = (Ok t0, w0) ->
  process_csv_file_body session_get read_csv csv_header csv_line open_error save_dir
    info (snd (print ("📊 Processing file: " +:+ name info) w0)) = (Raise e, w1) ->
  process_csv_file session_get read_csv csv_header csv_line open_error save_dir
    info (snd (print ("📊 Processing file: " +:+ name info) w0))
  = (Ok (Failure ("Error processing " +:+ name info +:+ ": " +:+ str e)), w1)
  /\ process_files session_get read_csv csv_header csv_line open_error save_dir
                   (before ++ info :: rest) t w
     = process_files session_get read_csv csv_header csv_line open_error save_dir
         rest
         (mkTally (total_processed t0) (total_errors t0 + 1) (ticker_stats t0))
         (mkWorld (stdout w1 ++ ["⚠️  Skipped: Error processing " +:+ name info
                                 +:+ ": " +:+ str e])
                  (slept w1) (requested w1) (files w1)).
Proof.
  intros Hbefore Hbody.
  assert (Hcall :
    process_csv_file session_get read_csv csv_header csv_line open_error save_dir
      info (snd (print ("📊 Processing file: " +:+ name info) w0))
    = (Ok (Failure ("Error processing " +:+ name info +:+ ": " +:+ str e)), w1)).
  { unfold process_csv_file, try_except, any_Exception. rewrite Hbody. reflexivity. }
  split; [exact Hcall|].
  rewrite (process_files_app _ _ _ _ _ _ before (info :: rest) t w t0 w0 Hbefore).
  simpl. unfold bind at 1.
  unfold process_file, try_except. unfold bind at 1.
  change (print ("📊 Processing file: " +:+ name info) w0)
    with (Ok tt, snd (print ("📊 Processing file: " +:+ name info) w0)).
  cbv iota. unfold bind at 1. rewrite Hcall. reflexivity.
Qed.

(** C2: when a group is written and its file exists already, the rows
    of the group are put after the content the file had, which stays as
    it was; as many lines are appended as the group has rows, the entry
    of the ticker reports that number and 0 duplicates removed, and no
    other file changes. *)
Theorem existing_file_appended (df : DataFrame) (groups : list (string * DataFrame))
    (k : string) (g : DataFrame) (filename : string)
    (results : list (string * ticker_result)) (w : World) (old : string) :
  pd.groupby "ticker" df = Ok groups ->
  In (k, g) groups ->
  files w !! output_path save_dir k = Some old ->
  open_error (output_path save_dir k) = None ->
  exists data,
    pd.drop "ticker" g = Ok data
    /\ List.length (map csv_line (rows data)) = List.length (rows g)
    /\ save_ticker csv_header csv_line open_error save_dir filename k g results w
       = (Ok (dict_set k (mkTickerResult k (List.length (rows g)) 0
                                         (output_path save_dir k)) results),
          mkWorld (stdout w) (slept w) (requested w)
                  (<[output_path save_dir k :=
                       old +:+ String.concat "" (map csv_line (rows data))]> (files w))).
Proof.
  intros Hgroup Hin Hold Hopen.
  destruct (groups_In _ _ _ _ _ Hgroup Hin) as [-> _].
  apply groupby_groups in Hgroup as [_ Hcol].
  destruct (drop_has_column "ticker" (pd.group "ticker" df k) Hcol) as (data & Hdrop).
  exists data. split; [exact Hdrop|].
  destruct (drop_rows _ _ _ Hdrop) as (_ & Hrows & _).
  split; [rewrite Hrows; now rewrite !length_map|].
  rewrite (save_ticker_run csv_header csv_line open_error save_dir
             filename k _ data results w Hdrop).
  rewrite Hopen, Hold. reflexivity.
Qed.

(** C8: for a group that is written, the table stored is the group
    without the column located: its header has neither that name nor
    ticker, its rows are the rows of the parsed table with that ticker,
    each without the cell of that column, and the cells of every other
    column are those of the parsed row. *)
Theorem ticker_column_dropped (df : DataFrame) (c : string)
    (groups : list (string * DataFrame)) (k : string) (g : DataFrame)
    (filename : string) (results : list (string * ticker_result)) (w : World) :
  find_ticker_column df = Some c ->
  pd.groupby "ticker" (pd.rename c "ticker" df) = Ok groups ->
  In (k, g) groups ->
  open_error (output_path save_dir k) = None ->
  exists data,
    pd.drop "ticker" g = Ok data
    /\ columns data = List.filter (fun x => negb (String.eqb x c)) (columns df)
    /\ ~ In c (columns data)
    /\ ~ In "ticker" (columns data)
    /\ rows data
       = map (fun r => mkRow (index r) (pd.reject c (columns df) (cells r)))
             (List.filter (fun r => match pd.key c df r with
                                    | Some v => String.eqb v k
                                    | None => false
                                    end) (rows df))
    /\ (forall r n, n <> c ->
                    pd.select n (columns data) (pd.reject c (columns df) (cells r))
                    = pd.select n (columns df) (cells r))
    /\ files (snd (save_ticker csv_header csv_line open_error save_dir
                               filename k g results w))
       !! output_path save_dir k
       = Some (match files w !! output_path save_dir k with
               | Some old => old
               | None => csv_header (columns data)
               end +:+ String.concat "" (map csv_line (rows data))).
Proof.
  intros Hfind Hgroup Hin Hopen.
  pose proof (find_ticker_column_In _ _ Hfind) as Hc.
  pose proof (groupby_rename_single _ _ _ Hc Hgroup) as Hsingle.
  destruct (groups_In _ _ _ _ _ Hgroup Hin) as [-> _].
  pose proof (proj2 (groupby_groups _ _ _ Hgroup)) as Hcol.
  destruct (drop_has_column "ticker" (pd.group "ticker" (pd.rename c "ticker" df) k) Hcol)
    as (data & Hdrop).
  exists data. split; [exact Hdrop|].
  destruct (drop_rows _ _ _ Hdrop) as (Hcols & Hrows & _).
  assert (Hcols' : columns data
                   = List.filter (fun x => negb (String.eqb x c)) (columns df)).
  { rewrite Hcols. simpl. clear -Hsingle.
    induction (columns df) as [|x cols IH]; simpl; [reflexivity|].
    rewrite IH by (destruct Hsingle as [->|Hn]; [now left | right; simpl in Hn; tauto]).
    destruct (String.eqb_spec x c) as [->|Hxc]; simpl; [reflexivity|].
    destruct (String.eqb_spec x "ticker") as [->|Hxt]; simpl; [|reflexivity].
    destruct Hsingle as [->|Hn]; [congruence | simpl in Hn; tauto]. }
  split; [exact Hcols'|].
  split.
  { rewrite Hcols'. intros H. apply filter_In in H as [_ H].
    rewrite String.eqb_refl in H. discriminate. }
  split.
  { rewrite Hcols. simpl. intros H. apply filter_In in H as [_ H].
    rewrite String.eqb_refl in H. discriminate. }
  split.
  { rewrite Hrows. simpl.
    erewrite filter_ext; [apply map_ext|].
    - intros r. f_equal.
      now destruct (select_rename c (columns df) (cells r) Hsingle) as [_ ->].
    - intros r. now rewrite (key_rename c df r Hsingle). }
  split.
  { intros r n Hn. rewrite Hcols'. now apply select_reject. }
  rewrite (save_ticker_run csv_header csv_line open_error save_dir
             filename k _ data results w Hdrop).
  rewrite Hopen. simpl. rewrite lookup_insert_eq.
  destruct (files w !! output_path save_dir k); reflexivity.
Qed.

(** C1, as the processor does it: when a file is processed with success,
    every row of the parsed table whose value in the ticker column is X
    is in the file that [os.path.join] names for X.csv under the save
    directory, without its ticker cell, provided that path can be opened
    for writing (a group whose path cannot be opened is skipped with a
    warning). *)
Theorem rows_written_to_ticker_file (info : file_info) (w w1 w' : World)
    (content : string) (df : DataFrame) (c : string) (t : string) (d n : nat)
    (r : row) (X : string) :
  download_csv_content session_get (download_url info) w = (Ok content, w1) ->
  read_csv content = Ok df ->
  find_ticker_column df = Some c ->
  process_csv_file session_get read_csv csv_header csv_line open_error save_dir info w
  = (Ok (Success t d n), w') ->
  In r (rows df) ->
  pd.key c df r = Some X ->
  open_error (os_path_join save_dir (X +:+ ".csv")) = None ->
  exists pre post,
    files w' !! os_path_join save_dir (X +:+ ".csv")
    = Some (pre +:+ csv_line (mkRow (index r) (pd.reject c (columns df) (cells r)))
            +:+ post).
Proof.
  intros Hdown Hread Hfind Hrun Hr Hkey Hopen.
  apply process_csv_file_success in Hrun
    as (content' & w1' & df' & c' & groups & first & rest
        & Hdown' & Hread' & Hfind' & Hgroup & _ & _ & _ & _ & _ & Hwritten).
  rewrite Hdown in Hdown'. injection Hdown' as <- <-.
  rewrite Hread in Hread'. injection Hread' as <-.
  rewrite Hfind in Hfind'. injection Hfind' as <-.
  pose proof (find_ticker_column_In _ _ Hfind) as Hc.
  pose proof (groupby_rename_single _ _ _ Hc Hgroup) as Hsingle.
  assert (HX : In X (omap (pd.key "ticker" (pd.rename c "ticker" df))
                          (rows (pd.rename c "ticker" df)))).
  { apply list_elem_of_In, list_elem_of_omap. exists r.
    split; [now apply list_elem_of_In|]. now rewrite key_rename. }
  destruct (Hwritten X _ (In_groups _ _ _ _ Hgroup HX) Hopen)
    as (data & pre & post & Hdrop & Hfile).
  destruct (drop_rows _ _ _ Hdrop) as (_ & Hrows & _).
  assert (Hline : In (csv_line (mkRow (index r) (pd.reject c (columns df) (cells r))))
                     (map csv_line (rows data))).
  { apply in_map. rewrite Hrows. apply in_map_iff. exists r. split.
    - f_equal. simpl.
      now destruct (select_rename c (columns df) (cells r) Hsingle) as [_ ->].
    - simpl. apply filter_In. split; [exact Hr|].
      rewrite (key_rename c df r Hsingle), Hkey. apply String.eqb_refl. }
  destruct (concat_In _ _ Hline) as (a & b & Hsplit).
  exists (pre +:+ a), (b +:+ post).
  unfold output_path in Hfile. rewrite Hfile. unfold csv_rows. rewrite Hsplit.
  now rewrite !append_assoc.
Qed.

(** C9, as the processor does it: a success of [process_csv_file] carries
    the ticker, the number of rows and the 0 duplicates removed of one
    group only.  The groups come in the order in which the values of the
    ticker column sort; the group reported is the first of them whose file
    could be opened for writing, every group before it having been skipped
    (it is the first group when every file can be opened).  The groups
    after it whose file could be opened have other tickers, are in their
    files all the same, and are not in the result. *)
Theorem only_first_ticker_reported (info : file_info) (w w' : World)
    (t : string) (d n : nat) :
  process_csv_file session_get read_csv csv_header csv_line open_error save_dir info w
  = (Ok (Success t d n), w') ->
  exists content w1 df c groups skipped later,
    download_csv_content session_get (download_url info) w = (Ok content, w1)
    /\ read_csv content = Ok df
    /\ find_ticker_column df = Some c
    /\ pd.groupby "ticker" (pd.rename c "ticker" df) = Ok groups
    /\ map fst groups
       = pd.sorted_keys (sorts_before df) (omap (pd.key c df) (rows df))
    /\ groups = skipped ++ (t, pd.group "ticker" (pd.rename c "ticker" df) t) :: later
    /\ (forall k g, In (k, g) skipped -> open_error (output_path save_dir k) <> None)
    /\ open_error (output_path save_dir t) = None
    /\ d = 0%nat
    /\ n = List.length (rows (pd.group "ticker" (pd.rename c "ticker" df) t))
    /\ n = List.length
             (List.filter (fun r => match pd.key c df r with
                                    | Some v => String.eqb v t
                                    | None => false
                                    end) (rows df))
    /\ (forall k g,
           In (k, g) ((t, pd.group "ticker" (pd.rename c "ticker" df) t) :: later) ->
           open_error (output_path save_dir k) = None ->
           exists data pre post,
             pd.drop "ticker" g = Ok data
             /\ files w' !! output_path save_dir k
                = Some (pre +:+ String.concat "" (map csv_line (rows data)) +:+ post))
    /\ (forall k g, In (k, g) skipped \/ In (k, g) later -> k <> t)
    /\ ((forall k g, In (k, g) groups -> open_error (output_path save_dir k) = None) ->
        skipped = []).
Proof.
  intros Hrun.
  apply process_csv_file_success in Hrun
    as (content & w1 & df & c & groups & first & rest
        & Hdown & Hread & Hfind & Hgroup & Hfilter & Ht & Hd & Hn & _ & Hwritten).
  pose proof (find_ticker_column_In _ _ Hfind) as Hc.
  pose proof (groupby_rename_single _ _ _ Hc Hgroup) as Hsingle.
  assert (Hfirst : first = (t, pd.group "ticker" (pd.rename c "ticker" df) t)).
  { destruct first as [k g]. simpl in Ht. subst k. f_equal.
    assert (Hin : In (t, g) groups).
    { eapply (proj1 (filter_In _ _ _)). rewrite Hfilter. now left. }
    now destruct (groups_In _ _ _ _ _ Hgroup Hin). }
  subst first. simpl in Hn.
  destruct (filter_first_split _ _ _ _ Hfilter)
    as (skipped & later & Hsplit & Hskipped & Hopens & _).
  assert (Hopen : open_error (output_path save_dir t) = None).
  { unfold opens in Hopens. simpl in Hopens.
    now destruct (open_error (output_path save_dir t)). }
  assert (Hkeys : map fst groups
                  = pd.sorted_keys (sorts_before df) (omap (pd.key c df) (rows df))).
  { destruct (groupby_groups _ _ _ Hgroup) as [-> _].
    rewrite map_map. simpl. rewrite map_id. f_equal.
    apply omap_pointwise. intros r. now apply key_rename. }
  exists content, w1, df, c, groups, skipped, later.
  repeat (split; [assumption|]).
  split.
  { intros k g Hin Hnone. specialize (Hskipped (k, g) Hin).
    unfold opens in Hskipped. simpl in Hskipped. now rewrite Hnone in Hskipped. }
  split; [exact Hopen|]. split; [exact Hd|]. split; [exact Hn|].
  split.
  { rewrite Hn. simpl. f_equal. apply filter_ext. intros r.
    now rewrite (key_rename c df r Hsingle). }
  split.
  { intros k g Hin Hnone.
    destruct (Hwritten k g) as (data & pre & post & Hdrop & Hfile).
    - rewrite Hsplit. apply in_app_iff. now right.
    - exact Hnone.
    - exists data, pre, post. split; [exact Hdrop | exact Hfile]. }
  assert (Hnodup : List.NoDup (map fst groups))
    by (rewrite Hkeys; apply sorted_keys_NoDup).
  rewrite Hsplit, map_app in Hnodup. simpl in Hnodup.
  split.
  { intros k g Hin ->.
    apply List.NoDup_remove_2 in Hnodup. apply Hnodup, in_app_iff.
    destruct Hin as [Hin|Hin]; [left|right];
      apply in_map_iff; exists (t, g); split; [reflexivity | exact Hin | reflexivity | exact Hin]. }
  intros Hall. destruct skipped as [|[k g] skipped]; [reflexivity|].
  exfalso. specialize (Hskipped (k, g) ltac:(now left)).
  unfold opens in Hskipped. simpl in Hskipped.
  rewrite (Hall k g) in Hskipped; [discriminate|].
  rewrite Hsplit. now left.
Qed.

End ProcessProperties.

(** ** The properties at work on the small worlds *)

Lemma ticker_column_located_witness :
  download_csv_content Demo.net_prices (download_url Demo.prices_info) Demo.w0
  = (Ok Demo.prices_text, Demo.w_downloaded)
  /\ Demo.read_csv Demo.prices_text = Ok Demo.prices
  /\ (ticker_columns = ["symbol"; "ticker"; "Symbol"; "Ticker"; "SYMBOL"; "TICKER"]
      /\ ((exists before c after,
             ticker_columns = before ++ c :: after
             /\ In c (columns Demo.prices)
             /\ (forall c', In c' before -> ~ In c' (columns Demo.prices))
             /\ _clean_dataframe Demo.prices (name Demo.prices_info) Demo.w_downloaded
                = (Ok (Some (pd.rename c "ticker" Demo.prices)), Demo.w_downloaded))
          \/ ((forall c, In c ticker_columns -> ~ In c (columns Demo.prices))
              /\ fst (_clean_dataframe Demo.prices (name Demo.prices_info)
                                       Demo.w_downloaded) = Ok None
              /\ exists error w',
                  process_csv_file Demo.net_prices Demo.read_csv Demo.csv_header
                    Demo.csv_line Demo.open_error Demo.save_dir Demo.prices_info Demo.w0
                  = (Ok (Failure error), w')
                  /\ files w' = files Demo.w0))).
Proof.
  split; [reflexivity|]. split; [reflexivity|].
  apply (ticker_column_located Demo.net_prices Demo.read_csv Demo.csv_header
           Demo.csv_line Demo.open_error Demo.save_dir Demo.prices_info
           Demo.w0 Demo.w_downloaded Demo.prices_text Demo.prices); reflexivity.
Defined.

Lemma failing_file_is_skipped_witness :
  process_files Demo.net_404 Demo.read_csv Demo.csv_header Demo.csv_line
                Demo.open_error Demo.save_dir [] (mkTally 0 0 []) Demo.w0
  = (Ok (mkTally 0 0 []), Demo.w0)
  /\ process_csv_file_body Demo.net_404 Demo.read_csv Demo.csv_header Demo.csv_line
       Demo.open_error Demo.save_dir Demo.prices_info
       (snd (print ("📊 Processing file: " +:+ name Demo.prices_info) Demo.w0))
     = (Raise (Exception "Failed to download file: HTTP 404"),
        mkWorld ["📊 Processing file: prices.csv"] []
                ["https://raw.githubusercontent.com/o/r/main/prices.csv"] ∅)
  /\ process_files Demo.net_404 Demo.read_csv Demo.csv_header Demo.csv_line
                   Demo.open_error Demo.save_dir
                   ([] ++ Demo.prices_info :: [Demo.prices_info]) (mkTally 0 0 []) Demo.w0
     = process_files Demo.net_404 Demo.read_csv Demo.csv_header Demo.csv_line
         Demo.open_error Demo.save_dir [Demo.prices_info]
         (mkTally 0 (0 + 1) [])
         (mkWorld (["📊 Processing file: prices.csv"]
                   ++ ["⚠️  Skipped: Error processing "
                       +:+ name Demo.prices_info +:+ ": "
                       +:+ str (Exception "Failed to download file: HTTP 404")])
                  []
                  ["https://raw.githubusercontent.com/o/r/main/prices.csv"] ∅).
Proof.
  split; [reflexivity|]. split; [reflexivity|].
  apply (failing_file_is_skipped Demo.net_404 Demo.read_csv Demo.csv_header
           Demo.csv_line Demo.open_error Demo.save_dir
           [] [Demo.prices_info] Demo.prices_info (mkTally 0 0 []) (mkTally 0 0 [])
           Demo.w0 Demo.w0
           (mkWorld ["📊 Processing file: prices.csv"] []
                    ["https://raw.githubusercontent.com/o/r/main/prices.csv"] ∅)
           (Exception "Failed to download file: HTTP 404")); reflexivity.
Defined.

Lemma existing_file_appended_witness :
  pd.groupby "ticker" Demo.cleaned = Ok Demo.groups
  /\ In ("AAPL", pd.group "ticker" Demo.cleaned "AAPL") Demo.groups
  /\ files Demo.w_existing !! output_path Demo.save_dir "AAPL"
     = Some (",date,close" +:+ Demo.nl +:+ "7,2023-12-29,192.53" +:+ Demo.nl)
  /\ Demo.open_error (output_path Demo.save_dir "AAPL") = None
  /\ exists data,
      pd.drop "ticker" (pd.group "ticker" Demo.cleaned "AAPL") = Ok data
      /\ List.length (map Demo.csv_line (rows data))
         = List.length (rows (pd.group "ticker" Demo.cleaned "AAPL"))
      /\ save_ticker Demo.csv_header Demo.csv_line Demo.open_error Demo.save_dir
           "prices.csv" "AAPL" (pd.group "ticker" Demo.cleaned "AAPL") [] Demo.w_existing
         = (Ok (dict_set "AAPL"
                  (mkTickerResult "AAPL"
                     (List.length (rows (pd.group "ticker" Demo.cleaned "AAPL"))) 0
                     (output_path Demo.save_dir "AAPL")) []),
            mkWorld (stdout Demo.w_existing) (slept Demo.w_existing)
                    (requested Demo.w_existing)
                    (<[output_path Demo.save_dir "AAPL" :=
                         (",date,close" +:+ Demo.nl +:+ "7,2023-12-29,192.53" +:+ Demo.nl)
                         +:+ String.concat "" (map Demo.csv_line (rows data))]>
                       (files Demo.w_existing))).
Proof.
  split; [reflexivity|]. split; [now left|]. split; [reflexivity|].
  split; [reflexivity|].
  apply (existing_file_appended Demo.csv_header Demo.csv_line Demo.open_error
           Demo.save_dir Demo.cleaned Demo.groups "AAPL"
           (pd.group "ticker" Demo.cleaned "AAPL") "prices.csv" [] Demo.w_existing
           (",date,close" +:+ Demo.nl +:+ "7,2023-12-29,192.53" +:+ Demo.nl));
    [reflexivity | now left | reflexivity | reflexivity].
Defined.

Lemma ticker_column_dropped_witness :
  find_ticker_column Demo.prices = Some "symbol"
  /\ pd.groupby "ticker" (pd.rename "symbol" "ticker" Demo.prices) = Ok Demo.groups
  /\ In ("AAPL", pd.group "ticker" Demo.cleaned "AAPL") Demo.groups
  /\ Demo.open_error (output_path Demo.save_dir "AAPL") = None
  /\ exists data,
      pd.drop "ticker" (pd.group "ticker" Demo.cleaned "AAPL") = Ok data
      /\ columns data
         = List.filter (fun x => negb (String.eqb x "symbol")) (columns Demo.prices)
      /\ ~ In "symbol" (columns data)
      /\ ~ In "ticker" (columns data)
      /\ rows data
         = map (fun r => mkRow (index r)
                               (pd.reject "symbol" (columns Demo.prices) (cells r)))
               (List.filter (fun r => match pd.key "symbol" Demo.prices r with
                                      | Some v => String.eqb v "AAPL"
                                      | None => false
                                      end) (rows Demo.prices))
      /\ (forall r n, n <> "symbol" ->
                      pd.select n (columns data)
                                (pd.reject "symbol" (columns Demo.prices) (cells r))
                      = pd.select n (columns Demo.prices) (cells r))
      /\ files (snd (save_ticker Demo.csv_header Demo.csv_line Demo.open_error
                                 Demo.save_dir "prices.csv" "AAPL"
                                 (pd.group "ticker" Demo.cleaned "AAPL") [] Demo.w0))
         !! output_path Demo.save_dir "AAPL"
         = Some (match files Demo.w0 !! output_path Demo.save_dir "AAPL" with
                 | Some old => old
                 | None => Demo.csv_header (columns data)
                 end +:+ String.concat "" (map Demo.csv_line (rows data))).
Proof.
  split; [reflexivity|]. split; [reflexivity|]. split; [now left|].
  split; [reflexivity|].
  apply (ticker_column_dropped Demo.csv_header Demo.csv_line Demo.open_error
           Demo.save_dir Demo.prices "symbol" Demo.groups "AAPL"
           (pd.group "ticker" Demo.cleaned "AAPL") "prices.csv" [] Demo.w0);
    [reflexivity | reflexivity | now left | reflexivity].
Defined.

Lemma rows_written_to_ticker_file_witness :
  download_csv_content Demo.net_prices (download_url Demo.prices_info) Demo.w0
  = (Ok Demo.prices_text, Demo.w_downloaded)
  /\ Demo.read_csv Demo.prices_text = Ok Demo.prices
  /\ find_ticker_column Demo.prices = Some "symbol"
  /\ process_csv_file Demo.net_prices Demo.read_csv Demo.csv_header Demo.csv_line
       Demo.open_error Demo.save_dir Demo.prices_info Demo.w0
     = (Ok (Success "AAPL" 0 2), Demo.w_processed)
  /\ In (mkRow 2 [Some "2024-01-03"; Some "AAPL"; Some "184.25"]) (rows Demo.prices)
  /\ pd.key "symbol" Demo.prices (mkRow 2 [Some "2024-01-03"; Some "AAPL"; Some "184.25"])
     = Some "AAPL"
  /\ Demo.open_error (os_path_join Demo.save_dir ("AAPL" +:+ ".csv")) = None
  /\ exists pre post,
      files Demo.w_processed !! os_path_join Demo.save_dir ("AAPL" +:+ ".csv")
      = Some (pre
              +:+ Demo.csv_line
                    (mkRow 2 (pd.reject "symbol" (columns Demo.prices)
                                        [Some "2024-01-03"; Some "AAPL"; Some "184.25"]))
              +:+ post).
Proof.
  split; [reflexivity|]. split; [reflexivity|]. split; [reflexivity|].
  split; [reflexivity|]. split; [now right; right; left|]. split; [reflexivity|].
  split; [reflexivity|].
  apply (rows_written_to_ticker_file Demo.net_prices Demo.read_csv Demo.csv_header
           Demo.csv_line Demo.open_error Demo.save_dir Demo.prices_info
           Demo.w0 Demo.w_downloaded Demo.w_processed Demo.prices_text Demo.prices
           "symbol" "AAPL" 0 2
           (mkRow 2 [Some "2024-01-03"; Some "AAPL"; Some "184.25"]) "AAPL");
    [reflexivity | reflexivity | reflexivity | reflexivity
     | now right; right; left | reflexivity | reflexivity].
Defined.

(** Without the proviso the property fails: the price file is processed with
    success, its row 1 has the ticker EUR/USD, and no file of that ticker
    exists afterwards, since the directory [./data/EUR] that the path of
    the ticker needs is not there and the group is skipped. *)
Lemma rows_written_counterexample :
  ~ (forall (session_get : nat -> string -> get_outcome)
            (read_csv : string -> res DataFrame)
            (csv_header : list string -> string) (csv_line : row -> string)
            (open_error : string -> option string) (save_dir : string)
            (info : file_info) (w w1 w' : World) (content : string)
            (df : DataFrame) (c t : string) (d n : nat) (r : row) (X : string),
        download_csv_content session_get (download_url info) w = (Ok content, w1) ->
        read_csv content = Ok df ->
        find_ticker_column df = Some c ->
        process_csv_file session_get read_csv csv_header csv_line open_error
                         save_dir info w
        = (Ok (Success t d n), w') ->
        In r (rows df) ->
        pd.key c df r = Some X ->
        exists pre post,
          files w' !! os_path_join save_dir (X +:+ ".csv")
          = Some (pre +:+ csv_line (mkRow (index r) (pd.reject c (columns df) (cells r)))
                  +:+ post)).
Proof.
  intros H.
  destruct (H Demo.net_prices Demo.read_csv Demo.csv_header Demo.csv_line
              Demo.open_error Demo.save_dir Demo.prices_info
              Demo.w0 Demo.w_downloaded Demo.w_processed Demo.prices_text Demo.prices
              "symbol" "AAPL" 0%nat 2%nat
              (mkRow 1 [Some "2024-01-02"; Some "EUR/USD"; Some "1.0942"]) "EUR/USD"
              eq_refl eq_refl eq_refl eq_refl
              ltac:(now right; left) eq_refl)
    as (pre & post & Hfile).
  vm_compute in Hfile. discriminate Hfile.
Qed.

Lemma only_first_ticker_reported_witness :
  process_csv_file Cases.net_shares Cases.read_shares Demo.csv_header Demo.csv_line
    Cases.open_shares Demo.save_dir Cases.shares_info Demo.w0
  = (Ok (Success "MSFT" 0 2), Cases.w_shares_processed)
  /\ exists content w1 df c groups skipped later,
      download_csv_content Cases.net_shares (download_url Cases.shares_info) Demo.w0
      = (Ok content, w1)
      /\ Cases.read_shares content = Ok df
      /\ find_ticker_column df = Some c
      /\ pd.groupby "ticker" (pd.rename c "ticker" df) = Ok groups
      /\ map fst groups
         = pd.sorted_keys (sorts_before df) (omap (pd.key c df) (rows df))
      /\ groups
         = skipped ++ ("MSFT", pd.group "ticker" (pd.rename c "ticker" df) "MSFT") :: later
      /\ (forall k g, In (k, g) skipped ->
                      Cases.open_shares (output_path Demo.save_dir k) <> None)
      /\ Cases.open_shares (output_path Demo.save_dir "MSFT") = None
      /\ 0%nat = 0%nat
      /\ 2%nat = List.length (rows (pd.group "ticker" (pd.rename c "ticker" df) "MSFT"))
      /\ 2%nat = List.length
                   (List.filter (fun r => match pd.key c df r with
                                          | Some v => String.eqb v "MSFT"
                                          | None => false
                                          end) (rows df))
      /\ (forall k g,
             In (k, g) (("MSFT", pd.group "ticker" (pd.rename c "ticker" df) "MSFT")
                        :: later) ->
             Cases.open_shares (output_path Demo.save_dir k) = None ->
             exists data pre post,
               pd.drop "ticker" g = Ok data
               /\ files Cases.w_shares_processed !! output_path Demo.save_dir k
                  = Some (pre +:+ String.concat "" (map Demo.csv_line (rows data))
                          +:+ post))
      /\ (forall k g, In (k, g) skipped \/ In (k, g) later -> k <> "MSFT")
      /\ ((forall k g, In (k, g) groups ->
                       Cases.open_shares (output_path Demo.save_dir k) = None) ->
          skipped = []).
Proof.
  split; [reflexivity|].
  apply (only_first_ticker_reported Cases.net_shares Cases.read_shares Demo.csv_header
           Demo.csv_line Cases.open_shares Demo.save_dir Cases.shares_info Demo.w0
           Cases.w_shares_processed "MSFT" 0 2).
  reflexivity.
Defined.

(** Without the proviso on the files the property fails: the file of three
    tickers is processed with success, its groups are those of BRK/B, MSFT
    and NVDA in that order, and the result carries MSFT, the second of
    them, the first one having been skipped; nor is there a file of BRK/B
    afterwards. *)
Lemma first_group_counterexample :
  ~ (forall (session_get : nat -> string -> get_outcome)
            (read_csv : string -> res DataFrame)
            (csv_header : list string -> string) (csv_line : row -> string)
            (open_error : string -> option string) (save_dir : string)
            (info : file_info) (w w1 w' : World) (content : string)
            (df : DataFrame) (c t : string) (d n : nat)
            (groups : list (string * DataFrame)),
        download_csv_content session_get (download_url info) w = (Ok content, w1) ->
        read_csv content = Ok df ->
        find_ticker_column df = Some c ->
        pd.groupby "ticker" (pd.rename c "ticker" df) = Ok groups ->
        (2 <= List.length groups)%nat ->
        process_csv_file session_get read_csv csv_header csv_line open_error
                         save_dir info w
        = (Ok (Success t d n), w') ->
        (exists g rest, groups = (t, g) :: rest)
        /\ (forall k g, In (k, g) groups ->
                        files w' !! output_path save_dir k <> None)).
Proof.
  intros H.
  destruct (H Cases.net_shares Cases.read_shares Demo.csv_header Demo.csv_line
              Cases.open_shares Demo.save_dir Cases.shares_info
              Demo.w0 Cases.w_shares Cases.w_shares_processed Cases.shares_text
              Cases.shares "symbol" "MSFT" 0%nat 2%nat
              [ ("BRK/B", pd.group "ticker" Cases.shares_cleaned "BRK/B");
                ("MSFT", pd.group "ticker" Cases.shares_cleaned "MSFT");
                ("NVDA", pd.group "ticker" Cases.shares_cleaned "NVDA") ]
              eq_refl eq_refl eq_refl eq_refl ltac:(simpl; lia) eq_refl)
    as [(g & rest & Hfirst) _].
  discriminate Hfirst.
Qed.

(** * Further properties *)

(** ** The fetch layer *)

Section FetchProperties.

Variable session_get : nat -> string -> get_outcome.

(** The world after [_make_request] is the world after its loop. *)
Lemma make_request_world url max_retries w :
  snd (_make_request session_get url max_retries w)
  = snd (retry_loop session_get url max_retries max_retries 0 w).
Proof.
  unfold _make_request, bind.
  destruct (retry_loop session_get url max_retries max_retries 0 w) as [[[r|]|e] w'];
    reflexivity.
Qed.

(** What a call with the default number of attempts returns, by the
    attempt that ends it. *)
Lemma make_request_outcome url w :
  exists k,
    (1 <= k <= 3)%nat
    /\ (forall j, (j < k - 1)%nat -> failing (nth_outcome session_get w url j) = true)
    /\ (failing (nth_outcome session_get w url (k - 1)) = true -> k = 3%nat)
    /\ fst (_make_request session_get url default_max_retries w)
       = (if failing (nth_outcome session_get w url (k - 1))
          then Raise (exhausted (nth_outcome session_get w url (k - 1)))
          else accepted (nth_outcome session_get w url (k - 1)))
    /\ requested (snd (_make_request session_get url default_max_retries w))
       = requested w ++ repeat url k
    /\ slept (snd (_make_request session_get url default_max_retries w))
       = slept w ++ map (fun j => backoff (nth_outcome session_get w url j))
                        (seq 0 (k - 1)).
Proof.
  destruct (retry_loop_run session_get url default_max_retries
              default_max_retries 0 w eq_refl ltac:(unfold default_max_retries; lia))
    as (k & r & w' & Hrun & Hk & Hfails & Hreq & Hslept & _ & Hr & Hlast).
  exists k. rewrite make_request_world, Hrun. simpl.
  unfold default_max_retries in Hk, Hlast.
  repeat (split; [first [assumption | lia]|]).
  split; [|split; assumption].
  unfold _make_request, bind. rewrite Hrun, Hr. unfold nth_outcome.
  destruct (failing _); [reflexivity|]. destruct (accepted _); reflexivity.
Qed.

(** The time spent waiting: a call allowed [max_retries] attempts sleeps
    after every request but its last, 2 or 60 seconds each time, hence at
    most [max_retries - 1] times and [60 * (max_retries - 1)] seconds in
    all. *)
Theorem make_request_sleep_bound (url : string) (max_retries : nat) (w : World) :
  (1 <= max_retries)%nat ->
  exists naps,
    slept (snd (_make_request session_get url max_retries w)) = slept w ++ naps
    /\ List.length (requested (snd (_make_request session_get url max_retries w)))
       = (List.length (requested w) + List.length naps + 1)%nat
    /\ (List.length naps <= max_retries - 1)%nat
    /\ Forall (fun n => n = 2%nat \/ n = 60%nat) naps
    /\ (list_sum naps <= 60 * (max_retries - 1))%nat.
Proof.
  intros Hm.
  destruct (retry_loop_run session_get url max_retries max_retries 0 w
              ltac:(lia) Hm)
    as (k & r & w' & Hrun & Hk & _ & Hreq & Hslept & _ & _ & _).
  rewrite make_request_world, Hrun. simpl.
  exists (map (fun j => backoff (session_get (List.length (requested w) + j)%nat url))
              (seq 0 (k - 1))).
  split; [exact Hslept|].
  split; [rewrite Hreq, length_app, repeat_length, length_map, length_seq; lia|].
  split; [rewrite length_map, length_seq; lia|].
  assert (Hnaps : forall l : list nat,
             Forall (fun n => n = 2%nat \/ n = 60%nat)
                    (map (fun j => backoff (session_get
                                              (List.length (requested w) + j)%nat url)) l)
             /\ (list_sum (map (fun j => backoff (session_get
                                              (List.length (requested w) + j)%nat url)) l)
                 <= 60 * List.length l)%nat).
  { induction l as [|j l [IHa IHs]]; simpl; [split; [constructor | lia]|].
    split.
    - constructor; [|exact IHa]. unfold backoff. destruct (session_get _ _); auto.
    - unfold backoff at 1. destruct (session_get _ _); lia. }
  destruct (Hnaps (seq 0 (k - 1))) as [Hall Hsum].
  split; [exact Hall|]. rewrite length_seq in Hsum. nia.
Qed.

(** A download gives the text of a response with status 200 that one of
    at most three attempts received, all attempts before it having
    failed; whatever else happens, what it raises is a plain [Exception]
    and never an exception of [requests].  It sends requests for its URL
    only and touches no file. *)
Theorem download_csv_content_outcome (url : string) (w : World) :
  match fst (download_csv_content session_get url w) with
  | Ok content =>
      exists j response,
        (j < 3)%nat
        /\ (forall i, (i < j)%nat -> failing (nth_outcome session_get w url i) = true)
        /\ nth_outcome session_get w url j = Got response
        /\ status_code response = 200%Z
        /\ content = text response
  | Raise e => is_RequestException e = false
  end
  /\ (exists k, (1 <= k <= 3)%nat
                /\ requested (snd (download_csv_content session_get url w))
                   = requested w ++ repeat url k)
  /\ files (snd (download_csv_content session_get url w)) = files w.
Proof.
  destruct (make_request_outcome url w)
    as (k & Hk & Hfails & Hlast & Hres & Hreq & _).
  pose proof (make_request_frame session_get url w) as Hframe.
  unfold download_csv_content, try_except, bind.
  destruct (_make_request session_get url default_max_retries w)
    as [[response|e] w1] eqn:Hmr.
  - simpl in Hres, Hreq. destruct (Hframe _ _ eq_refl) as [_ Hfiles].
    assert (Hgot : failing (nth_outcome session_get w url (k - 1)) = false
                   /\ nth_outcome session_get w url (k - 1) = Got response).
    { destruct (failing (nth_outcome session_get w url (k - 1))); [discriminate|].
      split; [reflexivity|].
      destruct (nth_outcome session_get w url (k - 1)); simpl in Hres; congruence. }
    destruct Hgot as [_ Hgot].
    destruct (Z.eqb_spec (status_code response) 200) as [Hst|Hst]; simpl.
    + split; [|split; [exists k; split; assumption | exact Hfiles]].
      exists (k - 1)%nat, response.
      repeat split; [lia | exact Hfails | exact Hgot | exact Hst].
    + split; [reflexivity|]. split; [exists k; split; assumption | exact Hfiles].
  - simpl in Hres, Hreq. destruct (Hframe _ _ eq_refl) as [_ Hfiles].
    destruct (is_RequestException e) eqn:He; simpl.
    + split; [reflexivity|]. split; [exists k; split; assumption | exact Hfiles].
    + split; [exact He|]. split; [exists k; split; assumption | exact Hfiles].
Qed.

(** When the three attempts of the repository lookup all fail,
    [fetch_csv_files] raises after three requests and two sleeps: the
    rate-limit message when the last attempt was rate limited, and
    ["Network error while accessing GitHub: "] followed by the text of
    the exception when the last attempt raised. *)
Theorem fetch_csv_files_lookup_exhausted (root : res (listing item))
    (username repository branch : string) (w : World) :
  (forall j, (j < 3)%nat ->
             failing (nth_outcome session_get w (repo_url username repository) j) = true) ->
  exists w',
    fetch_csv_files session_get root username repository branch w
    = (Raise (Exception
                (match nth_outcome session_get w (repo_url username repository) 2 with
                 | Got _ => "GitHub API rate limit exceeded. Please try again later."
                 | GetRaises e => "Network error while accessing GitHub: " +:+ str e
                 end)), w')
    /\ requested w'
       = requested w ++ [repo_url username repository; repo_url username repository;
                         repo_url username repository]
    /\ slept w'
       = slept w ++ [backoff (nth_outcome session_get w (repo_url username repository) 0);
                     backoff (nth_outcome session_get w (repo_url username repository) 1)]
    /\ files w' = files w.
Proof.
  intros Hall.
  destruct (make_request_outcome (repo_url username repository) w)
    as (k & Hk & _ & Hlast & Hres & Hreq & Hslept).
  assert (k = 3%nat) as -> by (apply Hlast, Hall; lia).
  simpl in Hres, Hreq, Hslept. rewrite (Hall 2%nat) in Hres by lia.
  pose proof (Hall 2%nat ltac:(lia)) as Hfail2.
  pose proof (make_request_frame session_get (repo_url username repository) w) as Hframe.
  unfold fetch_csv_files, try_except, bind.
  destruct (_make_request session_get (repo_url username repository)
              default_max_retries w) as [r w1] eqn:Hmr.
  simpl in Hres, Hreq, Hslept. subst r.
  destruct (Hframe _ _ eq_refl) as [_ Hfiles].
  exists w1.
  destruct (nth_outcome session_get w (repo_url username repository) 2) as [resp|e];
    simpl in *.
  - repeat split; assumption.
  - rewrite Hfail2. unfold raise. repeat split; assumption.
Qed.

(** When the repository lookup returns a response whose status is neither
    200 nor 404, [fetch_csv_files] raises ["Failed to access repository:
    HTTP "] followed by the status, and asks for no contents. *)
Theorem fetch_csv_files_lookup_refused (root : res (listing item))
    (username repository branch : string) (w w1 : World) (response : Response) :
  _make_request session_get (repo_url username repository) default_max_retries w
  = (Ok response, w1) ->
  status_code response <> 404%Z ->
  status_code response <> 200%Z ->
  fetch_csv_files session_get root username repository branch w
  = (Raise (Exception ("Failed to access repository: HTTP "
                       +:+ Str.of_Z (status_code response))), w1)
  /\ (exists k, (1 <= k <= 3)%nat
                /\ requested w1 = requested w ++ repeat (repo_url username repository) k).
Proof.
  intros Hlookup H404 H200.
  split.
  - unfold fetch_csv_files, try_except, bind. rewrite Hlookup.
    destruct (Z.eqb_spec (status_code response) 404) as [|_]; [contradiction|].
    destruct (Z.eqb_spec (status_code response) 200) as [|_]; [contradiction|].
    reflexivity.
  - exact (proj1 (make_request_frame session_get _ _ _ _ Hlookup)).
Qed.

End FetchProperties.

Lemma make_request_sleep_bound_witness :
  (1 <= 3)%nat
  /\ exists naps,
      slept (snd (_make_request Cases.net_down "https://api.github.com/repos/o/r" 3
                                Demo.w0)) = slept Demo.w0 ++ naps
      /\ List.length (requested (snd (_make_request Cases.net_down
                                        "https://api.github.com/repos/o/r" 3 Demo.w0)))
         = (List.length (requested Demo.w0) + List.length naps + 1)%nat
      /\ (List.length naps <= 3 - 1)%nat
      /\ Forall (fun n => n = 2%nat \/ n = 60%nat) naps
      /\ (list_sum naps <= 60 * (3 - 1))%nat.
Proof.
  split; [lia|].
  apply (make_request_sleep_bound Cases.net_down "https://api.github.com/repos/o/r"
           3 Demo.w0).
  lia.
Defined.

Lemma fetch_csv_files_lookup_exhausted_witness :
  (forall j, (j < 3)%nat ->
             failing (nth_outcome Cases.net_down Demo.w0 (repo_url "o" "r") j) = true)
  /\ exists w',
      fetch_csv_files Cases.net_down Demo.repo_root "o" "r" "main" Demo.w0
      = (Raise (Exception
                  (match nth_outcome Cases.net_down Demo.w0 (repo_url "o" "r") 2 with
                   | Got _ => "GitHub API rate limit exceeded. Please try again later."
                   | GetRaises e => "Network error while accessing GitHub: " +:+ str e
                   end)), w')
      /\ requested w'
         = requested Demo.w0 ++ [repo_url "o" "r"; repo_url "o" "r"; repo_url "o" "r"]
      /\ slept w'
         = slept Demo.w0 ++ [backoff (nth_outcome Cases.net_down Demo.w0 (repo_url "o" "r") 0);
                             backoff (nth_outcome Cases.net_down Demo.w0 (repo_url "o" "r") 1)]
      /\ files w' = files Demo.w0.
Proof.
  split; [intros j _; reflexivity|].
  apply (fetch_csv_files_lookup_exhausted Cases.net_down Demo.repo_root "o" "r" "main"
           Demo.w0).
  intros j _. reflexivity.
Defined.

Lemma fetch_csv_files_lookup_refused_witness :
  _make_request Cases.net_500 (repo_url "o" "r") default_max_retries Demo.w0
  = (Ok (mkResponse 500 "Internal Server Error"),
     mkWorld [] [] ["https://api.github.com/repos/o/r"] ∅)
  /\ status_code (mkResponse 500 "Internal Server Error") <> 404%Z
  /\ status_code (mkResponse 500 "Internal Server Error") <> 200%Z
  /\ fetch_csv_files Cases.net_500 Demo.repo_root "o" "r" "main" Demo.w0
     = (Raise (Exception ("Failed to access repository: HTTP "
                          +:+ Str.of_Z (status_code (mkResponse 500 "Internal Server Error")))),
        mkWorld [] [] ["https://api.github.com/repos/o/r"] ∅)
  /\ (exists k, (1 <= k <= 3)%nat
                /\ requested (mkWorld [] [] ["https://api.github.com/repos/o/r"] ∅)
                   = requested Demo.w0 ++ repeat (repo_url "o" "r") k).
Proof.
  split; [reflexivity|]. split; [discriminate|]. split; [discriminate|].
  apply (fetch_csv_files_lookup_refused Cases.net_500 Demo.repo_root "o" "r" "main"
           Demo.w0 (mkWorld [] [] ["https://api.github.com/repos/o/r"] ∅)
           (mkResponse 500 "Internal Server Error")); [reflexivity | discriminate..].
Defined.

(** ** More on the directory walk *)

Section WalkProperties.

Variables username repository branch : string.

Lemma entered_below dir response sub d :
  i_served dir = Ok response ->
  l_status_code response = 200%Z ->
  In sub (items_of (l_json response)) ->
  i_type sub = "dir" ->
  entered sub d -> entered dir d.
Proof.
  intros Hs Hst Hin Hdir [->|[Hfound Hd]]; right.
  - split; [eapply found_here; eauto | exact Hdir].
  - split; [eapply found_below; eauto | exact Hd].
Qed.

(** The loop returns when the calls on the directories among its items
    do. *)
Lemma visit_all_returns items :
  (forall it, In it items -> i_type it = "dir" ->
              forall w, exists fs w',
                _get_csv_files_recursive username repository branch it w = (Ok fs, w')) ->
  forall acc w, exists fs w',
    visit_all (_get_csv_files_recursive username repository branch) items acc w
    = (Ok fs, w').
Proof.
  induction items as [|it items IH]; intros Hsub acc w; simpl.
  - unfold ret. eauto.
  - assert (Hvisit : exists acc1 w1,
               visit it (_get_csv_files_recursive username repository branch it) acc w
               = (Ok acc1, w1)).
    { unfold visit. destruct (is_csv_file it); [unfold ret; eauto|].
      destruct (String.eqb_spec (i_type it) "dir") as [Hdir|_]; [|unfold ret; eauto].
      destruct (Hsub it (or_introl eq_refl) Hdir w) as (fs & w1 & Hrun).
      unfold bind. rewrite Hrun. unfold ret. eauto. }
    destruct Hvisit as (acc1 & w1 & Hvisit). unfold bind. rewrite Hvisit.
    apply IH. intros it' Hin. apply Hsub. now right.
Qed.

(** The walk survives the failures of the network: when the only
    exceptions that the contents requests of the directories it enters
    raise are exceptions of [requests] (timeouts, connection errors), it
    returns a list and does not raise, whatever the statuses of the
    responses. *)
Theorem walk_survives_network_failures (dir : item) :
  (forall d e, entered dir d -> i_served d = Raise e -> is_RequestException e = true) ->
  forall w, exists csv_files w',
    _get_csv_files_recursive username repository branch dir w = (Ok csv_files, w').
Proof.
  induction dir as [t n p u z served IH] using item_tree_ind.
  intros Hreq w. rewrite walk_eq.
  unfold try_except, bind, request_contents. simpl.
  destruct served as [response|e].
  - destruct (Z.eqb_spec (l_status_code response) 200) as [Hst|Hst]; simpl;
      [|unfold ret; eauto].
    assert (Hsubs : forall it, In it (items_of (l_json response)) -> i_type it = "dir" ->
              forall w0, exists fs w',
                _get_csv_files_recursive username repository branch it w0 = (Ok fs, w')).
    { intros it Hin Hdir.
      apply (proj1 (List.Forall_forall _ _) (IH response eq_refl) it Hin).
      intros d e Hd. apply Hreq.
      eapply entered_below; eauto; reflexivity. }
    match goal with
    | |- context [visit_all _ _ ?a0 ?w0] =>
        destruct (visit_all_returns _ Hsubs a0 w0) as (fs & w' & Hloop)
    end.
    rewrite Hloop. eauto.
  - unfold raise. rewrite (Hreq _ e (or_introl eq_refl) eq_refl).
    unfold print, ret. simpl. eauto.
Qed.

(** The walk writes no file. *)
Lemma visit_all_files items :
  (forall it, In it items ->
              forall w,
                files (snd (_get_csv_files_recursive username repository branch it w))
                = files w) ->
  forall acc w,
    files (snd (visit_all (_get_csv_files_recursive username repository branch)
                          items acc w)) = files w.
Proof.
  induction items as [|it items IH]; intros Hsub acc w; simpl; [reflexivity|].
  unfold bind.
  destruct (visit it (_get_csv_files_recursive username repository branch it) acc w)
    as [[acc1|e] w1] eqn:Hvisit.
  - rewrite IH by (intros it' Hin; apply Hsub; now right).
    change w1 with (snd (Ok acc1, w1)). rewrite <- Hvisit. clear Hvisit.
    unfold visit. destruct (is_csv_file it); [reflexivity|].
    destruct (String.eqb (i_type it) "dir"); [|reflexivity].
    unfold bind. pose proof (Hsub it (or_introl eq_refl) w) as Hf.
    destruct (_get_csv_files_recursive username repository branch it w) as [[fs|e] w2];
      exact Hf.
  - change w1 with (snd (@Raise (list file_info) e, w1)). rewrite <- Hvisit. clear Hvisit.
    unfold visit. destruct (is_csv_file it); [reflexivity|].
    destruct (String.eqb (i_type it) "dir"); [|reflexivity].
    unfold bind. pose proof (Hsub it (or_introl eq_refl) w) as Hf.
    destruct (_get_csv_files_recursive username repository branch it w) as [[fs|e'] w2];
      exact Hf.
Qed.

Lemma walk_files (dir : item) :
  forall w,
    files (snd (_get_csv_files_recursive username repository branch dir w)) = files w.
Proof.
  induction dir as [t n p u z served IH] using item_tree_ind.
  intros w. rewrite walk_eq.
  unfold try_except, bind, request_contents. simpl.
  destruct served as [response|e].
  - destruct (Z.eqb_spec (l_status_code response) 200) as [Hst|Hst]; simpl;
      [|reflexivity].
    match goal with
    | |- context [visit_all _ _ ?a0 ?w0] =>
        pose proof (visit_all_files (items_of (l_json response))
                      (fun it Hin => proj1 (List.Forall_forall _ _)
                                           (IH response eq_refl) it Hin) a0 w0) as Hf;
        destruct (visit_all (_get_csv_files_recursive username repository branch)
                            (items_of (l_json response)) a0 w0) as [[fs|e1] w1]
    end; simpl in *.
    + exact Hf.
    + destruct (is_RequestException e1); exact Hf.
  - unfold raise. destruct (is_RequestException e); reflexivity.
Qed.



End WalkProperties.

Lemma walk_survives_network_failures_witness :
  (forall d e, entered Cases.patchy_root d -> i_served d = Raise e ->
               is_RequestException e = true)
  /\ forall w, exists csv_files w',
      _get_csv_files_recursive "o" "r" "main" Cases.patchy_root w = (Ok csv_files, w').
Proof.
  assert (H : forall d e, entered Cases.patchy_root d -> i_served d = Raise e ->
                          is_RequestException e = true).
  { intros d e [->|[Hfound Hdir]] Hs; [discriminate Hs|].
    inversion Hfound as [? ? ? Hr _ Hin|? ? sub ? Hr _ Hin _ Hsub]; subst;
      simpl in Hr; injection Hr as <-; simpl in Hin.
    - destruct Hin as [<-|[<-|[<-|[]]]]; simpl in *;
        [discriminate Hdir | injection Hs as <-; reflexivity | discriminate Hs].
    - destruct Hin as [<-|[<-|[<-|[]]]];
        inversion Hsub as [? ? ? Hr' Hst' Hin'|? ? ? ? Hr' Hst' Hin' _ _]; subst;
          simpl in Hr'; try discriminate Hr';
          injection Hr' as <-; simpl in Hst'; discriminate Hst'. }
  split; [exact H|].
  apply (walk_survives_network_failures "o" "r" "main" Cases.patchy_root).
  exact H.
Defined.

(** ** More on the processor *)

Lemma append_length (s1 s2 : string) :
  String.length (s1 +:+ s2) = (String.length s1 + String.length s2)%nat.
Proof.
  induction s1 as [|a s1 IH]; [reflexivity|].
  rewrite append_cons. simpl. now rewrite IH.
Qed.

Lemma append_inj_r (s1 s2 t : string) : s1 +:+ t = s2 +:+ t -> s1 = s2.
Proof.
  revert s2. induction s1 as [|a s1 IH]; intros [|b s2] H.
  - reflexivity.
  - apply (f_equal String.length) in H. rewrite !append_length in H. simpl in H. lia.
  - apply (f_equal String.length) in H. rewrite !append_length in H. simpl in H. lia.
  - rewrite !append_cons in H. injection H as -> H. f_equal. now apply IH.
Qed.

(** Dictionaries: what was set is what is got, the other keys keep their
    values. *)
Lemma dict_get_set_same {V} k (v : V) d : dict_get k (dict_set k v d) = Some v.
Proof.
  induction d as [|[k' v'] d IH]; simpl.
  - now rewrite String.eqb_refl.
  - destruct (String.eqb_spec k k') as [->|Hne]; simpl.
    + now rewrite String.eqb_refl.
    + destruct (String.eqb_spec k k'); [contradiction | exact IH].
Qed.

Lemma dict_get_set_other {V} k k' (v : V) d :
  k' <> k -> dict_get k' (dict_set k v d) = dict_get k' d.
Proof.
  intros Hne. induction d as [|[k0 v0] d IH]; simpl.
  - destruct (String.eqb_spec k' k); [contradiction | reflexivity].
  - destruct (String.eqb_spec k k0) as [->|Hk]; simpl.
    + destruct (String.eqb_spec k' k0); [contradiction | reflexivity].
    + destruct (String.eqb_spec k' k0); [reflexivity | exact IH].
Qed.

Lemma dict_set_sum k v (d : list (string * nat)) :
  (list_sum (map snd (dict_set k v d)) + default 0 (dict_get k d)
   = list_sum (map snd d) + v)%nat.
Proof.
  induction d as [|[k' v'] d IH]; simpl; [lia|].
  destruct (String.eqb_spec k k') as [->|Hne]; simpl; lia.
Qed.

Lemma dict_set_positive k v (d : list (string * nat)) :
  (1 <= v)%nat -> Forall (fun kv => (1 <= snd kv)%nat) d ->
  Forall (fun kv => (1 <= snd kv)%nat) (dict_set k v d).
Proof.
  intros Hv. induction 1 as [|[k' v'] d Hkv Hd IH]; simpl.
  - repeat constructor. exact Hv.
  - destruct (String.eqb k k'); constructor; auto.
Qed.

Lemma dict_set_twice_positive k v0 v (d : list (string * nat)) :
  (1 <= v)%nat -> Forall (fun kv => (1 <= snd kv)%nat) d ->
  Forall (fun kv => (1 <= snd kv)%nat) (dict_set k v (dict_set k v0 d)).
Proof.
  intros Hv. induction 1 as [|[k' v'] d Hkv Hd IH]; simpl.
  - rewrite String.eqb_refl. repeat constructor. exact Hv.
  - destruct (String.eqb_spec k k') as [->|Hne]; simpl.
    + rewrite String.eqb_refl. constructor; auto.
    + destruct (String.eqb_spec k k'); [contradiction|]. constructor; auto.
Qed.

Section ProcessMore.

Variable session_get : nat -> string -> get_outcome.
Variable read_csv : string -> res DataFrame.
Variable csv_header : list string -> string.
Variable csv_line : row -> string.
Variable open_error : string -> option string.
Variable save_dir : string.

(** A path that is the path of no group that opens keeps its content (or
    its absence) through the loop over the groups. *)
Lemma save_tickers_untouched filename p groups :
  Forall (fun kg => pd.has_column "ticker" (snd kg) = true) groups ->
  (forall k g, In (k, g) groups -> open_error (output_path save_dir k) = None ->
               output_path save_dir k <> p) ->
  forall results w,
    files (snd (save_tickers csv_header csv_line open_error save_dir
                             filename groups results w)) !! p
    = files w !! p.
Proof.
  induction groups as [|[k g] groups IH]; intros Hcols Hother results w; [reflexivity|].
  inversion Hcols as [|? ? Hcol Hcols']; subst. simpl in Hcol.
  destruct (drop_has_column _ _ Hcol) as (data & Hdrop).
  simpl. unfold bind at 1.
  rewrite (save_ticker_run csv_header csv_line open_error save_dir
             filename k g data results w Hdrop).
  destruct (open_error (output_path save_dir k)) eqn:Hopen.
  - rewrite IH; [reflexivity | exact Hcols' |].
    intros k' g' Hin. apply (Hother k' g'). now right.
  - rewrite IH; [| exact Hcols' | intros k' g' Hin; apply (Hother k' g'); now right].
    simpl. apply lookup_insert_ne. apply (Hother k g); [now left | exact Hopen].
Qed.

Lemma process_tickers_untouched df filename groups p w :
  pd.groupby "ticker" df = Ok groups ->
  (forall k g, In (k, g) groups -> open_error (output_path save_dir k) = None ->
               output_path save_dir k <> p) ->
  files (snd (_process_tickers csv_header csv_line open_error save_dir df filename w)) !! p
  = files w !! p.
Proof.
  intros Hgroup Hother. destruct (groupby_groups _ _ _ Hgroup) as [Hgroups Hcol].
  unfold _process_tickers, bind, lift. rewrite Hgroup.
  apply save_tickers_untouched; [|exact Hother].
  subst groups. apply List.Forall_forall. intros kg Hin.
  apply in_map_iff in Hin as (k & <- & _). exact Hcol.
Qed.

(** The two ways of the [try] block of [process_csv_file]: it ends before
    any group is visited, with the files as they were and without a
    success; or the table was parsed, its ticker column found and its
    groups visited. *)
Lemma process_csv_file_body_run info w :
  (exists r w',
      process_csv_file_body session_get read_csv csv_header csv_line open_error
                            save_dir info w = (r, w')
      /\ files w' = files w
      /\ forall t d n, r <> Ok (Success t d n))
  \/ (exists content w1 df c groups w',
        download_csv_content session_get (download_url info) w = (Ok content, w1)
        /\ files w1 = files w
        /\ read_csv content = Ok df
        /\ find_ticker_column df = Some c
        /\ pd.groupby "ticker" (pd.rename c "ticker" df) = Ok groups
        /\ _process_tickers csv_header csv_line open_error save_dir
             (pd.rename c "ticker" df) (name info) w1
           = (Ok (map (entry_of save_dir)
                      (List.filter
                         (fun kg => opens open_error (output_path save_dir (fst kg)))
                         groups)), w')
        /\ process_csv_file_body session_get read_csv csv_header csv_line open_error
                                 save_dir info w
           = (match List.filter
                      (fun kg => opens open_error (output_path save_dir (fst kg)))
                      groups with
              | [] => Ok (Failure ("No valid ticker data found in " +:+ name info))
              | first :: _ =>
                  Ok (Success (fst first) 0 (List.length (rows (snd first))))
              end, w')).
Proof.
  destruct (process_csv_file_body session_get read_csv csv_header csv_line open_error
              save_dir info w) as [r w'] eqn:Hbody.
  assert (Hearly : forall w1, files w1 = files w ->
            (exists error, (Ok (Failure error), w1) = (r, w'))
            \/ (exists e, (Raise e, w1) = (r, w')) ->
            exists r0 w0, (r, w') = (r0, w0) /\ files w0 = files w
                          /\ forall t d n, r0 <> Ok (Success t d n)).
  { intros w1 Hfiles [(error & H)|(e & H)]; injection H as <- <-;
      do 2 eexists; (split; [reflexivity|]); (split; [exact Hfiles | discriminate]). }
  unfold process_csv_file_body in Hbody. unfold bind at 1 in Hbody.
  destruct (download_csv_content session_get (download_url info) w)
    as [[content|e] w1] eqn:Hdown;
    pose proof (download_frame _ _ _ _ _ Hdown) as Hfiles1;
    [|left; apply (Hearly w1 Hfiles1); right; eauto].
  unfold bind at 1, lift at 1 in Hbody.
  destruct (read_csv content) as [df|e] eqn:Hread;
    [|left; apply (Hearly w1 Hfiles1); right; eauto].
  destruct (pd.empty df);
    [left; apply (Hearly w1 Hfiles1); left; eauto|].
  unfold bind at 1 in Hbody. rewrite clean_dataframe_run in Hbody.
  destruct (find_ticker_column df) as [c|] eqn:Hfind;
    [|left; eapply Hearly; [|left; eexists; exact Hbody]; exact Hfiles1].
  destruct (pd.empty (pd.rename c "ticker" df));
    [left; apply (Hearly w1 Hfiles1); left; eauto|].
  unfold bind at 1 in Hbody.
  destruct (pd.groupby "ticker" (pd.rename c "ticker" df)) as [groups|e] eqn:Hgroup.
  - right.
    destruct (process_tickers_run read_csv csv_header csv_line open_error save_dir
                _ (name info) _ w1 Hgroup) as (w2 & Hrun & _ & _).
    rewrite Hrun in Hbody.
    exists content, w1, df, c, groups, w2.
    repeat (split; [first [reflexivity | assumption]|]).
    rewrite <- Hbody.
    destruct (List.filter _ groups) as [|first rest]; reflexivity.
  - left. rewrite (process_tickers_raises _ _ _ _ _ _ _ _ Hgroup) in Hbody.
    apply (Hearly w1 Hfiles1). right. eauto.
Qed.

(** The function and its [try] block differ by the dictionary returned
    for an exception; they leave the same world. *)
Lemma process_csv_file_world info w :
  snd (process_csv_file session_get read_csv csv_header csv_line open_error
                        save_dir info w)
  = snd (process_csv_file_body session_get read_csv csv_header csv_line open_error
                               save_dir info w).
Proof.
  unfold process_csv_file, try_except, any_Exception.
  destruct (process_csv_file_body _ _ _ _ _ _ info w) as [[r|e] w']; reflexivity.
Qed.

(** A file that is skipped leaves the output files as they were: when
    [process_csv_file] returns a failure, whatever its reason, no file
    has been created or changed. *)
Theorem skipped_file_writes_nothing (info : file_info) (w w' : World) (error : string) :
  process_csv_file session_get read_csv csv_header csv_line open_error save_dir info w
  = (Ok (Failure error), w') ->
  files w' = files w.
Proof.
  intros Hrun.
  assert (Hw : w' = snd (process_csv_file_body session_get read_csv csv_header csv_line
                           open_error save_dir info w)).
  { rewrite <- process_csv_file_world, Hrun. reflexivity. }
  destruct (process_csv_file_body_run info w)
    as [(r & w1 & Hbody & Hfiles & _)
       |(content & w1 & df & c & groups & w2
         & _ & Hfiles1 & _ & _ & Hgroup & Htick & Hbody)].
  - rewrite Hbody in Hw. simpl in Hw. now subst.
  - rewrite Hbody in Hw. simpl in Hw. subst w2.
    unfold process_csv_file, try_except in Hrun. rewrite Hbody in Hrun.
    destruct (List.filter _ groups) as [|first rest] eqn:Hfilter; [|discriminate].
    rewrite <- Hfiles1. apply map_eq. intros p.
    assert (Hw' : w' = snd (_process_tickers csv_header csv_line open_error save_dir
                              (pd.rename c "ticker" df) (name info) w1))
      by now rewrite Htick.
    rewrite Hw'. apply (process_tickers_untouched _ _ groups); [exact Hgroup|].
    intros k g Hin Hopen. exfalso.
    assert (Hin' : In (k, g) (List.filter
                      (fun kg => opens open_error (output_path save_dir (fst kg))) groups)).
    { apply filter_In. split; [exact Hin|]. unfold opens. simpl. now rewrite Hopen. }
    rewrite Hfilter in Hin'. destruct Hin'.
Qed.

(** The only files that [process_csv_file] creates or changes are files
    of tickers of the table: a path whose content differs afterwards is
    the output path of a value that some row has in the ticker column,
    and it could be opened. *)
Theorem only_ticker_files_change (info : file_info) (w : World) (p : string) :
  files (snd (process_csv_file session_get read_csv csv_header csv_line open_error
                               save_dir info w)) !! p
  <> files w !! p ->
  exists content w1 df c r X,
    download_csv_content session_get (download_url info) w = (Ok content, w1)
    /\ read_csv content = Ok df
    /\ find_ticker_column df = Some c
    /\ In r (rows df)
    /\ pd.key c df r = Some X
    /\ p = output_path save_dir X
    /\ open_error p = None.
Proof.
  rewrite process_csv_file_world. intros Hdiff.
  destruct (process_csv_file_body_run info w)
    as [(r & w1 & Hbody & Hfiles & _)
       |(content & w1 & df & c & groups & w2
         & Hdown & Hfiles1 & Hread & Hfind & Hgroup & Htick & Hbody)].
  - rewrite Hbody in Hdiff. simpl in Hdiff. rewrite Hfiles in Hdiff. contradiction.
  - rewrite Hbody in Hdiff. simpl in Hdiff.
    destruct (List.find (fun kg => opens open_error (output_path save_dir (fst kg))
                                   && String.eqb (output_path save_dir (fst kg)) p)
                        groups) as [[k g]|] eqn:Hsearch.
    + apply find_some in Hsearch as [Hin Hk]. simpl in Hk.
      apply andb_prop in Hk as [Hopen Hp]. apply String.eqb_eq in Hp.
      destruct (groups_In _ _ _ _ _ Hgroup Hin) as [_ Hkey].
      apply list_elem_of_In, list_elem_of_omap in Hkey as (r & Hr & Hkey).
      apply list_elem_of_In in Hr. simpl in Hr.
      pose proof (find_ticker_column_In _ _ Hfind) as Hc.
      pose proof (groupby_rename_single _ _ _ Hc Hgroup) as Hsingle.
      rewrite key_rename in Hkey by exact Hsingle.
      exists content, w1, df, c, r, k.
      repeat (split; [first [assumption | now symmetry]|]).
      subst p. unfold opens in Hopen.
      now destruct (open_error (output_path save_dir k)).
    + exfalso. apply Hdiff. rewrite <- Hfiles1.
      assert (Hw2 : w2 = snd (_process_tickers csv_header csv_line open_error save_dir
                                (pd.rename c "ticker" df) (name info) w1))
        by now rewrite Htick.
      rewrite Hw2. apply (process_tickers_untouched _ _ groups); [exact Hgroup|].
      intros k g Hin Hopen Hp.
      pose proof (find_none _ _ Hsearch (k, g) Hin) as Hnone. simpl in Hnone.
      unfold opens in Hnone. rewrite Hopen, Hp, String.eqb_refl in Hnone. discriminate.
Qed.

(** A table with a column named symbol and a column named ticker is
    skipped: the first becomes a second ticker column, grouping by ticker
    raises, and [process_csv_file] returns a failure without writing
    anything or visiting any group. *)
Theorem second_ticker_column_skipped (info : file_info) (w w1 : World)
    (content : string) (df : DataFrame) (c : string) :
  download_csv_content session_get (download_url info) w = (Ok content, w1) ->
  read_csv content = Ok df ->
  pd.empty df = false ->
  find_ticker_column df = Some c ->
  c <> "ticker" ->
  In "ticker" (columns df) ->
  c = "symbol"
  /\ exists e,
      pd.groupby "ticker" (pd.rename c "ticker" df) = Raise e
      /\ process_csv_file session_get read_csv csv_header csv_line open_error
                          save_dir info w
         = (Ok (Failure ("Error processing " +:+ name info +:+ ": " +:+ str e)), w1)
      /\ files w1 = files w.
Proof.
  intros Hdown Hread Hempty Hfind Hne Hticker.
  pose proof (find_ticker_column_In _ _ Hfind) as Hc.
  split.
  { apply find_first in Hfind as (before & after & Hsplit & _ & Hbefore).
    unfold ticker_columns in Hsplit.
    destruct before as [|b0 before]; [injection Hsplit as <- _; reflexivity|].
    injection Hsplit as <- Hsplit.
    destruct before as [|b1 before]; [injection Hsplit as <- _; congruence|].
    injection Hsplit as <- _.
    assert (Hno : pd.has_column "ticker" df = false) by (apply Hbefore; now right; left).
    apply has_column_In in Hticker. congruence. }
  assert (Hraise : exists e, pd.groupby "ticker" (pd.rename c "ticker" df) = Raise e).
  { unfold pd.groupby, pd.rename. cbn [columns].
    pose proof (rename_count c "ticker" (columns df) Hne) as Hcount.
    pose proof (filter_eqb_In _ _ Hc). pose proof (filter_eqb_In _ _ Hticker).
    destruct (List.filter (String.eqb "ticker")
                (map (fun x => if String.eqb x c then "ticker" else x) (columns df)))
      as [|a [|b l]]; cbn [List.length] in Hcount; [lia | lia | eauto]. }
  destruct Hraise as (e & Hraise). exists e. split; [exact Hraise|].
  split; [|exact (download_frame _ _ _ _ _ Hdown)].
  assert (Hempty' : pd.empty (pd.rename c "ticker" df) = false).
  { unfold pd.empty, pd.rename in *. simpl.
    destruct (columns df), (rows df); simpl in *; congruence. }
  unfold process_csv_file, try_except, any_Exception, process_csv_file_body.
  unfold bind at 1. rewrite Hdown. unfold bind at 1, lift at 1. rewrite Hread, Hempty.
  unfold bind at 1. rewrite clean_dataframe_run, Hfind, Hempty'.
  unfold bind at 1.
  rewrite (process_tickers_raises _ _ _ _ _ _ _ _ Hraise). reflexivity.
Qed.

(** [process_csv_file] only appends. *)
Lemma process_csv_file_extends info w :
  extends (files w)
          (files (snd (process_csv_file session_get read_csv csv_header csv_line
                                        open_error save_dir info w))).
Proof.
  rewrite process_csv_file_world.
  destruct (process_csv_file_body_run info w)
    as [(r & w1 & Hbody & Hfiles & _)
       |(content & w1 & df & c & groups & w2
         & _ & Hfiles1 & _ & _ & Hgroup & Htick & Hbody)];
    rewrite Hbody; simpl.
  - rewrite Hfiles. apply extends_refl.
  - destruct (process_tickers_run read_csv csv_header csv_line open_error save_dir
                _ (name info) _ w1 Hgroup) as (w3 & Hrun & Hext & _).
    rewrite Htick in Hrun. injection Hrun as <-. now rewrite <- Hfiles1.
Qed.

(** One iteration of the loop of the command line: the file is
    processed in the world that follows the line announcing it, and the
    counters move by the result. *)
Lemma process_file_run info t w :
  exists result w1 w2,
    process_csv_file session_get read_csv csv_header csv_line open_error save_dir
      info (snd (print ("📊 Processing file: " +:+ name info) w)) = (Ok result, w1)
    /\ files w2 = files w1
    /\ process_file session_get read_csv csv_header csv_line open_error save_dir
                    info t w
       = (Ok (match result with
              | Success ticker _ _ =>
                  mkTally (total_processed t + 1) (total_errors t)
                    (dict_set ticker
                       (default 0%nat
                          (dict_get ticker
                             (match dict_get ticker (ticker_stats t) with
                              | None => dict_set ticker 0%nat (ticker_stats t)
                              | Some _ => ticker_stats t
                              end)) + 1)%nat
                       (match dict_get ticker (ticker_stats t) with
                        | None => dict_set ticker 0%nat (ticker_stats t)
                        | Some _ => ticker_stats t
                        end))
              | Failure _ =>
                  mkTally (total_processed t) (total_errors t + 1) (ticker_stats t)
              end), w2).
Proof.
  destruct (process_csv_file_returns session_get read_csv csv_header csv_line
              open_error save_dir info
              (snd (print ("📊 Processing file: " +:+ name info) w)))
    as (result & w1 & Hcall).
  exists result, w1.
  unfold process_file, try_except. unfold bind at 1.
  change (print ("📊 Processing file: " +:+ name info) w)
    with (Ok tt, snd (print ("📊 Processing file: " +:+ name info) w)).
  cbv iota. unfold bind at 1. rewrite Hcall.
  destruct result; unfold bind, print, ret; simpl; eexists;
    (split; [exact Hcall|]); (split; [|reflexivity]); reflexivity.
Qed.

(** The loop counts every file once: it returns, and afterwards the files
    counted as processed and the files counted as skipped are, together,
    as many more as there were files; no counter goes down. *)
Theorem loop_counts_every_file (csv_files : list file_info) (t : tally) (w : World) :
  exists t' w',
    process_files session_get read_csv csv_header csv_line open_error save_dir
                  csv_files t w = (Ok t', w')
    /\ (total_processed t' + total_errors t'
        = total_processed t + total_errors t + List.length csv_files)%nat
    /\ (total_processed t <= total_processed t')%nat
    /\ (total_errors t <= total_errors t')%nat.
Proof.
  revert t w. induction csv_files as [|info rest IH]; intros t w; simpl.
  - exists t, w. unfold ret. repeat split; lia.
  - destruct (process_file_run info t w) as (result & w1 & w2 & _ & _ & Hone).
    unfold bind. rewrite Hone.
    match goal with
    | |- context [process_files _ _ _ _ _ _ rest ?t1 w2] =>
        destruct (IH t1 w2) as (t' & w' & Hrest & Hsum & Hp & He)
    end.
    exists t', w'. split; [exact Hrest|].
    destruct result; simpl in *; repeat split; lia.
Qed.

(** What the loop keeps about [ticker_stats]. *)
Lemma process_files_stats csv_files :
  forall t w,
    let t' := match fst (process_files session_get read_csv csv_header csv_line
                                       open_error save_dir csv_files t w) with
              | Ok t' => t'
              | Raise _ => t
              end in
    (list_sum (map snd (ticker_stats t')) + total_processed t
     = list_sum (map snd (ticker_stats t)) + total_processed t')%nat
    /\ (Forall (fun kv => (1 <= snd kv)%nat) (ticker_stats t) ->
        Forall (fun kv => (1 <= snd kv)%nat) (ticker_stats t')).
Proof.
  induction csv_files as [|info rest IH]; intros t w; simpl.
  - split; [lia | auto].
  - destruct (process_file_run info t w) as (result & w1 & w2 & _ & _ & Hone).
    unfold bind. rewrite Hone.
    match goal with
    | |- context [process_files _ _ _ _ _ _ rest ?t1 w2] =>
        destruct (IH t1 w2) as [Hsum Hpos]; revert Hsum Hpos;
        destruct (fst (process_files session_get read_csv csv_header csv_line
                                     open_error save_dir rest t1 w2)) as [t'|e]
    end; destruct result as [ticker d n|error]; simpl; intros Hsum Hpos.
    all: try (split; [lia | exact Hpos]).
    all: set (stats1 := match dict_get ticker (ticker_stats t) with
                        | None => dict_set ticker 0%nat (ticker_stats t)
                        | Some _ => ticker_stats t
                        end) in *.
    all: assert (Hsum1 : list_sum (map snd stats1) = list_sum (map snd (ticker_stats t)))
      by (subst stats1; destruct (dict_get ticker (ticker_stats t)) eqn:Hget;
          [reflexivity|];
          pose proof (dict_set_sum ticker 0%nat (ticker_stats t)) as Hs;
          rewrite Hget in Hs; simpl in Hs; lia).
    all: pose proof (dict_set_sum ticker (default 0%nat (dict_get ticker stats1) + 1)%nat
                                  stats1) as Hs2.
    all: assert (Hpos1 : Forall (fun kv => (1 <= snd kv)%nat) (ticker_stats t) ->
                         Forall (fun kv => (1 <= snd kv)%nat)
                                (dict_set ticker
                                   (default 0%nat (dict_get ticker stats1) + 1)%nat stats1))
      by (intros Hall; subst stats1;
          destruct (dict_get ticker (ticker_stats t));
          [apply dict_set_positive; [lia | exact Hall]
          |apply dict_set_twice_positive; [lia | exact Hall]]).
    all: split; [lia | auto].
Qed.

(** From the counters the command line starts with, the ['files'] counts
    of [ticker_stats] add up to the number of files processed, each
    ticker listed has at least one file, and so no more tickers are
    listed than files were processed. *)
Theorem ticker_stats_add_up (csv_files : list file_info) (w : World) :
  exists t' w',
    process_files session_get read_csv csv_header csv_line open_error save_dir
                  csv_files (mkTally 0 0 []) w = (Ok t', w')
    /\ list_sum (map snd (ticker_stats t')) = total_processed t'
    /\ Forall (fun kv => (1 <= snd kv)%nat) (ticker_stats t')
    /\ (List.length (ticker_stats t') <= total_processed t')%nat.
Proof.
  destruct (process_files_returns session_get read_csv csv_header csv_line open_error
              save_dir csv_files (mkTally 0 0 []) w) as (t' & w' & Hrun).
  exists t', w'. split; [exact Hrun|].
  pose proof (process_files_stats csv_files (mkTally 0 0 []) w) as Hstats.
  rewrite Hrun in Hstats. simpl in Hstats. destruct Hstats as [Hsum Hpos].
  specialize (Hpos (List.Forall_nil _)).
  assert (Hsum' : list_sum (map snd (ticker_stats t')) = total_processed t') by lia.
  split; [exact Hsum'|]. split; [exact Hpos|].
  rewrite <- Hsum'. clear -Hpos.
  induction Hpos as [|[k v] d Hkv Hd IH]; simpl in *; lia.
Qed.

(** The loop only appends: every output file that existed before the
    loop is still there after it, with its old content at the start of
    the new. *)
Lemma process_files_extends (csv_files : list file_info) (t : tally) (w : World) :
  extends (files w)
          (files (snd (process_files session_get read_csv csv_header csv_line
                                     open_error save_dir csv_files t w))).
Proof.
  revert t w. induction csv_files as [|info rest IH]; intros t w; simpl.
  - apply extends_refl.
  - destruct (process_file_run info t w) as (result & w1 & w2 & Hcall & Hfiles & Hone).
    unfold bind. rewrite Hone.
    eapply extends_trans; [|apply IH].
    rewrite Hfiles.
    pose proof (process_csv_file_extends info
                  (snd (print ("📊 Processing file: " +:+ name info) w))) as Hext.
    rewrite Hcall in Hext. exact Hext.
Qed.

End ProcessMore.

(** ** [get_ticker_summary] *)

Lemma endswith_eq (s suf : string) :
  Str.endswith s suf
  = if String.eqb s suf then true
    else match s with
         | EmptyString => false
         | String _ s' => Str.endswith s' suf
         end.
Proof. destruct s; reflexivity. Qed.

Lemma endswith_split (f suf : string) :
  Str.endswith f suf = true -> exists t, f = t +:+ suf.
Proof.
  induction f as [|a f IH]; rewrite endswith_eq;
    match goal with |- context [String.eqb ?x suf] =>
      destruct (String.eqb_spec x suf) as [Heq|_] end.
  - intros _. exists "". now rewrite <- Heq.
  - discriminate.
  - intros _. exists "". now rewrite <- Heq.
  - intros H. destruct (IH H) as (t & ->). exists (String a t). reflexivity.
Qed.

Lemma endswith_append (t suf : string) : Str.endswith (t +:+ suf) suf = true.
Proof.
  induction t as [|a t IH]; rewrite endswith_eq.
  - change ("" +:+ suf) with suf. now rewrite String.eqb_refl.
  - rewrite append_cons, IH. now destruct (String.eqb _ suf).
Qed.

Lemma substring_prefix (t s : string) : String.substring 0 (String.length t) (t +:+ s) = t.
Proof.
  induction t as [|a t IH].
  - change ("" +:+ s) with s. now destruct s.
  - rewrite append_cons. simpl. now rewrite IH.
Qed.

(** The name of the file of a ticker gives the ticker back. *)
Lemma drop_last_4_csv (t : string) : drop_last_4 (t +:+ ".csv") = t.
Proof.
  unfold drop_last_4. rewrite append_length. simpl.
  replace (String.length t + 4 - 4)%nat with (String.length t) by lia.
  apply substring_prefix.
Qed.

Section SummaryFacts.

Variable read_csv : string -> res DataFrame.
Variable listdir : string -> option (res (list string)).
Variable save_dir : string.

(** One name of the listing. *)
Lemma summarise_run filename summary w :
  summarise read_csv save_dir filename summary w
  = (Ok (if Str.endswith filename ".csv"
         then dict_set (drop_last_4 filename)
                       (recorded read_csv w (os_path_join save_dir filename)) summary
         else summary), w).
Proof.
  unfold summarise, recorded. destruct (Str.endswith filename ".csv"); [|reflexivity].
  unfold try_except, bind, read_csv_file, os_path_getsize, any_Exception.
  destruct (files w !! os_path_join save_dir filename) as [content|] eqn:Hfile;
    [|reflexivity].
  destruct (read_csv content) as [df|e]; [|reflexivity].
  rewrite Hfile. reflexivity.
Qed.

(** The loop over the names: it does not raise and leaves the world as
    it was; the keys added are the names that end with [.csv], without
    that ending; the entry of a ticker whose file name is listed is what
    is recorded for the file at the output path of the ticker. *)
Lemma summarise_all_run filenames :
  forall summary w,
  exists summary',
    summarise_all read_csv save_dir filenames summary w = (Ok summary', w)
    /\ (forall ticker,
           In ticker (map fst summary') <->
           In ticker (map fst summary)
           \/ In (ticker +:+ ".csv") filenames)
    /\ (forall X,
           dict_get X summary'
           = if in_dec string_dec (X +:+ ".csv") filenames
             then Some (recorded read_csv w (output_path save_dir X))
             else dict_get X summary).
Proof.
  induction filenames as [|f rest IH]; intros summary w; simpl.
  - exists summary. unfold ret. split; [reflexivity|]. split.
    + intros ticker. tauto.
    + intros X. reflexivity.
  - unfold bind. rewrite summarise_run.
    match goal with
    | |- context [summarise_all _ _ rest ?s1 w] =>
        destruct (IH s1 w) as (summary' & Hrun & Hkeys & Hget); set (summary1 := s1) in *
    end.
    exists summary'. split; [exact Hrun|]. split.
    + intros ticker. rewrite Hkeys. subst summary1.
      destruct (Str.endswith f ".csv") eqn:Hends.
      * destruct (endswith_split _ _ Hends) as (t & ->).
        rewrite drop_last_4_csv.
        assert (Hset : forall (v : summary_entry) d,
                   In ticker (map fst (dict_set t v d)) <-> ticker = t \/ In ticker (map fst d)).
        { intros v d. induction d as [|[k' v'] d IHd]; simpl; [intuition|].
          destruct (String.eqb_spec t k') as [->|Hne]; simpl; [intuition|].
          rewrite IHd. intuition. }
        rewrite Hset. split.
        -- intros [[->|H]|H]; auto.
        -- intros [H|[H|H]]; auto.
           apply append_inj_r in H. subst. auto.
      * split; [intros [H|H]; auto|].
        intros [H|[H|H]]; auto.
        rewrite H in Hends. now rewrite endswith_append in Hends.
    + intros X. rewrite Hget. subst summary1.
      destruct (in_dec string_dec (X +:+ ".csv") rest) as [Hin|Hnin];
        destruct (string_dec f (X +:+ ".csv")) as [->|Hne];
        try reflexivity.
      * rewrite endswith_append, drop_last_4_csv.
        apply dict_get_set_same.
      * destruct (Str.endswith f ".csv") eqn:Hends; [|reflexivity].
        destruct (endswith_split _ _ Hends) as (t & ->).
        rewrite drop_last_4_csv. apply dict_get_set_other.
        intros ->. now apply Hne.
Qed.

(** The summary has one key per listed name that ends with [.csv] (as
    written, in lower case), the name without that ending, and no other
    key; the function leaves the world alone, returns the empty
    dictionary when the save directory does not exist, and raises only
    when listing the directory does. *)
Theorem ticker_summary_keys (w : World) :
  match listdir save_dir with
  | None => get_ticker_summary read_csv listdir save_dir w = (Ok [], w)
  | Some (Raise e) => get_ticker_summary read_csv listdir save_dir w = (Raise e, w)
  | Some (Ok filenames) =>
      exists summary,
        get_ticker_summary read_csv listdir save_dir w = (Ok summary, w)
        /\ forall ticker,
            In ticker (map fst summary) <->
            exists filename,
              In filename filenames
              /\ Str.endswith filename ".csv" = true
              /\ ticker = drop_last_4 filename
  end.
Proof.
  unfold get_ticker_summary.
  destruct (listdir save_dir) as [[filenames|e]|]; [|reflexivity..].
  unfold bind, lift.
  destruct (summarise_all_run filenames [] w) as (summary & Hrun & Hkeys & _).
  exists summary. split; [exact Hrun|].
  intros ticker. rewrite Hkeys. simpl. split.
  - intros [[]|Hin]. exists (ticker +:+ ".csv").
    split; [exact Hin|]. split; [apply endswith_append | now rewrite drop_last_4_csv].
  - intros (filename & Hin & Hends & ->). right.
    destruct (endswith_split _ _ Hends) as (t & ->).
    now rewrite drop_last_4_csv.
Qed.

(** The summary reads what the processor wrote: when the file name of a
    ticker is listed, the entry of the ticker is made from the file at
    the path to which [_process_tickers] writes the rows of that ticker:
    the size of the file and the number of rows parsed from it, or the
    text of the parser's exception after ["Could not read file: "]; a
    file that cannot be opened gives an error entry too. *)
Theorem ticker_summary_reads_output_file (w : World) (filenames : list string)
    (X : string) :
  listdir save_dir = Some (Ok filenames) ->
  In (X +:+ ".csv") filenames ->
  exists summary,
    get_ticker_summary read_csv listdir save_dir w = (Ok summary, w)
    /\ match files w !! output_path save_dir X with
       | Some content =>
           dict_get X summary
           = Some (match read_csv content with
                   | Ok df => Readable (pd.len df) (String.length content)
                   | Raise e => Unreadable ("Could not read file: " +:+ str e)
                   end)
       | None => exists error, dict_get X summary = Some (Unreadable error)
       end.
Proof.
  intros Hlist Hin. unfold get_ticker_summary. rewrite Hlist.
  unfold bind, lift.
  destruct (summarise_all_run filenames [] w) as (summary & Hrun & _ & Hget).
  exists summary. split; [exact Hrun|].
  rewrite Hget. destruct (in_dec string_dec (X +:+ ".csv") filenames); [|contradiction].
  unfold recorded. destruct (files w !! output_path save_dir X); eauto.
Qed.

End SummaryFacts.

(** ** The command line *)

Section CliFacts.

Variable session_get : nat -> string -> get_outcome.
Variable read_csv : string -> res DataFrame.
Variable csv_header : list string -> string.
Variable csv_line : row -> string.
Variable open_error : string -> option string.
Variable strip : string -> string.
Variable makedirs_error : string -> option string.

(** A first attempt that is accepted ends the call at once. *)
Lemma make_request_first url w response :
  session_get (List.length (requested w)) url = Got response ->
  rate_limited response = false ->
  _make_request session_get url default_max_retries w
  = (Ok response, mkWorld (stdout w) (slept w) (requested w ++ [url]) (files w)).
Proof.
  intros Hget Hrate.
  unfold _make_request, default_max_retries. simpl.
  unfold bind, attempt_body, try_except, bind, get. rewrite Hget, Hrate. reflexivity.
Qed.

(** Fetching the list of files writes no file. *)
Lemma fetch_csv_files_files root username repository branch w :
  files (snd (fetch_csv_files session_get root username repository branch w)) = files w.
Proof.
  unfold fetch_csv_files, try_except, bind.
  destruct (_make_request session_get (repo_url username repository)
              default_max_retries w) as [[response|e] w1] eqn:Hreq;
    destruct (make_request_frame _ _ _ _ _ Hreq) as [_ Hfiles].
  - destruct (status_code response =? 404)%Z; [exact Hfiles|].
    destruct (negb (status_code response =? 200)%Z); [exact Hfiles|].
    pose proof (walk_files username repository branch (Item "dir" "" "" "" 0 root) w1)
      as Hwalk.
    destruct (_get_csv_files_recursive username repository branch
                (Item "dir" "" "" "" 0 root) w1) as [[fs|e] w2]; simpl in *.
    + congruence.
    + destruct (is_RequestException e); simpl; congruence.
  - destruct (is_RequestException e); exact Hfiles.
Qed.

Lemma echo_ticker_stats_run stats w :
  exists w', echo_ticker_stats stats w = (Ok tt, w') /\ files w' = files w.
Proof.
  revert w. induction stats as [|[ticker n] stats IH]; intros w; simpl.
  - exists w. split; reflexivity.
  - unfold bind, print. simpl.
    match goal with
    | |- context [echo_ticker_stats stats ?w1] =>
        destruct (IH w1) as (w' & Hrun & Hfiles)
    end.
    exists w'. split; [exact Hrun | exact Hfiles].
Qed.

(** A repository that does not exist: when both names are given, the
    save directory can be made and the first answer to the repository
    lookup has status 404, the command prints its banner, the two
    prompts, the line announcing the download and then the line
    ["Unexpected error: Repository <user>/<repo> not found or is not
    public"], after a single request, without sleeping and without
    touching a file; it does not raise. *)
Theorem cli_reports_missing_repository (branch save_dir : string)
    (username_input repository_input : string) (root : res (listing item))
    (w : World) (response : Response) :
  strip username_input <> "" ->
  strip repository_input <> "" ->
  makedirs_error save_dir = None ->
  session_get (List.length (requested w))
              (repo_url (strip username_input) (strip repository_input))
  = Got response ->
  status_code response = 404%Z ->
  gitdata_cli session_get read_csv csv_header csv_line open_error strip makedirs_error
              branch save_dir username_input repository_input root w
  = (Ok tt,
     mkWorld (stdout w
              ++ [ "🚀 GitData - Financial Data Fetcher";
                   rule_40;
                   "Enter GitHub username: ";
                   "Enter repository name: ";
                   LF +:+ "📥 Downloading CSV files from " +:+ strip username_input
                   +:+ "/" +:+ strip repository_input +:+ " (branch: " +:+ branch +:+ ")...";
                   LF +:+ "❌ Unexpected error: " +:+
                   ("Repository " +:+ strip username_input +:+ "/"
                    +:+ strip repository_input +:+ " not found or is not public") ])
             (slept w)
             (requested w ++ [repo_url (strip username_input) (strip repository_input)])
             (files w)).
Proof.
  intros Huser Hrepo Hmk Hget H404.
  assert (Hrate : rate_limited response = false)
    by (unfold rate_limited; rewrite H404; reflexivity).
  unfold gitdata_cli, prompt. unfold bind at 1, print at 1. cbv iota.
  unfold bind at 1, print at 1. cbv iota.
  unfold bind at 1. unfold bind at 1, print at 1, ret at 1. cbv iota beta.
  destruct (String.eqb_spec (strip username_input) "") as [|_]; [contradiction|].
  unfold bind at 1. unfold bind at 1, print at 1, ret at 1. cbv iota beta.
  destruct (String.eqb_spec (strip repository_input) "") as [|_]; [contradiction|].
  unfold try_except, any_Exception.
  unfold bind at 1, os_makedirs. rewrite Hmk. cbv iota.
  unfold bind at 1, print at 1. cbv iota.
  unfold bind at 1.
  unfold fetch_csv_files, try_except. unfold bind at 1.
  erewrite make_request_first; [|exact Hget|exact Hrate].
  rewrite H404. simpl. unfold print. simpl.
  rewrite <- !app_assoc. reflexivity.
Qed.

(** An empty name ends the command before anything is done: when the
    user name, or else the repository name, is empty once stripped, the
    command prints the banner, the prompts asked so far and the line that
    says which name cannot be empty; it sends no request, creates no
    directory, writes no file and returns. *)
Theorem cli_rejects_empty_names (branch save_dir : string)
    (username_input repository_input : string) (root : res (listing item)) (w : World) :
  strip username_input = "" \/ strip repository_input = "" ->
  gitdata_cli session_get read_csv csv_header csv_line open_error strip makedirs_error
              branch save_dir username_input repository_input root w
  = (Ok tt,
     mkWorld (stdout w
              ++ (if String.eqb (strip username_input) ""
                  then [ "🚀 GitData - Financial Data Fetcher"; rule_40;
                         "Enter GitHub username: ";
                         "❌ Username cannot be empty" ]
                  else [ "🚀 GitData - Financial Data Fetcher"; rule_40;
                         "Enter GitHub username: ";
                         "Enter repository name: ";
                         "❌ Repository name cannot be empty" ]))
             (slept w) (requested w) (files w)).
Proof.
  intros Hempty.
  unfold gitdata_cli, prompt. unfold bind at 1, print at 1. cbv iota.
  unfold bind at 1, print at 1. cbv iota.
  unfold bind at 1. unfold bind at 1, print at 1, ret at 1. cbv iota beta.
  destruct (String.eqb_spec (strip username_input) "") as [Hu|Hu].
  - unfold print. simpl. rewrite <- !app_assoc. reflexivity.
  - destruct Hempty as [|Hr]; [contradiction|].
    unfold bind at 1. unfold bind at 1, print at 1, ret at 1. cbv iota beta.
    rewrite Hr. simpl. unfold print. simpl. rewrite <- !app_assoc. reflexivity.
Qed.

(** The command reports and does not raise, and it only appends:
    whatever the answers, the network, the repository and the tables, it
    returns, and every file that existed before is still there with its
    old content at the start of the new. *)
Theorem cli_returns_and_only_appends (branch save_dir : string)
    (username_input repository_input : string) (root : res (listing item)) (w : World) :
  exists w',
    gitdata_cli session_get read_csv csv_header csv_line open_error strip makedirs_error
                branch save_dir username_input repository_input root w = (Ok tt, w')
    /\ extends (files w) (files w').
Proof.
  unfold gitdata_cli, prompt. unfold bind at 1, print at 1. cbv iota.
  unfold bind at 1, print at 1. cbv iota.
  unfold bind at 1. unfold bind at 1, print at 1, ret at 1. cbv iota beta.
  destruct (String.eqb (strip username_input) "");
    [eexists; split; [reflexivity | apply extends_refl]|].
  unfold bind at 1. unfold bind at 1, print at 1, ret at 1. cbv iota beta.
  destruct (String.eqb (strip repository_input) "");
    [eexists; split; [reflexivity | apply extends_refl]|].
  unfold try_except, any_Exception.
  unfold bind at 1, os_makedirs.
  destruct (makedirs_error save_dir);
    [eexists; split; [reflexivity | apply extends_refl]|].
  cbv iota. unfold bind at 1, print at 1. cbv iota.
  unfold bind at 1.
  match goal with
  | |- context [fetch_csv_files session_get root ?u ?r branch ?w0] =>
      pose proof (fetch_csv_files_files root u r branch w0) as Hfetch;
      destruct (fetch_csv_files session_get root u r branch w0) as [[csv_files|e] w1]
  end; simpl in Hfetch;
    [|eexists; split; [reflexivity | simpl; rewrite Hfetch; apply extends_refl]].
  destruct csv_files as [|info rest];
    [eexists; split; [reflexivity | simpl; rewrite Hfetch; apply extends_refl]|].
  unfold bind at 1, print at 1. cbv iota.
  unfold bind at 1.
  match goal with
  | |- context [process_files _ _ _ _ _ _ ?l ?t0 ?w0] =>
      pose proof (process_files_extends session_get read_csv csv_header csv_line
                    open_error save_dir l t0 w0) as Hext;
      destruct (process_files_returns session_get read_csv csv_header csv_line
                  open_error save_dir l t0 w0) as (t & w2 & Hrun)
  end.
  rewrite Hrun in Hext |- *. simpl in Hext. rewrite Hfetch in Hext.
  unfold bind at 1, print at 1. cbv iota.
  unfold bind at 1, print at 1. cbv iota.
  unfold bind at 1, print at 1. cbv iota.
  unfold bind at 1, print at 1. cbv iota.
  unfold bind at 1.
  destruct (ticker_stats t) as [|kv stats] eqn:Hstats.
  - eexists. split; [reflexivity | exact Hext].
  - unfold bind at 1, print at 1. cbv iota.
    match goal with
    | |- context [echo_ticker_stats ?s ?w0] =>
        destruct (echo_ticker_stats_run s w0) as (w3 & Hecho & Hfiles3)
    end.
    rewrite Hecho. eexists. split; [reflexivity|].
    simpl. rewrite Hfiles3. exact Hext.
Qed.

End CliFacts.

(** ** The further properties at work on the small worlds *)

Lemma skipped_file_writes_nothing_witness :
  process_csv_file Demo.net_404 Demo.read_csv Demo.csv_header Demo.csv_line
    Demo.open_error Demo.save_dir Demo.prices_info Demo.w0
  = (Ok (Failure "Error processing prices.csv: Failed to download file: HTTP 404"),
     Demo.w_downloaded)
  /\ files Demo.w_downloaded = files Demo.w0.
Proof.
  split; [reflexivity|].
  apply (skipped_file_writes_nothing Demo.net_404 Demo.read_csv Demo.csv_header
           Demo.csv_line Demo.open_error Demo.save_dir Demo.prices_info Demo.w0
           Demo.w_downloaded
           "Error processing prices.csv: Failed to download file: HTTP 404").
  reflexivity.
Defined.

Lemma only_ticker_files_change_witness :
  files (snd (process_csv_file Demo.net_prices Demo.read_csv Demo.csv_header
                Demo.csv_line Demo.open_error Demo.save_dir Demo.prices_info Demo.w0))
    !! "./data/AAPL.csv"
  <> files Demo.w0 !! "./data/AAPL.csv"
  /\ exists content w1 df c r X,
      download_csv_content Demo.net_prices (download_url Demo.prices_info) Demo.w0
      = (Ok content, w1)
      /\ Demo.read_csv content = Ok df
      /\ find_ticker_column df = Some c
      /\ In r (rows df)
      /\ pd.key c df r = Some X
      /\ "./data/AAPL.csv" = output_path Demo.save_dir X
      /\ Demo.open_error "./data/AAPL.csv" = None.
Proof.
  assert (H : files (snd (process_csv_file Demo.net_prices Demo.read_csv Demo.csv_header
                            Demo.csv_line Demo.open_error Demo.save_dir
                            Demo.prices_info Demo.w0)) !! "./data/AAPL.csv"
              <> files Demo.w0 !! "./data/AAPL.csv")
    by (vm_compute; discriminate).
  split; [exact H|].
  apply (only_ticker_files_change Demo.net_prices Demo.read_csv Demo.csv_header
           Demo.csv_line Demo.open_error Demo.save_dir Demo.prices_info Demo.w0
           "./data/AAPL.csv").
  exact H.
Defined.

Lemma second_ticker_column_skipped_witness :
  download_csv_content Cases.net_both (download_url Demo.prices_info) Demo.w0
  = (Ok Cases.both_text, Demo.w_downloaded)
  /\ Cases.read_both Cases.both_text = Ok Cases.both
  /\ pd.empty Cases.both = false
  /\ find_ticker_column Cases.both = Some "symbol"
  /\ "symbol" <> "ticker"
  /\ In "ticker" (columns Cases.both)
  /\ "symbol" = "symbol"
  /\ exists e,
      pd.groupby "ticker" (pd.rename "symbol" "ticker" Cases.both) = Raise e
      /\ process_csv_file Cases.net_both Cases.read_both Demo.csv_header Demo.csv_line
           Demo.open_error Demo.save_dir Demo.prices_info Demo.w0
         = (Ok (Failure ("Error processing " +:+ name Demo.prices_info +:+ ": " +:+ str e)),
            Demo.w_downloaded)
      /\ files Demo.w_downloaded = files Demo.w0.
Proof.
  split; [reflexivity|]. split; [reflexivity|]. split; [reflexivity|].
  split; [reflexivity|]. split; [discriminate|]. split; [now right; left|].
  apply (second_ticker_column_skipped Cases.net_both Cases.read_both Demo.csv_header
           Demo.csv_line Demo.open_error Demo.save_dir Demo.prices_info
           Demo.w0 Demo.w_downloaded Cases.both_text Cases.both "symbol");
    [reflexivity | reflexivity | reflexivity | reflexivity | discriminate
     | now right; left].
Defined.

Lemma ticker_summary_reads_output_file_witness :
  Cases.listdir Demo.save_dir = Some (Ok ["notes.txt"; "AAPL.csv"])
  /\ In ("AAPL" +:+ ".csv") ["notes.txt"; "AAPL.csv"]
  /\ exists summary,
      get_ticker_summary Cases.read_stored Cases.listdir Demo.save_dir Demo.w_processed
      = (Ok summary, Demo.w_processed)
      /\ match files Demo.w_processed !! output_path Demo.save_dir "AAPL" with
         | Some content =>
             dict_get "AAPL" summary
             = Some (match Cases.read_stored content with
                     | Ok df => Readable (pd.len df) (String.length content)
                     | Raise e => Unreadable ("Could not read file: " +:+ str e)
                     end)
         | None => exists error, dict_get "AAPL" summary = Some (Unreadable error)
         end.
Proof.
  split; [reflexivity|]. split; [now right; left|].
  apply (ticker_summary_reads_output_file Cases.read_stored Cases.listdir Demo.save_dir
           Demo.w_processed ["notes.txt"; "AAPL.csv"] "AAPL");
    [reflexivity | now right; left].
Defined.

Lemma cli_reports_missing_repository_witness :
  Cases.strip " o " <> ""
  /\ Cases.strip "r" <> ""
  /\ Cases.makedirs_ok "./data" = None
  /\ Demo.net_404 (List.length (requested Demo.w0))
                  (repo_url (Cases.strip " o ") (Cases.strip "r"))
     = Got (mkResponse 404 "Not Found")
  /\ status_code (mkResponse 404 "Not Found") = 404%Z
  /\ gitdata_cli Demo.net_404 Demo.read_csv Demo.csv_header Demo.csv_line
       Demo.open_error Cases.strip Cases.makedirs_ok
       "main" "./data" " o " "r" Demo.repo_root Demo.w0
     = (Ok tt,
        mkWorld (stdout Demo.w0
                 ++ [ "🚀 GitData - Financial Data Fetcher";
                      rule_40;
                      "Enter GitHub username: ";
                      "Enter repository name: ";
                      LF +:+ "📥 Downloading CSV files from " +:+ Cases.strip " o "
                      +:+ "/" +:+ Cases.strip "r" +:+ " (branch: " +:+ "main" +:+ ")...";
                      LF +:+ "❌ Unexpected error: " +:+
                      ("Repository " +:+ Cases.strip " o " +:+ "/"
                       +:+ Cases.strip "r" +:+ " not found or is not public") ])
                (slept Demo.w0)
                (requested Demo.w0 ++ [repo_url (Cases.strip " o ") (Cases.strip "r")])
                (files Demo.w0)).
Proof.
  split; [discriminate|]. split; [discriminate|]. split; [reflexivity|].
  split; [reflexivity|]. split; [reflexivity|].
  apply (cli_reports_missing_repository Demo.net_404 Demo.read_csv Demo.csv_header
           Demo.csv_line Demo.open_error Cases.strip Cases.makedirs_ok
           "main" "./data" " o " "r" Demo.repo_root Demo.w0
           (mkResponse 404 "Not Found"));
    [discriminate | discriminate | reflexivity | reflexivity | reflexivity].
Defined.

Lemma cli_rejects_empty_names_witness :
  (Cases.strip "   " = "" \/ Cases.strip "r" = "")
  /\ gitdata_cli Demo.net_prices Demo.read_csv Demo.csv_header Demo.csv_line
       Demo.open_error Cases.strip Cases.makedirs_ok
       "main" "./data" "   " "r" Demo.repo_root Demo.w0
     = (Ok tt,
        mkWorld (stdout Demo.w0
                 ++ (if String.eqb (Cases.strip "   ") ""
                     then [ "🚀 GitData - Financial Data Fetcher"; rule_40;
                            "Enter GitHub username: ";
                            "❌ Username cannot be empty" ]
                     else [ "🚀 GitData - Financial Data Fetcher"; rule_40;
                            "Enter GitHub username: ";
                            "Enter repository name: ";
                            "❌ Repository name cannot be empty" ]))
                (slept Demo.w0) (requested Demo.w0) (files Demo.w0)).
Proof.
  split; [left; reflexivity|].
  apply (cli_rejects_empty_names Demo.net_prices Demo.read_csv Demo.csv_header
           Demo.csv_line Demo.open_error Cases.strip Cases.makedirs_ok
           "main" "./data" "   " "r" Demo.repo_root Demo.w0).
  left. reflexivity.
Defined.
